(** * GitHub Pages MCP server: tool dispatch, validation and handlers

    A shallow embedding of [src/index.ts].  The server receives a tool name
    and raw JSON arguments, validates the arguments with a Zod schema,
    and drives the Octokit client.  The embedding keeps three layers apart:

    - [json] values and the JavaScript notions the handlers rely on
      (truthiness, [||] defaults, property lookup);
    - the Zod combinators the five schemas are built from, with the issue
      paths and messages of Zod 3's default error map;
    - the handlers, written in a small monad that records every upstream
      request in a trace and threads thrown errors, so that "no upstream call"
      is the statement that the trace did not grow. *)

From Stdlib Require Import String Ascii List ZArith Bool Lia.
From Stdlib Require Import DecimalString.
Import ListNotations.
Local Open Scope string_scope.
Local Open Scope list_scope.

Set Implicit Arguments.

(** String concatenation, JavaScript's [+] on strings; [++] stays with lists. *)
Local Infix "+++" := String.append (right associativity, at level 60).

(** ** JSON values as they reach the server *)

(** A decoded JSON value.  A number is kept as an integer: the handlers only
    ever ask of a number whether it is a string (it is not) and whether it is
    falsy (it is when zero).  An object is its list of own properties; a
    property that is absent reads as [undefined], which is [None] below. *)
#[warnings="-register-all"]
Inductive json : Type :=
| JNull
| JBool (b : bool)
| JNum (n : Z)
| JStr (s : string)
| JArr (items : list json)
| JObj (props : list (string * json)).

(** [data[key]] on an object: the first binding of [key], [undefined] if none. *)
Fixpoint lookup (key : string) (props : list (string * json)) : option json :=
  match props with
  | [] => None
  | (k, v) :: rest => if String.eqb k key then Some v else lookup key rest
  end.

(** JavaScript truthiness of a possibly undefined JSON value. *)
Definition truthy (v : option json) : bool :=
  match v with
  | None => false
  | Some JNull => false
  | Some (JBool b) => b
  | Some (JNum n) => negb (Z.eqb n 0)
  | Some (JStr s) => negb (String.eqb s "")
  | Some (JArr _) => true
  | Some (JObj _) => true
  end.

(** [s || d] for an optional string [s]: [d] when [s] is undefined or empty. *)
Definition or_default (s : option string) (d : string) : string :=
  match s with
  | Some x => if String.eqb x "" then d else x
  | None => d
  end.

(** An object literal handed to [JSON.stringify]: properties whose value is
    [undefined] are dropped, the others keep their order. *)
Fixpoint defined_props (fields : list (string * option json))
  : list (string * json) :=
  match fields with
  | [] => []
  | (k, Some v) :: rest => (k, v) :: defined_props rest
  | (_, None) :: rest => defined_props rest
  end.

Definition object_literal (fields : list (string * option json)) : json :=
  JObj (defined_props fields).

(** ** Zod *)

Module Zod.

(** One segment of an issue path: a property name or an array index. *)
Inductive PathElem : Type :=
| Key (k : string)
| Index (i : nat).

Record ZodIssue : Type := mkIssue {
  path : list PathElem;
  message : string
}.

(** The outcome of [schema.parse]: the list of all issues found (what a
    [ZodError] carries), or the typed value. *)
Definition Validation (A : Type) : Type := (list ZodIssue + A)%type.

(** A schema reads the value found at a path; [None] is [undefined]. *)
Definition ZodType (A : Type) : Type :=
  list PathElem -> option json -> Validation A.

Definition vmap {A B} (f : A -> B) (x : Validation A) : Validation B :=
  match x with
  | inl e => inl e
  | inr a => inr (f a)
  end.

(** Both sides are always parsed and their issues kept in order. *)
Definition vap {A B} (f : Validation (A -> B)) (x : Validation A)
  : Validation B :=
  match f, x with
  | inr g, inr a => inr (g a)
  | inl e, inr _ => inl e
  | inr _, inl e => inl e
  | inl e1, inl e2 => inl (e1 ++ e2)
  end.

(** [getParsedType], restricted to what JSON can hold. *)
Definition getParsedType (v : option json) : string :=
  match v with
  | None => "undefined"
  | Some JNull => "null"
  | Some (JBool _) => "boolean"
  | Some (JNum _) => "number"
  | Some (JStr _) => "string"
  | Some (JArr _) => "array"
  | Some (JObj _) => "object"
  end.

(** The default error map on [invalid_type]. *)
Definition invalid_type (p : list PathElem) (expected : string)
           (v : option json) : ZodIssue :=
  mkIssue p
    (match v with
     | None => "Required"
     | Some _ => "Expected " +++ expected +++ ", received " +++ getParsedType v
     end).

(** [util.joinValues]: each option quoted, separated by [" | "]. *)
Definition joinValues (values : list string) : string :=
  String.concat " | " (map (fun v => "'" +++ v +++ "'") values).

Definition invalid_enum_value (p : list PathElem) (values : list string)
           (received : string) : ZodIssue :=
  mkIssue p ("Invalid enum value. Expected " +++ joinValues values
             +++ ", received '" +++ received +++ "'").

Definition z_string : ZodType string := fun p v =>
  match v with
  | Some (JStr s) => inr s
  | _ => inl [invalid_type p "string" v]
  end.

Definition z_enum (values : list string) : ZodType string := fun p v =>
  match v with
  | Some (JStr s) =>
      if existsb (String.eqb s) values then inr s
      else inl [invalid_enum_value p values s]
  | _ => inl [invalid_type p (joinValues values) v]
  end.

Definition z_optional {A} (inner : ZodType A) : ZodType (option A) :=
  fun p v =>
    match v with
    | None => inr None
    | Some _ => vmap Some (inner p v)
    end.

(** Items are parsed left to right, item [i] at path [p ++ [i]]. *)
Fixpoint parse_items {A} (item : ZodType A) (p : list PathElem) (i : nat)
         (items : list json) : Validation (list A) :=
  match items with
  | [] => inr []
  | x :: rest =>
      vap (vmap cons (item (p ++ [Index i]) (Some x)))
          (parse_items item p (S i) rest)
  end.

Definition z_array {A} (item : ZodType A) : ZodType (list A) := fun p v =>
  match v with
  | Some (JArr items) => parse_items item p 0 items
  | _ => inl [invalid_type p "array" v]
  end.

(** The shape of an object: its keys are parsed in declaration order,
    unknown keys are stripped. *)
Definition Shape (A : Type) : Type :=
  list PathElem -> list (string * json) -> Validation A.

Definition shape_pure {A} (a : A) : Shape A := fun _ _ => inr a.

Definition shape_ap {A B} (f : Shape (A -> B)) (x : Shape A) : Shape B :=
  fun p o => vap (f p o) (x p o).

Definition field {A} (key : string) (s : ZodType A) : Shape A :=
  fun p o => s (p ++ [Key key]) (lookup key o).

Definition z_object {A} (shape : Shape A) : ZodType A := fun p v =>
  match v with
  | Some (JObj o) => shape p o
  | _ => inl [invalid_type p "object" v]
  end.

Definition parse {A} (s : ZodType A) (data : option json) : Validation A :=
  s [] data.

(** [String(elem)] as [Array.prototype.join] applies it to a path segment. *)
Definition show_elem (e : PathElem) : string :=
  match e with
  | Key k => k
  | Index i => NilEmpty.string_of_uint (Nat.to_uint i)
  end.

(** [e.path.join(".")] *)
Definition show_path (p : list PathElem) : string :=
  String.concat "." (map show_elem p).

End Zod.

Import Zod.

Declare Scope shape_scope.
Delimit Scope shape_scope with shape.
Notation "f <$> x" := (shape_ap (shape_pure f) x)
  (at level 61, left associativity) : shape_scope.
Notation "f <*> x" := (shape_ap f x)
  (at level 61, left associativity) : shape_scope.

(** ** Tool input schemas *)

(** The typed values the schemas infer.  Enumerated fields stay strings, as
    at run time. *)
Record SourceInput : Type := mkSource {
  src_branch : string;
  src_path : option string
}.

Record EnableInput : Type := mkEnable {
  en_owner : string;
  en_repo : string;
  en_source : SourceInput;
  en_build_type : option string
}.

Record RepoInput : Type := mkRepo {
  rp_owner : string;
  rp_repo : string
}.

Record FileChange : Type := mkFile {
  f_path : string;
  f_content : string;
  f_encoding : option string
}.

Record DeployInput : Type := mkDeploy {
  dp_owner : string;
  dp_repo : string;
  dp_branch : string;
  dp_message : option string;
  dp_files : option (list FileChange)
}.

Record UpdateInput : Type := mkUpdate {
  up_owner : string;
  up_repo : string;
  up_source : option SourceInput;
  up_build_type : option string;
  up_cname : option string
}.

Definition path_values : list string := ["/"; "/docs"].
Definition build_type_values : list string := ["legacy"; "workflow"].
Definition encoding_values : list string := ["utf-8"; "base64"].

Definition SourceSchema : ZodType SourceInput :=
  z_object (mkSource <$> field "branch" z_string
                     <*> field "path" (z_optional (z_enum path_values)))%shape.

Definition EnableGithubPagesSchema : ZodType EnableInput :=
  z_object (mkEnable <$> field "owner" z_string
                     <*> field "repo" z_string
                     <*> field "source" SourceSchema
                     <*> field "build_type"
                           (z_optional (z_enum build_type_values)))%shape.

Definition GetGithubPagesInfoSchema : ZodType RepoInput :=
  z_object (mkRepo <$> field "owner" z_string
                   <*> field "repo" z_string)%shape.

Definition FileSchema : ZodType FileChange :=
  z_object (mkFile <$> field "path" z_string
                   <*> field "content" z_string
                   <*> field "encoding"
                         (z_optional (z_enum encoding_values)))%shape.

Definition DeployToGithubPagesSchema : ZodType DeployInput :=
  z_object (mkDeploy <$> field "owner" z_string
                     <*> field "repo" z_string
                     <*> field "branch" z_string
                     <*> field "message" (z_optional z_string)
                     <*> field "files"
                           (z_optional (z_array FileSchema)))%shape.

Definition DisableGithubPagesSchema : ZodType RepoInput :=
  z_object (mkRepo <$> field "owner" z_string
                   <*> field "repo" z_string)%shape.

Definition UpdateGithubPagesConfigSchema : ZodType UpdateInput :=
  z_object (mkUpdate <$> field "owner" z_string
                     <*> field "repo" z_string
                     <*> field "source" (z_optional SourceSchema)
                     <*> field "build_type"
                           (z_optional (z_enum build_type_values))
                     <*> field "cname" (z_optional z_string))%shape.

(** ** The Octokit client *)

(** What a handler's [catch (error: any)] reads from a thrown value:
    [error.status], [error.message] and [error.response?.data]. *)
Record JsError : Type := mkError {
  status : option Z;
  err_message : string;
  response_data : option json
}.

(** [error.status === code] *)
Definition status_is (error : JsError) (code : Z) : bool :=
  match status error with
  | Some s => Z.eqb s code
  | None => false
  end.

(** [new Error(msg)] *)
Definition new_Error (msg : string) : JsError := mkError None msg None.

(** [response.data] of the three Pages endpoints that answer with settings;
    a property the upstream left out is [None]. *)
Record PagesData : Type := mkPages {
  html_url : option json;
  pg_status : option json;
  pg_cname : option json;
  custom_404 : option json;
  pg_source : option json;
  pg_build_type : option json;
  pg_public : option json
}.

Record TreeItem : Type := mkTreeItem {
  ti_path : string;
  ti_mode : string;
  ti_type : string;
  ti_sha : string
}.

(** The parameter object of [updateInformationAboutPagesSite]: a key that was
    never assigned is [None]; [cname] is typed [string | null], the inner
    [None] being [null]. *)
Record UpdateParams : Type := mkUpdateParams {
  p_owner : string;
  p_repo : string;
  p_source : option (string * string);
  p_build_type : option string;
  p_cname : option (option string)
}.

(** One request to the upstream API, with the parameters it was given. *)
Inductive Request : Type :=
| CreatePagesSite (owner repo branch path build_type : string)
| GetPages (owner repo : string)
| DeletePagesSite (owner repo : string)
| UpdateInformationAboutPagesSite (params : UpdateParams)
| GetRef (owner repo ref : string)
| GetCommit (owner repo commit_sha : string)
| CreateBlob (owner repo content encoding : string)
| CreateTree (owner repo : string) (tree : list TreeItem) (base_tree : string)
| CreateCommit (owner repo message tree : string) (parents : list string)
| UpdateRef (owner repo ref sha : string).

(** Every request issued so far, oldest first. *)
Definition Trace : Type := list Request.

(** A settled promise: when it settled and how. *)
Definition Settled (A : Type) : Type := (nat * (JsError + A))%type.

(** The upstream as the handlers see it.  Each endpoint answers a request
    from the requests issued before it, so the upstream may keep state; an
    answer is the data the handler reads from the response or the error the
    call throws.  Blob creations are not awaited one by one, so theirs also
    says when it settles. *)
Record Octokit : Type := mkOctokit {
  createPagesSite : Trace -> string -> string -> string -> string -> string
                    -> JsError + PagesData;
  getPages : Trace -> string -> string -> JsError + PagesData;
  deletePagesSite : Trace -> string -> string -> JsError + unit;
  updateInformationAboutPagesSite : Trace -> UpdateParams
                                    -> JsError + PagesData;
  getRef : Trace -> string -> string -> string -> JsError + string;
  getCommit : Trace -> string -> string -> string -> JsError + string;
  createBlob : Trace -> string -> string -> string -> string
               -> Settled string;
  createTree : Trace -> string -> string -> list TreeItem -> string
               -> JsError + string;
  createCommit : Trace -> string -> string -> string -> string -> list string
                 -> JsError + string;
  updateRef : Trace -> string -> string -> string -> string -> JsError + unit
}.

(** ** Handlers *)

(** A computation inside a handler's [try] block: it extends the trace of
    upstream requests and either yields a value or throws. *)
Definition M (A : Type) : Type := Trace -> Trace * (JsError + A).

Definition ret {A} (a : A) : M A := fun h => (h, inr a).

Definition throw {A} (e : JsError) : M A := fun h => (h, inl e).

Definition bind {A B} (m : M A) (k : A -> M B) : M B := fun h =>
  match m h with
  | (h', inr a) => k a h'
  | (h', inl e) => (h', inl e)
  end.

Notation "x <- m ;; k" := (bind m (fun x => k))
  (at level 100, m at next level, right associativity).

(** [await octokit.<endpoint>(...)]: the request joins the trace, the upstream
    answers from what it saw before. *)
Definition await {A} (r : Request) (answer : Trace -> JsError + A) : M A :=
  fun h => (h ++ [r], answer h).

(** What a tool call returns: [content] is the object that
    [JSON.stringify(_, null, 2)] renders into the single text item, [isError]
    is [true] where the source sets the property and [false] where it leaves
    it out. *)
Record ToolResult : Type := mkResult {
  content : json;
  isError : bool
}.

(** [try { body } catch (error) { return handler(error) }] *)
Definition try_catch (body : M ToolResult) (handler : JsError -> ToolResult)
  : Trace -> Trace * ToolResult := fun h =>
  match body h with
  | (h', inr r) => (h', r)
  | (h', inl e) => (h', handler e)
  end.

(** [v || d] on JSON values. *)
Definition js_or (v : option json) (d : json) : json :=
  match v with
  | Some x => if truthy v then x else d
  | None => d
  end.

(** [if (s)] for an optional string. *)
Definition truthy_string (s : option string) : bool :=
  match s with
  | Some x => negb (String.eqb x "")
  | None => false
  end.

(** The [catch] block shared, word for word, by the five handlers. *)
Definition upstream_failure (error : JsError) : ToolResult :=
  mkResult
    (object_literal
       [("success", Some (JBool false));
        ("error", Some (JStr (err_message error)));
        ("details", Some (js_or (response_data error) (JStr "Unknown error")))])
    true.

(** What escapes a handler or the dispatcher. *)
Inductive Exception : Type :=
| ZodError (errors : list ZodIssue)
| Error (msg : string).

Definition Handler : Type :=
  option json -> Trace -> Trace * (Exception + ToolResult).

(** [Schema.parse(args)] ahead of the [try]: a [ZodError] leaves the handler,
    anything thrown later is turned into a result by [handler]. *)
Definition validated {A} (schema : ZodType A) (body : A -> M ToolResult)
           (handler : JsError -> ToolResult) : Handler := fun args h =>
  match parse schema args with
  | inl errors => (h, inl (ZodError errors))
  | inr input =>
      let (h', r) := try_catch (body input) handler h in (h', inr r)
  end.

(** [Promise.all]: the values in input order when every promise fulfils,
    otherwise the reason of the rejection that settled first (the earlier
    promise on equal times). *)
Fixpoint first_rejection {A} (ps : list (Settled A)) : option (nat * JsError) :=
  match ps with
  | [] => None
  | (t, inl e) :: rest =>
      match first_rejection rest with
      | Some (t', e') => if Nat.ltb t' t then Some (t', e') else Some (t, e)
      | None => Some (t, e)
      end
  | (_, inr _) :: rest => first_rejection rest
  end.

Fixpoint fulfilled {A} (ps : list (Settled A)) : list A :=
  match ps with
  | [] => []
  | (_, inr a) :: rest => a :: fulfilled rest
  | (_, inl _) :: rest => fulfilled rest
  end.

Definition Promise_all {A} (ps : list (Settled A)) : JsError + list A :=
  match first_rejection ps with
  | Some (_, e) => inl e
  | None => inr (fulfilled ps)
  end.

(** [items.map(async (x) => ...)]: every callback runs up to its first
    [await] in turn, so the requests are issued in list order before any of
    them is answered. *)
Fixpoint map_async {A B} (f : A -> Trace -> Trace * Settled B) (items : list A)
  : Trace -> Trace * list (Settled B) := fun h =>
  match items with
  | [] => (h, [])
  | x :: rest =>
      let (h1, p) := f x h in
      let (h2, ps) := map_async f rest h1 in
      (h2, p :: ps)
  end.

(** [await Promise.all(items.map(f))] *)
Definition await_all {A B} (f : A -> Trace -> Trace * Settled B)
           (items : list A) : M (list B) := fun h =>
  let (h', ps) := map_async f items h in (h', Promise_all ps).

Section Server.

Variable octokit : Octokit.

Definition enableGithubPages : Handler :=
  validated EnableGithubPagesSchema
    (fun input =>
       let owner := en_owner input in
       let repo := en_repo input in
       let source := en_source input in
       let build_type := en_build_type input in
       let path := or_default (src_path source) "/" in
       let bt := or_default build_type "legacy" in
       data <- await (CreatePagesSite owner repo (src_branch source) path bt)
                 (fun h => createPagesSite octokit h owner repo
                             (src_branch source) path bt) ;;
       ret (mkResult
              (object_literal
                 [("success", Some (JBool true));
                  ("message", Some (JStr "GitHub Pages enabled successfully"));
                  ("url", html_url data);
                  ("source", pg_source data);
                  ("build_type", pg_build_type data)])
              false))
    upstream_failure.

Definition getGithubPagesInfo : Handler :=
  validated GetGithubPagesInfoSchema
    (fun input =>
       let owner := rp_owner input in
       let repo := rp_repo input in
       data <- await (GetPages owner repo)
                 (fun h => getPages octokit h owner repo) ;;
       ret (mkResult
              (object_literal
                 [("success", Some (JBool true));
                  ("url", html_url data);
                  ("status", pg_status data);
                  ("cname", pg_cname data);
                  ("custom_404", custom_404 data);
                  ("source", pg_source data);
                  ("build_type", pg_build_type data);
                  ("public", pg_public data)])
              false))
    (fun error =>
       if status_is error 404
       then mkResult
              (object_literal
                 [("success", Some (JBool false));
                  ("error",
                   Some (JStr
                           "GitHub Pages is not enabled for this repository"))])
              false
       else upstream_failure error).

(** [file.encoding === "base64" ? "base64" : "utf-8"] *)
Definition blob_encoding (file : FileChange) : string :=
  match f_encoding file with
  | Some e => if String.eqb e "base64" then "base64" else "utf-8"
  | None => "utf-8"
  end.

(** The callback of [files.map] in the deploy handler. *)
Definition blob_entry (owner repo : string) (file : FileChange)
  : Trace -> Trace * Settled TreeItem := fun h =>
  let encoding := blob_encoding file in
  let (t, r) := createBlob octokit h owner repo (f_content file) encoding in
  (h ++ [CreateBlob owner repo (f_content file) encoding],
   (t, match r with
       | inl e => inl e
       | inr sha => inr (mkTreeItem (f_path file) "100644" "blob" sha)
       end)).

(** The guard [!files || files.length === 0] is the second branch of the
    match on [files]: undefined or of length zero. *)
Definition deployToGithubPages : Handler :=
  validated DeployToGithubPagesSchema
    (fun input =>
       let owner := dp_owner input in
       let repo := dp_repo input in
       let branch := dp_branch input in
       let message := dp_message input in
       match dp_files input with
       | Some ((_ :: _) as files) =>
           latestCommitSha <-
             await (GetRef owner repo ("heads/" +++ branch))
               (fun h => getRef octokit h owner repo ("heads/" +++ branch)) ;;
           baseTreeSha <-
             await (GetCommit owner repo latestCommitSha)
               (fun h => getCommit octokit h owner repo latestCommitSha) ;;
           treeItems <- await_all (blob_entry owner repo) files ;;
           treeSha <-
             await (CreateTree owner repo treeItems baseTreeSha)
               (fun h => createTree octokit h owner repo treeItems
                           baseTreeSha) ;;
           let msg := or_default message "Deploy to GitHub Pages" in
           newCommitSha <-
             await (CreateCommit owner repo msg treeSha [latestCommitSha])
               (fun h => createCommit octokit h owner repo msg treeSha
                           [latestCommitSha]) ;;
           _ <- await (UpdateRef owner repo ("heads/" +++ branch)
                         newCommitSha)
                  (fun h => updateRef octokit h owner repo
                              ("heads/" +++ branch) newCommitSha) ;;
           ret (mkResult
                  (object_literal
                     [("success", Some (JBool true));
                      ("message", Some (JStr "Files deployed successfully"));
                      ("commit_sha", Some (JStr newCommitSha));
                      ("files_deployed",
                       Some (JNum (Z.of_nat (length files))))])
                  false)
       | _ =>
           ret (mkResult
                  (object_literal
                     [("success", Some (JBool false));
                      ("error",
                       Some (JStr "No files provided for deployment"))])
                  true)
       end)
    upstream_failure.

Definition disableGithubPages : Handler :=
  validated DisableGithubPagesSchema
    (fun input =>
       let owner := rp_owner input in
       let repo := rp_repo input in
       _ <- await (DeletePagesSite owner repo)
              (fun h => deletePagesSite octokit h owner repo) ;;
       ret (mkResult
              (object_literal
                 [("success", Some (JBool true));
                  ("message",
                   Some (JStr "GitHub Pages disabled successfully"))])
              false))
    upstream_failure.

Definition updateGithubPagesConfig : Handler :=
  validated UpdateGithubPagesConfigSchema
    (fun input =>
       let owner := up_owner input in
       let repo := up_repo input in
       let source := up_source input in
       let build_type := up_build_type input in
       let cname := up_cname input in
       let updateParams := mkUpdateParams owner repo None None None in
       updateParams <-
         match source with
         | Some s =>
             let path := or_default (src_path s) "/" in
             if negb (String.eqb path "/") && negb (String.eqb path "/docs")
             then throw (new_Error "Invalid path: must be '/' or '/docs'")
             else ret (mkUpdateParams (p_owner updateParams)
                         (p_repo updateParams)
                         (Some (src_branch s, path))
                         (p_build_type updateParams)
                         (p_cname updateParams))
         | None => ret updateParams
         end ;;
       let updateParams :=
         if truthy_string build_type
         then mkUpdateParams (p_owner updateParams) (p_repo updateParams)
                (p_source updateParams) build_type (p_cname updateParams)
         else updateParams in
       let updateParams :=
         match cname with
         | Some c =>
             mkUpdateParams (p_owner updateParams) (p_repo updateParams)
               (p_source updateParams) (p_build_type updateParams)
               (Some (Some c))
         | None => updateParams
         end in
       data <- await (UpdateInformationAboutPagesSite updateParams)
                 (fun h => updateInformationAboutPagesSite octokit h
                             updateParams) ;;
       ret (mkResult
              (object_literal
                 [("success", Some (JBool true));
                  ("message",
                   Some (JStr
                           "GitHub Pages configuration updated successfully"));
                  ("url", html_url data);
                  ("source", pg_source data);
                  ("build_type", pg_build_type data);
                  ("cname", pg_cname data)])
              false))
    upstream_failure.

(** ** Dispatcher *)

(** The [switch (name)] of the call-tool request handler. *)
Definition route (name : string) : Handler :=
  if String.eqb name "enable_github_pages" then enableGithubPages
  else if String.eqb name "get_github_pages_info" then getGithubPagesInfo
  else if String.eqb name "deploy_to_github_pages" then deployToGithubPages
  else if String.eqb name "disable_github_pages" then disableGithubPages
  else if String.eqb name "update_github_pages_config"
       then updateGithubPagesConfig
  else fun _ h => (h, inl (Error ("Unknown tool: " +++ name))).

(** [`${e.path.join(".")}: ${e.message}`] *)
Definition show_issue (e : ZodIssue) : string :=
  show_path (path e) +++ ": " +++ message e.

Definition invalid_arguments (errors : list ZodIssue) : string :=
  "Invalid arguments: " +++ String.concat ", " (map show_issue errors).

(** The handler registered for [CallToolRequestSchema] in [setupHandlers]:
    route on the name; a [ZodError] is rethrown as a plain [Error] listing
    the issues, anything else thrown is rethrown as it is. *)
Definition dispatch (name : string) (args : option json)
  : Trace -> Trace * (Exception + ToolResult) := fun h =>
  match route name args h with
  | (h', inl (ZodError errors)) => (h', inl (Error (invalid_arguments errors)))
  | (h', inl (Error msg)) => (h', inl (Error msg))
  | (h', inr result) => (h', inr result)
  end.

End Server.

(** ** Tool registry *)

(** One entry of the list the server answers a list-tools request with. *)
Record Tool : Type := mkTool {
  tool_name : string;
  description : string;
  inputSchema : json
}.

(** [getTools()]: the five tools with the JSON schema advertised for their
    arguments, in the order of the source. *)
Definition getTools : list Tool :=
  [ mkTool "enable_github_pages"
      "Enable GitHub Pages for a repository. Creates or updates the GitHub Pages configuration with specified source branch and build settings."
      (JObj
         [("type", JStr "object");
          ("properties",
           JObj
             [("owner",
               JObj [("type", JStr "string");
                     ("description",
                      JStr "Repository owner (username or organization)")]);
              ("repo",
               JObj [("type", JStr "string");
                     ("description", JStr "Repository name")]);
              ("source",
               JObj
                 [("type", JStr "object");
                  ("properties",
                   JObj
                     [("branch",
                       JObj [("type", JStr "string");
                             ("description",
                              JStr "Branch to deploy from (e.g., 'main', 'gh-pages')")]);
                      ("path",
                       JObj [("type", JStr "string");
                             ("enum", JArr [JStr "/"; JStr "/docs"]);
                             ("description",
                              JStr "Path to deploy from ('/' or '/docs')")])]);
                  ("required", JArr [JStr "branch"])]);
              ("build_type",
               JObj [("type", JStr "string");
                     ("enum", JArr [JStr "legacy"; JStr "workflow"]);
                     ("description",
                      JStr "Build type: 'legacy' for Jekyll or 'workflow' for GitHub Actions")])]);
          ("required", JArr [JStr "owner"; JStr "repo"; JStr "source"])]);
    mkTool "get_github_pages_info"
      "Get the current GitHub Pages configuration and deployment status for a repository. Returns information about the Pages site URL, build status, source configuration, and custom domain if configured."
      (JObj
         [("type", JStr "object");
          ("properties",
           JObj
             [("owner",
               JObj [("type", JStr "string");
                     ("description",
                      JStr "Repository owner (username or organization)")]);
              ("repo",
               JObj [("type", JStr "string");
                     ("description", JStr "Repository name")])]);
          ("required", JArr [JStr "owner"; JStr "repo"])]);
    mkTool "deploy_to_github_pages"
      "Deploy files to GitHub Pages by creating commits on the specified branch. This tool allows you to push content directly to the Pages branch. Note: The branch must exist and GitHub Pages must be enabled for the repository."
      (JObj
         [("type", JStr "object");
          ("properties",
           JObj
             [("owner",
               JObj [("type", JStr "string");
                     ("description",
                      JStr "Repository owner (username or organization)")]);
              ("repo",
               JObj [("type", JStr "string");
                     ("description", JStr "Repository name")]);
              ("branch",
               JObj [("type", JStr "string");
                     ("description",
                      JStr "Branch to deploy to (must match GitHub Pages source branch)")]);
              ("message",
               JObj [("type", JStr "string");
                     ("description",
                      JStr "Commit message for the deployment")]);
              ("files",
               JObj
                 [("type", JStr "array");
                  ("description", JStr "Files to deploy");
                  ("items",
                   JObj
                     [("type", JStr "object");
                      ("properties",
                       JObj
                         [("path",
                           JObj [("type", JStr "string");
                                 ("description",
                                  JStr "File path in the repository")]);
                          ("content",
                           JObj [("type", JStr "string");
                                 ("description",
                                  JStr "File content (can be base64 encoded for binary files)")]);
                          ("encoding",
                           JObj [("type", JStr "string");
                                 ("enum", JArr [JStr "utf-8"; JStr "base64"]);
                                 ("description",
                                  JStr "Content encoding (default: utf-8)")])]);
                      ("required", JArr [JStr "path"; JStr "content"])])])]);
          ("required", JArr [JStr "owner"; JStr "repo"; JStr "branch"])]);
    mkTool "disable_github_pages"
      "Disable GitHub Pages for a repository. This will take down the published site and remove the GitHub Pages configuration. The repository content remains unchanged."
      (JObj
         [("type", JStr "object");
          ("properties",
           JObj
             [("owner",
               JObj [("type", JStr "string");
                     ("description",
                      JStr "Repository owner (username or organization)")]);
              ("repo",
               JObj [("type", JStr "string");
                     ("description", JStr "Repository name")])]);
          ("required", JArr [JStr "owner"; JStr "repo"])]);
    mkTool "update_github_pages_config"
      "Update the GitHub Pages configuration for a repository. This allows you to change the source branch, path, build type, or custom domain settings without disabling and re-enabling Pages."
      (JObj
         [("type", JStr "object");
          ("properties",
           JObj
             [("owner",
               JObj [("type", JStr "string");
                     ("description",
                      JStr "Repository owner (username or organization)")]);
              ("repo",
               JObj [("type", JStr "string");
                     ("description", JStr "Repository name")]);
              ("source",
               JObj
                 [("type", JStr "object");
                  ("properties",
                   JObj
                     [("branch",
                       JObj [("type", JStr "string");
                             ("description", JStr "Branch to deploy from")]);
                      ("path",
                       JObj [("type", JStr "string");
                             ("enum", JArr [JStr "/"; JStr "/docs"]);
                             ("description", JStr "Path to deploy from")])]);
                  ("required", JArr [JStr "branch"])]);
              ("build_type",
               JObj [("type", JStr "string");
                     ("enum", JArr [JStr "legacy"; JStr "workflow"]);
                     ("description",
                      JStr "Build type: 'legacy' or 'workflow'")]);
              ("cname",
               JObj [("type", JStr "string");
                     ("description",
                      JStr "Custom domain name (e.g., 'example.com')")])]);
          ("required", JArr [JStr "owner"; JStr "repo"])]) ].

(** What the handler registered for [ListToolsRequestSchema] returns. *)
Record ListToolsResult : Type := mkListTools {
  tools : list Tool
}.

Definition listTools : ListToolsResult := mkListTools getTools.

(** * Properties *)

Unset Implicit Arguments.

(** ** Sample upstreams and arguments *)

Module Samples.

Definition pages : PagesData :=
  mkPages (Some (JStr "https://o.github.io/r/")) (Some (JStr "built"))
          (Some JNull) (Some (JBool false))
          (Some (JObj [("branch", JStr "main"); ("path", JStr "/docs")]))
          (Some (JStr "legacy")) (Some (JBool true)).

(** An upstream on which every call succeeds; a blob's SHA is derived from
    its content so that distinct files are told apart. *)
Definition stub : Octokit :=
  mkOctokit
    (fun _ _ _ _ _ _ => inr pages)
    (fun _ _ _ => inr pages)
    (fun _ _ _ => inr tt)
    (fun _ _ => inr pages)
    (fun _ _ _ _ => inr "c0")
    (fun _ _ _ _ => inr "t0")
    (fun h _ _ c _ => (length h, inr ("blob:" +++ c)))
    (fun _ _ _ _ _ => inr "t1")
    (fun _ _ _ _ _ _ => inr "c1")
    (fun _ _ _ _ _ => inr tt).

(** An upstream on which every call throws [e]. *)
Definition failing (e : JsError) : Octokit :=
  mkOctokit
    (fun _ _ _ _ _ _ => inl e)
    (fun _ _ _ => inl e)
    (fun _ _ _ => inl e)
    (fun _ _ => inl e)
    (fun _ _ _ _ => inl e)
    (fun _ _ _ _ => inl e)
    (fun _ _ _ _ _ => (0, inl e))
    (fun _ _ _ _ _ => inl e)
    (fun _ _ _ _ _ _ => inl e)
    (fun _ _ _ _ _ => inl e).

Definition not_found : JsError :=
  mkError (Some 404%Z) "Not Found"
          (Some (JObj [("message", JStr "Not Found")])).

Definition bad_credentials : JsError :=
  mkError (Some 401%Z) "Bad credentials" None.

Definition repo : list (string * json) :=
  [("owner", JStr "o"); ("repo", JStr "r")].

Definition file_a : json :=
  JObj [("path", JStr "a.txt"); ("content", JStr "x")].

Definition file_b : json :=
  JObj [("path", JStr "b.txt"); ("content", JStr "eA==");
        ("encoding", JStr "base64")].

Definition deploy_args (extra : list (string * json)) : option json :=
  Some (JObj (repo ++ ("branch", JStr "gh-pages") :: extra)).

End Samples.

(** ** Vocabulary of the statements *)

(** The issues a validation reports, none when it passed. *)
Definition issues_of {A} (v : Validation A) : list ZodIssue :=
  match v with
  | inl errors => errors
  | inr _ => []
  end.

(** The issue [i] is among those a validation reports. *)
Definition has_issue {A} (v : Validation A) (i : ZodIssue) : Prop :=
  In i (issues_of v).

(** What a failed validation reports, [None] when it passed. *)
Definition rejected {A} (v : Validation A) : option (list ZodIssue) :=
  match v with
  | inl errors => Some errors
  | inr _ => None
  end.

(** The five tools [getTools] lists and the dispatcher routes. *)
Definition tool_names : list string :=
  ["enable_github_pages"; "get_github_pages_info"; "deploy_to_github_pages";
   "disable_github_pages"; "update_github_pages_config"].

(** The issues the schema of tool [name] finds in [args]; [None] when the
    arguments pass and when no tool has that name. *)
Definition schema_check (name : string) (args : option json)
  : option (list ZodIssue) :=
  if String.eqb name "enable_github_pages"
  then rejected (parse EnableGithubPagesSchema args)
  else if String.eqb name "get_github_pages_info"
  then rejected (parse GetGithubPagesInfoSchema args)
  else if String.eqb name "deploy_to_github_pages"
  then rejected (parse DeployToGithubPagesSchema args)
  else if String.eqb name "disable_github_pages"
  then rejected (parse DisableGithubPagesSchema args)
  else if String.eqb name "update_github_pages_config"
  then rejected (parse UpdateGithubPagesConfigSchema args)
  else None.

(** The fields the schema of each tool declares without [.optional()], as
    key paths from the root of the arguments.  [source.branch] of the update
    tool is required of a [source] that is given. *)
Definition required_fields (name : string) : list (list string) :=
  if String.eqb name "enable_github_pages"
  then [["owner"]; ["repo"]; ["source"]; ["source"; "branch"]]
  else if String.eqb name "get_github_pages_info"
  then [["owner"]; ["repo"]]
  else if String.eqb name "deploy_to_github_pages"
  then [["owner"]; ["repo"]; ["branch"]]
  else if String.eqb name "disable_github_pages"
  then [["owner"]; ["repo"]]
  else if String.eqb name "update_github_pages_config"
  then [["owner"]; ["repo"]; ["source"; "branch"]]
  else [].

(** The field at path [p] is missing from [v]: the objects and array items
    on the way to it are there and the last object lacks the key. *)
Fixpoint absent (p : list PathElem) (v : option json) : bool :=
  match p with
  | [] => match v with None => true | Some _ => false end
  | Key k :: rest =>
      match v with
      | Some (JObj o) => absent rest (lookup k o)
      | _ => false
      end
  | Index i :: rest =>
      match v with
      | Some (JArr items) =>
          match nth_error items i with
          | Some item => absent rest (Some item)
          | None => false
          end
      | _ => false
      end
  end.

(** [p] leads to a field that the schema of tool [name] requires: one of
    [required_fields], or the [path] or [content] of a deployed file. *)
Definition required_at (name : string) (p : list PathElem) : Prop :=
  In p (map (map Key) (required_fields name))
  \/ (name = "deploy_to_github_pages"
      /\ exists i, p = [Key "files"; Index i; Key "path"]
                   \/ p = [Key "files"; Index i; Key "content"]).

(** The error flag of what a handler returned, if it returned. *)
Definition isError_of (out : Trace * (Exception + ToolResult)) : option bool :=
  match snd out with
  | inr result => Some (isError result)
  | inl _ => None
  end.

(** The blob request the deploy handler issues for a file. *)
Definition blob_request (owner repo : string) (file : FileChange) : Request :=
  CreateBlob owner repo (f_content file) (blob_encoding file).

(** The request is a "create tree" call. *)
Definition is_create_tree (r : Request) : bool :=
  match r with
  | CreateTree _ _ _ _ => true
  | _ => false
  end.

(** The properties of an object, none for any other value. *)
Definition defined_props_of (v : json) : list (string * json) :=
  match v with
  | JObj props => props
  | _ => []
  end.


(** The repository a request is addressed to. *)
Definition request_repo (r : Request) : string * string :=
  match r with
  | CreatePagesSite owner repo _ _ _ => (owner, repo)
  | GetPages owner repo => (owner, repo)
  | DeletePagesSite owner repo => (owner, repo)
  | UpdateInformationAboutPagesSite params => (p_owner params, p_repo params)
  | GetRef owner repo _ => (owner, repo)
  | GetCommit owner repo _ => (owner, repo)
  | CreateBlob owner repo _ _ => (owner, repo)
  | CreateTree owner repo _ _ => (owner, repo)
  | CreateCommit owner repo _ _ _ => (owner, repo)
  | UpdateRef owner repo _ _ => (owner, repo)
  end.

(** The request is an "update reference" call. *)
Definition is_update_ref (r : Request) : bool :=
  match r with
  | UpdateRef _ _ _ _ => true
  | _ => false
  end.

(** How many files the raw arguments carry. *)
Definition files_count (args : option json) : nat :=
  match args with
  | Some (JObj o) =>
      match lookup "files" o with
      | Some (JArr items) => length items
      | _ => 0
      end
  | _ => 0
  end.

(** The object without its property [key]. *)
Fixpoint remove_key (key : string) (props : list (string * json))
  : list (string * json) :=
  match props with
  | [] => []
  | (k, v) :: rest =>
      if String.eqb k key then remove_key key rest
      else (k, v) :: remove_key key rest
  end.

(** The strings of a JSON array of strings. *)
Fixpoint strings_of (items : list json) : list string :=
  match items with
  | [] => []
  | JStr s :: rest => s :: strings_of rest
  | _ :: rest => strings_of rest
  end.

(** The keys a tool's advertised schema lists under [required]. *)
Definition advertised_required (t : Tool) : list string :=
  match lookup "required" (defined_props_of (inputSchema t)) with
  | Some (JArr items) => strings_of items
  | _ => []
  end.

(** The keys a tool's advertised schema describes under [properties]. *)
Definition advertised_properties (t : Tool) : list string :=
  match lookup "properties" (defined_props_of (inputSchema t)) with
  | Some (JObj props) => map fst props
  | _ => []
  end.

(** How far a deployment with files got: the step that failed and with what,
    or the SHAs it went through. *)
Inductive DeployStage : Type :=
| RefFailed (e : JsError)
| CommitFailed (tip : string) (e : JsError)
| BlobsFailed (tip base : string) (e : JsError)
| TreeFailed (tip base : string) (items : list TreeItem) (e : JsError)
| CommitCreateFailed (tip base : string) (items : list TreeItem)
                     (tree : string) (e : JsError)
| RefUpdateFailed (tip base : string) (items : list TreeItem)
                  (tree commit : string) (e : JsError)
| Deployed (tip base : string) (items : list TreeItem) (tree commit : string).

(** The requests up to and including the blob creations. *)
Definition deploy_prefix (input : DeployInput) (tip : string)
           (files : list FileChange) : list Request :=
  [GetRef (dp_owner input) (dp_repo input) ("heads/" +++ dp_branch input);
   GetCommit (dp_owner input) (dp_repo input) tip]
    ++ map (blob_request (dp_owner input) (dp_repo input)) files.

(** The commit message the deploy handler uses. *)
Definition deploy_message (input : DeployInput) : string :=
  or_default (dp_message input) "Deploy to GitHub Pages".

(** The requests a deployment issues on its way to a stage. *)
Definition stage_requests (input : DeployInput) (files : list FileChange)
           (s : DeployStage) : list Request :=
  let owner := dp_owner input in
  let repo := dp_repo input in
  let ref := "heads/" +++ dp_branch input in
  match s with
  | RefFailed _ => [GetRef owner repo ref]
  | CommitFailed tip _ => [GetRef owner repo ref; GetCommit owner repo tip]
  | BlobsFailed tip _ _ => deploy_prefix input tip files
  | TreeFailed tip base items _ =>
      deploy_prefix input tip files ++ [CreateTree owner repo items base]
  | CommitCreateFailed tip base items tree _ =>
      deploy_prefix input tip files
        ++ [CreateTree owner repo items base;
            CreateCommit owner repo (deploy_message input) tree [tip]]
  | RefUpdateFailed tip base items tree commit _
  | Deployed tip base items tree commit =>
      deploy_prefix input tip files
        ++ [CreateTree owner repo items base;
            CreateCommit owner repo (deploy_message input) tree [tip];
            UpdateRef owner repo ref commit]
  end.

(** What the deploy handler returns at a stage. *)
Definition stage_result (files : list FileChange) (s : DeployStage)
  : ToolResult :=
  match s with
  | RefFailed e | CommitFailed _ e | BlobsFailed _ _ e | TreeFailed _ _ _ e
  | CommitCreateFailed _ _ _ _ e | RefUpdateFailed _ _ _ _ _ e =>
      upstream_failure e
  | Deployed _ _ _ _ commit =>
      mkResult
        (JObj [("success", JBool true);
               ("message", JStr "Files deployed successfully");
               ("commit_sha", JStr commit);
               ("files_deployed", JNum (Z.of_nat (length files)))])
        false
  end.

(** The upstream answers that lead a deployment to a stage, each call being
    answered from the trace the earlier requests left. *)
Definition stage_answers (octokit : Octokit) (input : DeployInput)
           (files : list FileChange) (h : Trace) (s : DeployStage) : Prop :=
  let owner := dp_owner input in
  let repo := dp_repo input in
  let ref := "heads/" +++ dp_branch input in
  let msg := deploy_message input in
  let got_ref tip := getRef octokit h owner repo ref = inr tip in
  let got_commit tip base :=
    getCommit octokit (h ++ [GetRef owner repo ref]) owner repo tip
    = inr base in
  let blobs tip :=
    Promise_all
      (snd (map_async (blob_entry octokit owner repo) files
              (h ++ [GetRef owner repo ref; GetCommit owner repo tip]))) in
  let tree_answer tip base items :=
    createTree octokit (h ++ deploy_prefix input tip files) owner repo items
      base in
  let commit_answer tip base items tree :=
    createCommit octokit
      (h ++ deploy_prefix input tip files
         ++ [CreateTree owner repo items base])
      owner repo msg tree [tip] in
  let ref_answer tip base items tree commit :=
    updateRef octokit
      (h ++ deploy_prefix input tip files
         ++ [CreateTree owner repo items base;
             CreateCommit owner repo msg tree [tip]])
      owner repo ref commit in
  match s with
  | RefFailed e => getRef octokit h owner repo ref = inl e
  | CommitFailed tip e =>
      got_ref tip
      /\ getCommit octokit (h ++ [GetRef owner repo ref]) owner repo tip
         = inl e
  | BlobsFailed tip base e =>
      got_ref tip /\ got_commit tip base /\ blobs tip = inl e
  | TreeFailed tip base items e =>
      got_ref tip /\ got_commit tip base /\ blobs tip = inr items
      /\ tree_answer tip base items = inl e
  | CommitCreateFailed tip base items tree e =>
      got_ref tip /\ got_commit tip base /\ blobs tip = inr items
      /\ tree_answer tip base items = inr tree
      /\ commit_answer tip base items tree = inl e
  | RefUpdateFailed tip base items tree commit e =>
      got_ref tip /\ got_commit tip base /\ blobs tip = inr items
      /\ tree_answer tip base items = inr tree
      /\ commit_answer tip base items tree = inr commit
      /\ ref_answer tip base items tree commit = inl e
  | Deployed tip base items tree commit =>
      got_ref tip /\ got_commit tip base /\ blobs tip = inr items
      /\ tree_answer tip base items = inr tree
      /\ commit_answer tip base items tree = inr commit
      /\ ref_answer tip base items tree commit = inr tt
  end.

(** The error with which the upstream rejects the request [r] when it is
    issued after the trace [h]; [None] when the upstream accepts it. *)
Definition thrown_at (octokit : Octokit) (h : Trace) (r : Request)
  : option JsError :=
  let rejection {A} (answer : JsError + A) : option JsError :=
    match answer with
    | inl e => Some e
    | inr _ => None
    end in
  match r with
  | CreatePagesSite owner repo branch path build_type =>
      rejection (createPagesSite octokit h owner repo branch path build_type)
  | GetPages owner repo => rejection (getPages octokit h owner repo)
  | DeletePagesSite owner repo =>
      rejection (deletePagesSite octokit h owner repo)
  | UpdateInformationAboutPagesSite params =>
      rejection (updateInformationAboutPagesSite octokit h params)
  | GetRef owner repo ref => rejection (getRef octokit h owner repo ref)
  | GetCommit owner repo commit_sha =>
      rejection (getCommit octokit h owner repo commit_sha)
  | CreateBlob owner repo content encoding =>
      rejection (snd (createBlob octokit h owner repo content encoding))
  | CreateTree owner repo tree base_tree =>
      rejection (createTree octokit h owner repo tree base_tree)
  | CreateCommit owner repo message tree parents =>
      rejection (createCommit octokit h owner repo message tree parents)
  | UpdateRef owner repo ref sha =>
      rejection (updateRef octokit h owner repo ref sha)
  end.

(** A schema that never rejects without naming an issue. *)
Definition strict {A} (s : ZodType A) : Prop :=
  forall p v errors, s p v = inl errors -> errors <> [].

(** The same for the shape of an object. *)
Definition strict_shape {A} (sh : Shape A) : Prop :=
  forall p o errors, sh p o = inl errors -> errors <> [].

(** The envelope of a deployment that was given no files. *)
Definition no_files_result : ToolResult :=
  mkResult
    (JObj [("success", JBool false);
           ("error", JStr "No files provided for deployment")])
    true.

(** Further upstreams for the examples. *)
Module Scenarios.

Definition rejected_blob : JsError :=
  mkError (Some 422%Z) "Validation Failed" None.

(** Like [Samples.stub], except that a blob whose content is ["bad"] is
    rejected. *)
Definition picky_blobs : Octokit :=
  mkOctokit
    (createPagesSite Samples.stub)
    (getPages Samples.stub)
    (deletePagesSite Samples.stub)
    (updateInformationAboutPagesSite Samples.stub)
    (getRef Samples.stub)
    (getCommit Samples.stub)
    (fun h owner repo content encoding =>
       if String.eqb content "bad" then (length h, inl rejected_blob)
       else createBlob Samples.stub h owner repo content encoding)
    (createTree Samples.stub)
    (createCommit Samples.stub)
    (updateRef Samples.stub).

Definition file_bad : json :=
  JObj [("path", JStr "c.txt"); ("content", JStr "bad")].

End Scenarios.

(** ** Facts about the validation applicative *)

Lemma vmap_inr {A B} (f : A -> B) (x : Validation A) (b : B) :
  vmap f x = inr b -> exists a, x = inr a /\ b = f a.
Proof.
  destruct x as [e | a]; simpl; intros H; [discriminate |].
  injection H as <-. now exists a.
Qed.

Lemma vap_inr {A B} (f : Validation (A -> B)) (x : Validation A) (b : B) :
  vap f x = inr b -> exists g a, f = inr g /\ x = inr a /\ b = g a.
Proof.
  destruct f as [ef | g], x as [ex | a]; simpl; intros H; try discriminate.
  injection H as <-. now exists g, a.
Qed.

Lemma issues_of_vap {A B} (f : Validation (A -> B)) (x : Validation A) :
  issues_of (vap f x) = issues_of f ++ issues_of x.
Proof.
  destruct f as [ef | g], x as [ex | a]; simpl; auto using app_nil_r.
Qed.

Lemma issues_of_vmap {A B} (f : A -> B) (x : Validation A) :
  issues_of (vmap f x) = issues_of x.
Proof. now destruct x. Qed.

Lemma has_issue_vap_l {A B} (f : Validation (A -> B)) (x : Validation A) i :
  has_issue f i -> has_issue (vap f x) i.
Proof.
  unfold has_issue. rewrite issues_of_vap. auto using in_or_app.
Qed.

Lemma has_issue_vap_r {A B} (f : Validation (A -> B)) (x : Validation A) i :
  has_issue x i -> has_issue (vap f x) i.
Proof.
  unfold has_issue. rewrite issues_of_vap. auto using in_or_app.
Qed.

Lemma has_issue_vmap {A B} (f : A -> B) (x : Validation A) i :
  has_issue x i -> has_issue (vmap f x) i.
Proof. unfold has_issue. now rewrite issues_of_vmap. Qed.

Lemma has_issue_rejected {A} (v : Validation A) i :
  has_issue v i -> rejected v = Some (issues_of v).
Proof.
  unfold has_issue. destruct v as [e | a]; simpl; [reflexivity | contradiction].
Qed.

(** A value of an enumeration is one of its members. *)
Lemma z_enum_inr values p v s :
  z_enum values p v = inr s -> v = Some (JStr s) /\ In s values.
Proof.
  unfold z_enum. destruct v as [[ | | | s' | | ] | ]; try discriminate.
  destruct (existsb (String.eqb s') values) eqn:E; [| discriminate].
  intros H. injection H as <-. split; [reflexivity |].
  apply existsb_exists in E. destruct E as [x [Hin Heq]].
  apply String.eqb_eq in Heq. now subst.
Qed.

Lemma z_string_inr p v s : z_string p v = inr s -> v = Some (JStr s).
Proof.
  unfold z_string. destruct v as [[ | | | s' | | ] | ]; try discriminate.
  now intros [= <-].
Qed.

Lemma z_optional_inr {A} (inner : ZodType A) p v (r : option A) :
  z_optional inner p v = inr r ->
  (v = None /\ r = None) \/ (exists a, inner p v = inr a /\ r = Some a).
Proof.
  unfold z_optional. destruct v as [j |].
  - intros H. apply vmap_inr in H. destruct H as [a [Ha ->]].
    right. now exists a.
  - intros [= <-]. now left.
Qed.

(** Every member of the three enumerations is a non-empty string, so [||]
    never replaces a validated enumerated value. *)
Lemma or_default_member values s d :
  In s values -> ~ In "" values -> or_default (Some s) d = s.
Proof.
  intros Hin Hne. simpl. destruct (String.eqb_spec s ""); [| reflexivity].
  subst. contradiction.
Qed.

(** ** What a successful parse says about the arguments *)

(** Peel the fields off a successful object parse, last field first. *)
Ltac invert_shape H :=
  unfold shape_ap, shape_pure, field in H; cbv beta in H;
  repeat match type of H with
         | vap _ _ = inr _ =>
             let g := fresh "g" in
             let a := fresh "a" in
             let Hx := fresh "Hfield" in
             let Hb := fresh "Hval" in
             apply vap_inr in H; destruct H as (g & a & H & Hx & Hb)
         end;
  match type of H with
  | inr _ = inr _ => injection H as <-
  end;
  subst.

Lemma SourceSchema_inr p v s :
  SourceSchema p v = inr s ->
  exists o, v = Some (JObj o)
    /\ lookup "branch" o = Some (JStr (src_branch s))
    /\ ((lookup "path" o = None /\ src_path s = None)
        \/ (exists x, lookup "path" o = Some (JStr x)
                      /\ src_path s = Some x /\ In x path_values)).
Proof.
  unfold SourceSchema, z_object.
  destruct v as [[ | | | | | o] | ]; try discriminate.
  intros H. invert_shape H. exists o. simpl.
  split; [reflexivity |]. split; [now apply z_string_inr in Hfield0 |].
  apply z_optional_inr in Hfield. destruct Hfield as [[Hv ->] | [x [Hx ->]]].
  - now left.
  - right. apply z_enum_inr in Hx. destruct Hx as [Hv Hin]. now exists x.
Qed.

(** A validated source path, defaulted with [|| "/"], is what the caller
    gave, or ["/"] when the caller gave none; either way a declared value. *)
Lemma validated_path p v s :
  SourceSchema p v = inr s ->
  or_default (src_path s) "/"
  = match src_path s with Some x => x | None => "/" end
  /\ In (or_default (src_path s) "/") path_values.
Proof.
  intros H. apply SourceSchema_inr in H.
  destruct H as (o & _ & _ & [[_ Hp] | (x & _ & Hp & Hin)]); rewrite Hp.
  - simpl. auto.
  - assert (Hne : ~ In "" path_values)
      by (simpl; intros [H | [H | []]]; discriminate).
    rewrite (@or_default_member path_values x "/" Hin Hne). auto.
Qed.

Lemma EnableGithubPagesSchema_inr args input :
  parse EnableGithubPagesSchema args = inr input ->
  exists o, args = Some (JObj o)
    /\ lookup "owner" o = Some (JStr (en_owner input))
    /\ lookup "repo" o = Some (JStr (en_repo input))
    /\ SourceSchema [Key "source"] (lookup "source" o) = inr (en_source input)
    /\ z_optional (z_enum build_type_values) [Key "build_type"]
         (lookup "build_type" o) = inr (en_build_type input).
Proof.
  unfold parse, EnableGithubPagesSchema, z_object.
  destruct args as [[ | | | | | o] | ]; try discriminate.
  intros H. invert_shape H. exists o. simpl.
  apply z_string_inr in Hfield1, Hfield2. auto.
Qed.

Lemma RepoSchema_inr args input :
  parse GetGithubPagesInfoSchema args = inr input ->
  exists o, args = Some (JObj o)
    /\ lookup "owner" o = Some (JStr (rp_owner input))
    /\ lookup "repo" o = Some (JStr (rp_repo input)).
Proof.
  unfold parse, GetGithubPagesInfoSchema, z_object.
  destruct args as [[ | | | | | o] | ]; try discriminate.
  intros H. invert_shape H. exists o. simpl.
  apply z_string_inr in Hfield, Hfield0. auto.
Qed.

Lemma DeployToGithubPagesSchema_inr args input :
  parse DeployToGithubPagesSchema args = inr input ->
  exists o, args = Some (JObj o)
    /\ lookup "owner" o = Some (JStr (dp_owner input))
    /\ lookup "repo" o = Some (JStr (dp_repo input))
    /\ lookup "branch" o = Some (JStr (dp_branch input))
    /\ z_optional z_string [Key "message"] (lookup "message" o)
       = inr (dp_message input)
    /\ z_optional (z_array FileSchema) [Key "files"] (lookup "files" o)
       = inr (dp_files input).
Proof.
  unfold parse, DeployToGithubPagesSchema, z_object.
  destruct args as [[ | | | | | o] | ]; try discriminate.
  intros H. invert_shape H. exists o. simpl.
  apply z_string_inr in Hfield1, Hfield2, Hfield3. auto 6.
Qed.

Lemma UpdateGithubPagesConfigSchema_inr args input :
  parse UpdateGithubPagesConfigSchema args = inr input ->
  exists o, args = Some (JObj o)
    /\ lookup "owner" o = Some (JStr (up_owner input))
    /\ lookup "repo" o = Some (JStr (up_repo input))
    /\ z_optional SourceSchema [Key "source"] (lookup "source" o)
       = inr (up_source input)
    /\ z_optional (z_enum build_type_values) [Key "build_type"]
         (lookup "build_type" o) = inr (up_build_type input)
    /\ z_optional z_string [Key "cname"] (lookup "cname" o)
       = inr (up_cname input).
Proof.
  unfold parse, UpdateGithubPagesConfigSchema, z_object.
  destruct args as [[ | | | | | o] | ]; try discriminate.
  intros H. invert_shape H. exists o. simpl.
  apply z_string_inr in Hfield2, Hfield3. auto 6.
Qed.


(** ** Routing *)

Lemma validated_rejects {A} (schema : ZodType A) body handler args h errors :
  rejected (parse schema args) = Some errors ->
  validated schema body handler args h = (h, inl (ZodError errors)).
Proof.
  unfold validated. destruct (parse schema args); simpl; intros H;
    [now injection H as -> | discriminate].
Qed.

Lemma validated_accepts {A} (schema : ZodType A) body handler args h :
  rejected (parse schema args) = None ->
  exists h' result,
    validated schema body handler args h = (h', inr result).
Proof.
  unfold validated. destruct (parse schema args) as [e | input]; simpl;
    intros H; [discriminate |].
  destruct (try_catch (body input) handler h) as [h' r]. now exists h', r.
Qed.

(** Try the five names in the order of the [switch]. *)
Ltac by_tool name :=
  destruct (String.eqb name "enable_github_pages") eqn:?;
  [| destruct (String.eqb name "get_github_pages_info") eqn:?;
     [| destruct (String.eqb name "deploy_to_github_pages") eqn:?;
        [| destruct (String.eqb name "disable_github_pages") eqn:?;
           [| destruct (String.eqb name "update_github_pages_config") eqn:?]]]].

Lemma route_rejects octokit name args h errors :
  schema_check name args = Some errors ->
  route octokit name args h = (h, inl (ZodError errors)).
Proof.
  unfold schema_check, route, enableGithubPages, getGithubPagesInfo,
    deployToGithubPages, disableGithubPages, updateGithubPagesConfig.
  by_tool name; intros H; try discriminate; now apply validated_rejects.
Qed.

Lemma dispatch_rejects octokit name args h errors :
  schema_check name args = Some errors ->
  dispatch octokit name args h = (h, inl (Error (invalid_arguments errors))).
Proof.
  intros H. unfold dispatch. now rewrite (route_rejects octokit _ _ h _ H).
Qed.

Lemma tool_names_spec name :
  In name tool_names <->
  (String.eqb name "enable_github_pages"
   || String.eqb name "get_github_pages_info"
   || String.eqb name "deploy_to_github_pages"
   || String.eqb name "disable_github_pages"
   || String.eqb name "update_github_pages_config" = true).
Proof.
  unfold tool_names. simpl. rewrite !orb_true_iff, !String.eqb_eq.
  intuition congruence.
Qed.

(** ** C1 *)

(** C1, as amended.  When the validated input of [deploy_to_github_pages] has
    an empty [files] list, the handler returns the envelope
    [{success: false, error: "No files provided for deployment"}] and issues
    no upstream request; the result carries [isError: true]. *)
Theorem deploy_empty_files_reports_error octokit args input h :
  parse DeployToGithubPagesSchema args = inr input ->
  dp_files input = Some [] ->
  deployToGithubPages octokit args h
  = (h, inr (mkResult
               (JObj [("success", JBool false);
                      ("error", JStr "No files provided for deployment")])
               true)).
Proof.
  intros Hparse Hfiles. unfold deployToGithubPages, validated.
  rewrite Hparse, Hfiles. reflexivity.
Qed.

Lemma deploy_empty_files_reports_error_witness :
  deployToGithubPages Samples.stub
    (Samples.deploy_args [("files", JArr [])]) []
  = ([], inr (mkResult
                (JObj [("success", JBool false);
                       ("error", JStr "No files provided for deployment")])
                true)).
Proof.
  eapply deploy_empty_files_reports_error; reflexivity.
Defined.

(** C1 as stated fails: on an empty [files] list the result is not free of
    the error flag. *)
Lemma deploy_empty_files_flagged :
  ~ (exists result,
        deployToGithubPages Samples.stub
          (Samples.deploy_args [("files", JArr [])]) [] = ([], inr result)
        /\ content result
           = JObj [("success", JBool false);
                   ("error", JStr "No files provided for deployment")]
        /\ isError result = false).
Proof.
  intros (result & Hrun & _ & Hflag). vm_compute in Hrun.
  injection Hrun as <-. discriminate.
Qed.

(** ** C2 *)

(** A known tool whose arguments pass its schema: the dispatcher hands back
    what the handler [handler], routed under [tool], returned. *)
Ltac handler_returns octokit args h tool handler Hcheck :=
  let Hrun := fresh "Hrun" in
  let h' := fresh "h'" in
  let result := fresh "result" in
  assert (Hrun : exists h' result,
             handler octokit args h = (h', inr result))
    by (unfold handler; now apply validated_accepts);
  destruct Hrun as (h' & result & Hrun); exists h', result;
  split;
  [ unfold dispatch; change (route octokit tool) with (handler octokit);
    now rewrite Hrun
  | repeat split; intros Hn; first [exact Hrun | discriminate Hn] ].

(** C2, as amended.  When the arguments fail the schema of the named tool,
    the dispatcher throws an [Error] whose message joins all field violations,
    and the trace is untouched; it also throws for a name that is not one of
    the five tools; on every other input it returns, unchanged, the trace and
    the result of the handler that the name selects. *)
Theorem dispatch_throws_on_invalid_or_unknown octokit name args h :
  (forall errors,
      schema_check name args = Some errors ->
      dispatch octokit name args h
      = (h, inl (Error (invalid_arguments errors))))
  /\ (~ In name tool_names ->
      dispatch octokit name args h
      = (h, inl (Error ("Unknown tool: " +++ name))))
  /\ (In name tool_names -> schema_check name args = None ->
      exists h' result,
        dispatch octokit name args h = (h', inr result)
        /\ (name = "enable_github_pages" ->
            enableGithubPages octokit args h = (h', inr result))
        /\ (name = "get_github_pages_info" ->
            getGithubPagesInfo octokit args h = (h', inr result))
        /\ (name = "deploy_to_github_pages" ->
            deployToGithubPages octokit args h = (h', inr result))
        /\ (name = "disable_github_pages" ->
            disableGithubPages octokit args h = (h', inr result))
        /\ (name = "update_github_pages_config" ->
            updateGithubPagesConfig octokit args h = (h', inr result))).
Proof.
  split; [| split].
  - intros errors. apply dispatch_rejects.
  - rewrite tool_names_spec, !orb_true_iff. intros Hname.
    unfold dispatch, route.
    by_tool name; try reflexivity; exfalso; apply Hname; tauto.
  - rewrite tool_names_spec, !orb_true_iff. unfold schema_check.
    destruct (String.eqb_spec name "enable_github_pages") as [-> | _];
      [intros _ Hcheck;
       handler_returns octokit args h "enable_github_pages"
                       enableGithubPages Hcheck |].
    destruct (String.eqb_spec name "get_github_pages_info") as [-> | _];
      [intros _ Hcheck;
       handler_returns octokit args h "get_github_pages_info"
                       getGithubPagesInfo Hcheck |].
    destruct (String.eqb_spec name "deploy_to_github_pages") as [-> | _];
      [intros _ Hcheck;
       handler_returns octokit args h "deploy_to_github_pages"
                       deployToGithubPages Hcheck |].
    destruct (String.eqb_spec name "disable_github_pages") as [-> | _];
      [intros _ Hcheck;
       handler_returns octokit args h "disable_github_pages"
                       disableGithubPages Hcheck |].
    destruct (String.eqb_spec name "update_github_pages_config")
      as [-> | _];
      [intros _ Hcheck;
       handler_returns octokit args h "update_github_pages_config"
                       updateGithubPagesConfig Hcheck |].
    intros Hname. exfalso. intuition discriminate.
Qed.

Lemma dispatch_throws_on_invalid_or_unknown_witness :
  dispatch Samples.stub "get_github_pages_info" (Some (JObj [])) []
  = ([], inl (Error "Invalid arguments: owner: Required, repo: Required"))
  /\ dispatch Samples.stub "publish" (Some (JObj [])) []
     = ([], inl (Error "Unknown tool: publish"))
  /\ exists h' result,
       dispatch Samples.stub "get_github_pages_info"
         (Some (JObj Samples.repo)) [] = (h', inr result)
       /\ getGithubPagesInfo Samples.stub (Some (JObj Samples.repo)) []
          = (h', inr result).
Proof.
  split; [| split].
  - apply (proj1 (dispatch_throws_on_invalid_or_unknown Samples.stub
                    "get_github_pages_info" (Some (JObj [])) [])
             [mkIssue [Key "owner"] "Required";
              mkIssue [Key "repo"] "Required"]).
    reflexivity.
  - apply (proj1 (proj2 (dispatch_throws_on_invalid_or_unknown Samples.stub
                           "publish" (Some (JObj [])) []))).
    simpl. intros H. decompose [or] H; try discriminate; assumption.
  - destruct (proj2 (proj2 (dispatch_throws_on_invalid_or_unknown
                              Samples.stub "get_github_pages_info"
                              (Some (JObj Samples.repo)) []))
                (or_intror (or_introl eq_refl)) eq_refl)
      as (h' & result & Hrun & _ & Hget & _).
    exists h', result. split; [exact Hrun | exact (Hget eq_refl)].
Defined.

(** C2 as stated fails: a known tool with arguments that fail validation
    makes the dispatcher throw instead of returning an envelope. *)
Lemma dispatch_invalid_arguments_thrown :
  dispatch Samples.stub "get_github_pages_info" (Some (JObj [])) []
  = ([], inl (Error "Invalid arguments: owner: Required, repo: Required"))
  /\ In "get_github_pages_info" tool_names
  /\ ~ (exists result,
           snd (dispatch Samples.stub "get_github_pages_info"
                  (Some (JObj [])) []) = inr result).
Proof.
  split; [reflexivity |]. split; [simpl; auto |].
  intros [result H]. vm_compute in H. discriminate.
Qed.

(** ** C3 *)

(** C3.  When the upstream "get pages settings" call of
    [get_github_pages_info] fails with status 404, the handler returns
    [{success: false, error: "GitHub Pages is not enabled for this
    repository"}] without the error flag; on every other failure of that call
    it returns the error flag together with the upstream message. *)
Theorem getGithubPagesInfo_not_found_is_not_an_error
        octokit args input h error :
  parse GetGithubPagesInfoSchema args = inr input ->
  getPages octokit h (rp_owner input) (rp_repo input) = inl error ->
  exists result,
    getGithubPagesInfo octokit args h
    = (h ++ [GetPages (rp_owner input) (rp_repo input)], inr result)
    /\ (status error = Some 404%Z ->
        result
        = mkResult
            (JObj [("success", JBool false);
                   ("error",
                    JStr "GitHub Pages is not enabled for this repository")])
            false)
    /\ (status error <> Some 404%Z ->
        result
        = mkResult
            (JObj [("success", JBool false);
                   ("error", JStr (err_message error));
                   ("details",
                    js_or (response_data error) (JStr "Unknown error"))])
            true).
Proof.
  intros Hparse Hget. unfold getGithubPagesInfo, validated.
  rewrite Hparse. unfold try_catch, bind, await. rewrite Hget.
  eexists. split; [reflexivity |]. unfold status_is. split.
  - intros ->. reflexivity.
  - intros Hstatus. destruct (status error) as [s |]; [| reflexivity].
    destruct (Z.eqb_spec s 404); [subst; contradiction | reflexivity].
Qed.

Lemma getGithubPagesInfo_not_found_is_not_an_error_witness :
  isError_of (getGithubPagesInfo (Samples.failing Samples.not_found)
                (Some (JObj Samples.repo)) []) = Some false
  /\ isError_of (getGithubPagesInfo (Samples.failing Samples.bad_credentials)
                   (Some (JObj Samples.repo)) []) = Some true.
Proof.
  split.
  - destruct (getGithubPagesInfo_not_found_is_not_an_error
                (Samples.failing Samples.not_found)
                (Some (JObj Samples.repo)) (mkRepo "o" "r") []
                Samples.not_found eq_refl eq_refl)
      as (result & Hrun & H404 & _).
    rewrite Hrun, (H404 eq_refl). reflexivity.
  - destruct (getGithubPagesInfo_not_found_is_not_an_error
                (Samples.failing Samples.bad_credentials)
                (Some (JObj Samples.repo)) (mkRepo "o" "r") []
                Samples.bad_credentials eq_refl eq_refl)
      as (result & Hrun & _ & Hother).
    rewrite Hrun, Hother; [reflexivity | discriminate].
Defined.

(** ** The requests of the enable and update handlers *)

Lemma optional_enum_inr values p v r :
  z_optional (z_enum values) p v = inr r ->
  (v = None /\ r = None)
  \/ (exists x, v = Some (JStr x) /\ r = Some x /\ In x values).
Proof.
  intros H. apply z_optional_inr in H. destruct H as [H | [x [H ->]]].
  - now left.
  - right. apply z_enum_inr in H. destruct H as [-> Hin]. now exists x.
Qed.

Lemma validated_build_type p v r :
  z_optional (z_enum build_type_values) p v = inr r ->
  or_default r "legacy" = match r with Some x => x | None => "legacy" end
  /\ truthy_string r = match r with Some _ => true | None => false end.
Proof.
  intros H. apply optional_enum_inr in H.
  destruct H as [[_ ->] | (x & _ & -> & Hin)]; [now split |].
  simpl in Hin. simpl. destruct Hin as [<- | [<- | []]]; now split.
Qed.

Lemma enable_request octokit args input h :
  parse EnableGithubPagesSchema args = inr input ->
  fst (enableGithubPages octokit args h)
  = h ++ [CreatePagesSite (en_owner input) (en_repo input)
            (src_branch (en_source input))
            (match src_path (en_source input) with
             | Some p => p
             | None => "/"
             end)
            (match en_build_type input with
             | Some b => b
             | None => "legacy"
             end)].
Proof.
  intros Hparse. unfold enableGithubPages, validated. rewrite Hparse.
  apply EnableGithubPagesSchema_inr in Hparse.
  destruct Hparse as (o & _ & _ & _ & Hsource & Hbt).
  apply validated_path in Hsource. destruct Hsource as [-> _].
  apply validated_build_type in Hbt. destruct Hbt as [-> _].
  unfold try_catch, bind, await.
  now destruct (createPagesSite octokit h _ _ _ _ _).
Qed.

Lemma update_request octokit args input h :
  parse UpdateGithubPagesConfigSchema args = inr input ->
  fst (updateGithubPagesConfig octokit args h)
  = h ++ [UpdateInformationAboutPagesSite
            (mkUpdateParams (up_owner input) (up_repo input)
               (match up_source input with
                | Some s => Some (src_branch s,
                                  match src_path s with
                                  | Some p => p
                                  | None => "/"
                                  end)
                | None => None
                end)
               (up_build_type input)
               (match up_cname input with
                | Some c => Some (Some c)
                | None => None
                end))].
Proof.
  intros Hparse. unfold updateGithubPagesConfig, validated. rewrite Hparse.
  apply UpdateGithubPagesConfigSchema_inr in Hparse.
  destruct Hparse as (o & _ & _ & _ & Hsource & Hbt & _).
  apply validated_build_type in Hbt. destruct Hbt as [_ Hbt].
  unfold try_catch, bind, await. rewrite Hbt.
  destruct (up_source input) as [s |].
  - apply z_optional_inr in Hsource.
    destruct Hsource as [[_ Hs] | (s' & Hs & Heq)]; [discriminate |].
    injection Heq as <-. apply validated_path in Hs. destruct Hs as [-> Hin].
    assert (Hpass : negb (String.eqb (match src_path s with
                                      | Some x => x
                                      | None => "/"
                                      end) "/")
                    && negb (String.eqb (match src_path s with
                                         | Some x => x
                                         | None => "/"
                                         end) "/docs") = false).
    { simpl in Hin.
      destruct Hin as [<- | [<- | []]]; reflexivity. }
    rewrite Hpass. unfold ret. simpl.
    destruct (up_build_type input), (up_cname input);
      now destruct (updateInformationAboutPagesSite octokit h _).
  - unfold ret. simpl.
    destruct (up_build_type input), (up_cname input);
      now destruct (updateInformationAboutPagesSite octokit h _).
Qed.

(** ** C7 *)

(** C7.  For every validated input of [enable_github_pages], the "create
    pages site" request carries the caller's [source.path], or ["/"] when the
    caller gave none, and the caller's [build_type], or ["legacy"] when the
    caller gave none.  The schema itself fills in neither: where the key is
    missing from the arguments the validated field is undefined. *)
Theorem enable_defaults_applied_by_handler octokit args input h :
  parse EnableGithubPagesSchema args = inr input ->
  exists o s path build_type,
    args = Some (JObj o) /\ lookup "source" o = Some (JObj s)
    /\ fst (enableGithubPages octokit args h)
       = h ++ [CreatePagesSite (en_owner input) (en_repo input)
                 (src_branch (en_source input)) path build_type]
    /\ ((lookup "path" s = None /\ src_path (en_source input) = None
         /\ path = "/")
        \/ (lookup "path" s = Some (JStr path)
            /\ src_path (en_source input) = Some path))
    /\ ((lookup "build_type" o = None /\ en_build_type input = None
         /\ build_type = "legacy")
        \/ (lookup "build_type" o = Some (JStr build_type)
            /\ en_build_type input = Some build_type)).
Proof.
  intros Hparse. pose proof (enable_request octokit _ _ h Hparse) as Hreq.
  apply EnableGithubPagesSchema_inr in Hparse.
  destruct Hparse as (o & -> & _ & _ & Hsource & Hbt).
  apply SourceSchema_inr in Hsource.
  destruct Hsource as (s & Hs & _ & Hpath).
  apply optional_enum_inr in Hbt.
  exists o, s. do 2 eexists.
  split; [reflexivity |]. split; [exact Hs |]. split; [exact Hreq |]. split.
  - destruct Hpath as [[Hl Hp] | (x & Hl & Hp & _)]; rewrite Hp; auto.
  - destruct Hbt as [[Hl Hb] | (x & Hl & Hb & _)]; rewrite Hb; auto.
Qed.

Lemma enable_defaults_applied_by_handler_witness :
  fst (enableGithubPages Samples.stub
         (Some (JObj (Samples.repo
                        ++ [("source", JObj [("branch", JStr "main")])]))) [])
  = [CreatePagesSite "o" "r" "main" "/" "legacy"].
Proof.
  destruct (enable_defaults_applied_by_handler Samples.stub
              (Some (JObj (Samples.repo
                             ++ [("source", JObj [("branch", JStr "main")])])))
              (mkEnable "o" "r" (mkSource "main" None) None) []
              eq_refl)
    as (o & s & path & bt & Hargs & Hs & Hreq & Hpath & Hbt).
  injection Hargs as <-. injection Hs as <-.
  destruct Hpath as [(_ & _ & ->) | [Hl _]]; [| discriminate].
  destruct Hbt as [(_ & _ & ->) | [Hl _]]; [| discriminate].
  exact Hreq.
Defined.

(** ** C10 *)

(** C10.  When [update_github_pages_config] is given a [source] with a
    [branch] and no [path], the update request carries [source.path = "/"]:
    the handler fills in the default instead of leaving the path out, whatever
    the upstream had configured before. *)
Theorem update_branch_only_sends_root_path octokit o s input h :
  parse UpdateGithubPagesConfigSchema (Some (JObj o)) = inr input ->
  lookup "source" o = Some (JObj s) ->
  lookup "path" s = None ->
  exists branch params,
    lookup "branch" s = Some (JStr branch)
    /\ fst (updateGithubPagesConfig octokit (Some (JObj o)) h)
       = h ++ [UpdateInformationAboutPagesSite params]
    /\ p_source params = Some (branch, "/").
Proof.
  intros Hparse Hsource Hpath.
  pose proof (update_request octokit _ _ h Hparse) as Hreq.
  apply UpdateGithubPagesConfigSchema_inr in Hparse.
  destruct Hparse as (o' & Ho & _ & _ & Hs & _). injection Ho as <-.
  rewrite Hsource in Hs. apply z_optional_inr in Hs.
  destruct Hs as [[Hs _] | (si & Hs & Hup)]; [discriminate |].
  apply SourceSchema_inr in Hs. destruct Hs as (s' & Hs' & Hbranch & Hp).
  injection Hs' as <-.
  destruct Hp as [[_ Hp] | (x & Hl & _)]; [| congruence].
  rewrite Hup, Hp in Hreq.
  eexists _, _. split; [exact Hbranch |]. split; [exact Hreq | reflexivity].
Qed.

Lemma update_branch_only_sends_root_path_witness :
  exists params,
    fst (updateGithubPagesConfig Samples.stub
           (Some (JObj (Samples.repo
                          ++ [("source", JObj [("branch", JStr "main")])])))
           [])
    = [UpdateInformationAboutPagesSite params]
    /\ p_source params = Some ("main", "/").
Proof.
  destruct (update_branch_only_sends_root_path Samples.stub
              (Samples.repo ++ [("source", JObj [("branch", JStr "main")])])
              [("branch", JStr "main")]
              (mkUpdate "o" "r" (Some (mkSource "main" None)) None None)
              [] eq_refl eq_refl eq_refl)
    as (branch & params & Hb & Hreq & Hsrc).
  injection Hb as <-. now exists params.
Defined.

(** ** C4 *)

Lemma z_string_rejects p v :
  (forall c, v <> JStr c) ->
  z_string p (Some v) = inl [invalid_type p "string" (Some v)].
Proof.
  intros Hv. destruct v; try reflexivity. now destruct (Hv s).
Qed.

(** C4, as amended.  The update request carries [cname] exactly when the
    caller provided the key with a string value, the empty string included;
    leaving the key out leaves [cname] out of the request.  A [cname] that is
    not a string, explicit [null] included, fails validation: the handler
    throws the [ZodError] and issues no request. *)
Theorem update_cname_sent_iff_string octokit o h :
  (forall input,
      parse UpdateGithubPagesConfigSchema (Some (JObj o)) = inr input ->
      exists params,
        fst (updateGithubPagesConfig octokit (Some (JObj o)) h)
        = h ++ [UpdateInformationAboutPagesSite params]
        /\ ((lookup "cname" o = None /\ p_cname params = None)
            \/ (exists c, lookup "cname" o = Some (JStr c)
                          /\ p_cname params = Some (Some c))))
  /\ (forall v,
         lookup "cname" o = Some v -> (forall c, v <> JStr c) ->
         exists errors,
           updateGithubPagesConfig octokit (Some (JObj o)) h
           = (h, inl (ZodError errors))
           /\ In (invalid_type [Key "cname"] "string" (Some v)) errors).
Proof.
  split.
  - intros input Hparse.
    pose proof (update_request octokit _ _ h Hparse) as Hreq.
    apply UpdateGithubPagesConfigSchema_inr in Hparse.
    destruct Hparse as (o' & Ho & _ & _ & _ & _ & Hcname).
    injection Ho as <-. eexists. split; [exact Hreq |]. simpl.
    apply z_optional_inr in Hcname.
    destruct Hcname as [[Hl ->] | (c & Hc & ->)]; [now left |].
    right. exists c. apply z_string_inr in Hc. now split.
  - intros v Hl Hv.
    assert (Hissue : has_issue
                       (parse UpdateGithubPagesConfigSchema (Some (JObj o)))
                       (invalid_type [Key "cname"] "string" (Some v))).
    { unfold parse, UpdateGithubPagesConfigSchema, z_object, shape_ap, field.
      apply has_issue_vap_r. rewrite Hl. unfold z_optional.
      apply has_issue_vmap. simpl app. rewrite (z_string_rejects _ _ Hv).
      now left. }
    eexists. split; [| exact Hissue].
    apply validated_rejects. exact (has_issue_rejected _ _ Hissue).
Qed.

Lemma update_cname_sent_iff_string_witness :
  (exists params,
      fst (updateGithubPagesConfig Samples.stub
             (Some (JObj (Samples.repo ++ [("cname", JStr "")]))) [])
      = [UpdateInformationAboutPagesSite params]
      /\ p_cname params = Some (Some ""))
  /\ (exists errors,
         updateGithubPagesConfig Samples.stub
           (Some (JObj (Samples.repo ++ [("cname", JNull)]))) []
         = ([], inl (ZodError errors))
         /\ In (mkIssue [Key "cname"] "Expected string, received null")
               errors).
Proof.
  split.
  - destruct (proj1 (update_cname_sent_iff_string Samples.stub
                       (Samples.repo ++ [("cname", JStr "")]) [])
                (mkUpdate "o" "r" None None (Some "")) eq_refl)
      as (params & Hreq & [[Hl _] | (c & Hl & Hc)]); [discriminate |].
    injection Hl as <-. now exists params.
  - apply (proj2 (update_cname_sent_iff_string Samples.stub
                    (Samples.repo ++ [("cname", JNull)]) [])
             JNull eq_refl).
    intros c. discriminate.
Defined.

(** C4 as stated fails: with [cname: null] the key is provided, yet no update
    request carrying [cname] reaches the upstream, since none is issued. *)
Lemma update_cname_null_not_sent :
  lookup "cname" (Samples.repo ++ [("cname", JNull)]) = Some JNull
  /\ ~ (exists params,
           In (UpdateInformationAboutPagesSite params)
              (fst (updateGithubPagesConfig Samples.stub
                      (Some (JObj (Samples.repo ++ [("cname", JNull)]))) []))
           /\ p_cname params <> None).
Proof.
  split; [reflexivity |]. intros (params & Hin & _). exact Hin.
Qed.

(** ** C8 *)

Lemma z_enum_rejects values p v :
  (forall s, In s values -> v <> JStr s) ->
  exists issue, z_enum values p (Some v) = inl [issue] /\ path issue = p.
Proof.
  intros Hv. destruct v; try (eexists; split; reflexivity).
  unfold z_enum. destruct (existsb (String.eqb s) values) eqn:E.
  - apply existsb_exists in E. destruct E as (x & Hin & Heq).
    apply String.eqb_eq in Heq. subst. now destruct (Hv x Hin).
  - eexists; split; reflexivity.
Qed.

Lemma source_path_rejected p s v :
  lookup "path" s = Some v -> v <> JStr "/" -> v <> JStr "/docs" ->
  exists issue,
    path issue = p ++ [Key "path"]
    /\ has_issue (SourceSchema p (Some (JObj s))) issue.
Proof.
  intros Hl H1 H2.
  destruct (z_enum_rejects path_values (p ++ [Key "path"]) v)
    as (issue & Hissue & Hpath).
  { simpl. intros x [<- | [<- | []]]; assumption. }
  exists issue. split; [exact Hpath |].
  unfold SourceSchema, z_object, shape_ap, field.
  apply has_issue_vap_r. rewrite Hl. unfold z_optional.
  apply has_issue_vmap. rewrite Hissue. now left.
Qed.

(** C8.  When [update_github_pages_config] is given a [source.path] outside
    {["/"], ["/docs"]}, the arguments are rejected with the trace untouched,
    in the way validation rejects them for [enable_github_pages]: both
    handlers throw a [ZodError], both report the same issue at [source.path],
    and the issues of the update are those of the enable followed by whatever
    [cname] adds. *)
Theorem update_rejects_bad_path_like_enable octokit o s v h :
  lookup "source" o = Some (JObj s) ->
  lookup "path" s = Some v ->
  v <> JStr "/" -> v <> JStr "/docs" ->
  exists errs_e errs_u issue,
    enableGithubPages octokit (Some (JObj o)) h = (h, inl (ZodError errs_e))
    /\ updateGithubPagesConfig octokit (Some (JObj o)) h
       = (h, inl (ZodError errs_u))
    /\ dispatch octokit "enable_github_pages" (Some (JObj o)) h
       = (h, inl (Error (invalid_arguments errs_e)))
    /\ dispatch octokit "update_github_pages_config" (Some (JObj o)) h
       = (h, inl (Error (invalid_arguments errs_u)))
    /\ path issue = [Key "source"; Key "path"]
    /\ In issue errs_e /\ In issue errs_u
    /\ errs_u
       = errs_e
         ++ issues_of (z_optional z_string [Key "cname"] (lookup "cname" o)).
Proof.
  intros Hsource Hpath H1 H2.
  destruct (source_path_rejected [Key "source"] s v Hpath H1 H2)
    as (issue & Hip & Hissue).
  assert (He : has_issue (parse EnableGithubPagesSchema (Some (JObj o)))
                         issue).
  { unfold parse, EnableGithubPagesSchema, z_object, shape_ap, field.
    apply has_issue_vap_l, has_issue_vap_r. now rewrite Hsource. }
  assert (Hu : has_issue (parse UpdateGithubPagesConfigSchema
                            (Some (JObj o))) issue).
  { unfold parse, UpdateGithubPagesConfigSchema, z_object, shape_ap, field.
    do 2 apply has_issue_vap_l. apply has_issue_vap_r. rewrite Hsource.
    now apply has_issue_vmap. }
  exists (issues_of (parse EnableGithubPagesSchema (Some (JObj o)))),
    (issues_of (parse UpdateGithubPagesConfigSchema (Some (JObj o)))), issue.
  pose proof (has_issue_rejected _ _ He) as Hre.
  pose proof (has_issue_rejected _ _ Hu) as Hru.
  repeat split; trivial.
  - now apply validated_rejects.
  - now apply validated_rejects.
  - now apply dispatch_rejects.
  - now apply dispatch_rejects.
  - unfold parse, UpdateGithubPagesConfigSchema, EnableGithubPagesSchema,
      z_object, shape_ap, field.
    rewrite !issues_of_vap, Hsource. unfold z_optional at 1.
    now rewrite issues_of_vmap.
Qed.

Lemma update_rejects_bad_path_like_enable_witness :
  exists errors,
    updateGithubPagesConfig Samples.stub
      (Some (JObj (Samples.repo
                     ++ [("source", JObj [("branch", JStr "main");
                                          ("path", JStr "/site")])]))) []
    = ([], inl (ZodError errors))
    /\ enableGithubPages Samples.stub
         (Some (JObj (Samples.repo
                        ++ [("source", JObj [("branch", JStr "main");
                                             ("path", JStr "/site")])]))) []
       = ([], inl (ZodError errors)).
Proof.
  destruct (update_rejects_bad_path_like_enable Samples.stub
              (Samples.repo
                 ++ [("source", JObj [("branch", JStr "main");
                                      ("path", JStr "/site")])])
              [("branch", JStr "main"); ("path", JStr "/site")]
              (JStr "/site") [] eq_refl eq_refl)
    as (errs_e & errs_u & issue & He & Hu & _ & _ & _ & _ & _ & Heq);
    try discriminate.
  exists errs_u. split; [exact Hu |].
  rewrite He, Heq. simpl. now rewrite app_nil_r.
Defined.

(** ** The blob step of the deploy handler *)

(** What the promise of one file settles to, given the upstream's answer. *)
Lemma blob_entry_eq octokit owner repo file h :
  blob_entry octokit owner repo file h
  = (h ++ [blob_request owner repo file],
     (fst (createBlob octokit h owner repo (f_content file)
             (blob_encoding file)),
      match snd (createBlob octokit h owner repo (f_content file)
                   (blob_encoding file)) with
      | inl e => inl e
      | inr sha => inr (mkTreeItem (f_path file) "100644" "blob" sha)
      end)).
Proof.
  unfold blob_entry, blob_request.
  now destruct (createBlob octokit h owner repo _ _).
Qed.

(** The requests go out in list order, and promise [i] belongs to file [i]:
    it is answered from the trace holding the blob requests of the files
    before it. *)
Lemma map_async_blobs octokit owner repo files :
  forall h,
    fst (map_async (blob_entry octokit owner repo) files h)
    = h ++ map (blob_request owner repo) files
    /\ length (snd (map_async (blob_entry octokit owner repo) files h))
       = length files
    /\ forall i file,
        nth_error files i = Some file ->
        nth_error (snd (map_async (blob_entry octokit owner repo) files h)) i
        = Some (snd (blob_entry octokit owner repo file
                       (h ++ map (blob_request owner repo)
                                 (firstn i files)))).
Proof.
  induction files as [| x rest IH]; intros h.
  - simpl. rewrite app_nil_r. repeat split. intros [| i] file; discriminate.
  - simpl. rewrite blob_entry_eq.
    specialize (IH (h ++ [blob_request owner repo x])).
    destruct (map_async (blob_entry octokit owner repo) rest
                (h ++ [blob_request owner repo x])) as [h2 ps].
    simpl in *. destruct IH as (Htrace & Hlen & Hnth).
    split; [now rewrite Htrace, <- app_assoc |].
    split; [now rewrite Hlen |].
    intros [| i] file Hfile; simpl in *.
    + injection Hfile as <-. now rewrite app_nil_r, blob_entry_eq.
    + rewrite (Hnth i file Hfile), <- app_assoc. reflexivity.
Qed.

Lemma first_rejection_none {A} (ps : list (Settled A)) :
  first_rejection ps = None ->
  forall i p, nth_error ps i = Some p -> exists a, snd p = inr a.
Proof.
  induction ps as [| [t [e | a]] rest IH]; simpl; intros Hnone.
  - intros [| i] p; discriminate.
  - destruct (first_rejection rest) as [[t' e'] |]; [| discriminate].
    destruct (Nat.ltb t' t); discriminate.
  - intros [| i] p Hp; simpl in Hp.
    + injection Hp as <-. now exists a.
    + now apply (IH Hnone i).
Qed.

Lemma first_rejection_all_fulfilled {A} (ps : list (Settled A)) :
  (forall i p, nth_error ps i = Some p -> exists a, snd p = inr a) ->
  first_rejection ps = None.
Proof.
  induction ps as [| [t [e | a]] rest IH]; simpl; intros Hall;
    [reflexivity | |].
  - destruct (Hall 0 (t, inl e) eq_refl) as [a Ha]. discriminate.
  - apply IH. intros i p Hp. exact (Hall (S i) p Hp).
Qed.

(** When nothing is rejected the values come back one per promise, in the
    order of the promises. *)
Lemma fulfilled_nth {A} (ps : list (Settled A)) :
  first_rejection ps = None ->
  length (fulfilled ps) = length ps
  /\ forall i p a, nth_error ps i = Some p -> snd p = inr a ->
                   nth_error (fulfilled ps) i = Some a.
Proof.
  induction ps as [| [t [e | a]] rest IH]; simpl; intros Hnone.
  - split; [reflexivity |]. intros [| i] p a; discriminate.
  - destruct (first_rejection rest) as [[t' e'] |]; [| discriminate].
    destruct (Nat.ltb t' t); discriminate.
  - destruct (IH Hnone) as [Hlen Hnth]. split; [now rewrite Hlen |].
    intros [| i] p b Hp Hb; simpl in *.
    + injection Hp as <-. simpl in Hb. congruence.
    + exact (Hnth i p b Hp Hb).
Qed.

Lemma Promise_all_inr {A} (ps : list (Settled A)) items :
  Promise_all ps = inr items ->
  first_rejection ps = None /\ items = fulfilled ps.
Proof.
  unfold Promise_all. destruct (first_rejection ps) as [[t e] |];
    [discriminate |].
  intros [= <-]. now split.
Qed.

(** The tree entries of a deployment whose blobs were all created: one per
    file, in the order of the files, each with the SHA the upstream gave for
    that file's blob. *)
Lemma tree_entries octokit owner repo files h items :
  Promise_all (snd (map_async (blob_entry octokit owner repo) files h))
  = inr items ->
  length items = length files
  /\ forall i file,
      nth_error files i = Some file ->
      exists t sha,
        createBlob octokit (h ++ map (blob_request owner repo)
                                     (firstn i files))
          owner repo (f_content file) (blob_encoding file) = (t, inr sha)
        /\ nth_error items i
           = Some (mkTreeItem (f_path file) "100644" "blob" sha).
Proof.
  intros Hall. apply Promise_all_inr in Hall. destruct Hall as [Hnone ->].
  destruct (map_async_blobs octokit owner repo files h)
    as (_ & Hlen & Hnth).
  destruct (fulfilled_nth _ Hnone) as [Hflen Hfnth].
  split; [now rewrite Hflen |].
  intros i file Hfile. specialize (Hnth i file Hfile).
  destruct (first_rejection_none _ Hnone i _ Hnth) as [item Hitem].
  pose proof (Hfnth i _ item Hnth Hitem) as Hentry.
  rewrite blob_entry_eq in Hitem. simpl in Hitem.
  destruct (createBlob octokit _ owner repo (f_content file)
              (blob_encoding file)) as [t [e | sha]] eqn:Hblob;
    simpl in Hitem; [discriminate |].
  injection Hitem as <-. now exists t, sha.
Qed.

Lemma first_rejection_member {A} (ps : list (Settled A)) :
  forall t e,
    first_rejection ps = Some (t, e) ->
    exists j, nth_error ps j = Some (t, inl e).
Proof.
  induction ps as [| [t0 [e0 | a]] rest IH]; simpl; intros t e H.
  - discriminate.
  - destruct (first_rejection rest) as [[t' e'] |].
    + destruct (Nat.ltb t' t0).
      * injection H as <- <-. destruct (IH t' e' eq_refl) as [j Hj].
        now exists (S j).
      * injection H as <- <-. now exists 0.
    + injection H as <- <-. now exists 0.
  - destruct (IH t e H) as [j Hj]. now exists (S j).
Qed.

Lemma first_rejection_minimal {A} (ps : list (Settled A)) :
  forall t' e' i t e,
    first_rejection ps = Some (t', e') ->
    nth_error ps i = Some (t, inl e) ->
    t' <= t.
Proof.
  induction ps as [| [t0 [e0 | a]] rest IH]; simpl; intros t' e' i t e H Hi.
  - discriminate.
  - destruct (first_rejection rest) as [[t1 e1] |] eqn:Hrest.
    + destruct (Nat.ltb_spec t1 t0) as [Hlt | Hge]; injection H as <- <-;
        destruct i as [| i]; simpl in Hi.
      * injection Hi as <- _. lia.
      * exact (IH _ _ _ _ _ eq_refl Hi).
      * injection Hi as <- _. lia.
      * pose proof (IH _ _ _ _ _ eq_refl Hi). lia.
    + injection H as <- <-. destruct i as [| i]; simpl in Hi.
      * injection Hi as <- _. lia.
      * destruct (first_rejection_none rest Hrest i _ Hi) as [a Ha].
        discriminate.
  - destruct i as [| i]; simpl in Hi; [discriminate |].
    exact (IH _ _ _ _ _ H Hi).
Qed.

Lemma first_rejection_exists {A} (ps : list (Settled A)) i t e :
  nth_error ps i = Some (t, inl e) ->
  exists t' e', first_rejection ps = Some (t', e').
Proof.
  intros Hi. destruct (first_rejection ps) as [[t' e'] |] eqn:H.
  - now exists t', e'.
  - destruct (first_rejection_none ps H i _ Hi) as [a Ha]. discriminate.
Qed.

(** The promise of file [i], read back as the upstream's answer. *)
Lemma blob_promise_answer octokit owner repo files h ps i t e :
  snd (map_async (blob_entry octokit owner repo) files h) = ps ->
  nth_error ps i = Some (t, inl e) ->
  exists file,
    nth_error files i = Some file
    /\ createBlob octokit (h ++ map (blob_request owner repo)
                                    (firstn i files))
         owner repo (f_content file) (blob_encoding file) = (t, inl e).
Proof.
  intros <- Hi.
  destruct (map_async_blobs octokit owner repo files h) as (_ & Hlen & Hnth).
  destruct (nth_error files i) as [file |] eqn:Hfile.
  - exists file. split; [reflexivity |].
    rewrite (Hnth i file Hfile), blob_entry_eq in Hi. simpl in Hi.
    destruct (createBlob octokit _ owner repo (f_content file)
                (blob_encoding file)) as [t0 [e0 | sha]];
      simpl in Hi; [now injection Hi as <- <- | discriminate Hi].
  - apply nth_error_None in Hfile.
    assert (i < length files)
      by (rewrite <- Hlen; apply nth_error_Some; congruence).
    lia.
Qed.

(** ** The stages of a deployment *)

(** A deployment with files stops at the first step that fails. *)
Lemma deploy_stages octokit args input files h :
  parse DeployToGithubPagesSchema args = inr input ->
  dp_files input = Some files ->
  files <> [] ->
  exists s,
    deployToGithubPages octokit args h
    = (h ++ stage_requests input files s, inr (stage_result files s))
    /\ stage_answers octokit input files h s.
Proof.
  intros Hparse Hfiles Hne.
  unfold deployToGithubPages, validated. rewrite Hparse, Hfiles.
  destruct files as [| file rest]; [contradiction |].
  unfold try_catch, bind, await, await_all.
  destruct (getRef octokit h (dp_owner input) (dp_repo input) _)
    as [e | tip] eqn:Href;
    [exists (RefFailed e); now split |].
  destruct (getCommit octokit _ (dp_owner input) (dp_repo input) tip)
    as [e | base] eqn:Hcommit;
    [exists (CommitFailed tip e); split;
     [now rewrite <- app_assoc | now split] |].
  rewrite <- (app_assoc h). simpl app.
  pose proof (map_async_blobs octokit (dp_owner input) (dp_repo input)
                (file :: rest)
                (h ++ [GetRef (dp_owner input) (dp_repo input)
                         ("heads/" +++ dp_branch input);
                       GetCommit (dp_owner input) (dp_repo input) tip]))
    as (Htrace & _ & _).
  destruct (map_async (blob_entry octokit (dp_owner input) (dp_repo input))
              (file :: rest) _) as [h1 ps] eqn:Hmap.
  simpl fst in Htrace. subst h1.
  assert (Hblobs : Promise_all
                     (snd (map_async
                             (blob_entry octokit (dp_owner input)
                                (dp_repo input))
                             (file :: rest)
                             (h ++ [GetRef (dp_owner input) (dp_repo input)
                                      ("heads/" +++ dp_branch input);
                                    GetCommit (dp_owner input) (dp_repo input)
                                      tip])))
                   = Promise_all ps) by now rewrite Hmap.
  clear Hmap.
  destruct (Promise_all ps) as [e | items];
    [exists (BlobsFailed tip base e); split;
     [unfold stage_requests, deploy_prefix; now rewrite <- !app_assoc
     | now repeat split] |].
  destruct (createTree octokit _ (dp_owner input) (dp_repo input) items base)
    as [e | tree] eqn:Htree;
    [exists (TreeFailed tip base items e) |
     destruct (createCommit octokit _ (dp_owner input) (dp_repo input) _ tree
                 [tip]) as [e | commit] eqn:Hnew;
     [exists (CommitCreateFailed tip base items tree e) |
      destruct (updateRef octokit _ (dp_owner input) (dp_repo input) _ commit)
        as [e | []] eqn:Hupd;
      [exists (RefUpdateFailed tip base items tree commit e)
      | exists (Deployed tip base items tree commit)]]];
    (split;
     [unfold stage_requests, deploy_prefix, deploy_message, stage_result, ret;
      now rewrite <- !app_assoc
     | unfold stage_answers, deploy_prefix, deploy_message;
       rewrite <- ?app_assoc in *; simpl app in *; now repeat split]).
Qed.

(** ** C5 *)

(** When the branch tip and the base tree were resolved and the blobs were
    all created, the "create tree" request follows the blob requests, with
    one entry per file in the order of the files, on top of the resolved
    base tree; no other "create tree" request follows it. *)
Lemma tree_follows_created_blobs
        octokit args input files h tip base :
  parse DeployToGithubPagesSchema args = inr input ->
  dp_files input = Some files ->
  files <> [] ->
  getRef octokit h (dp_owner input) (dp_repo input)
    ("heads/" +++ dp_branch input) = inr tip ->
  getCommit octokit
    (h ++ [GetRef (dp_owner input) (dp_repo input)
             ("heads/" +++ dp_branch input)])
    (dp_owner input) (dp_repo input) tip = inr base ->
  (forall i file,
      nth_error files i = Some file ->
      exists t sha,
        createBlob octokit
          (h ++ [GetRef (dp_owner input) (dp_repo input)
                   ("heads/" +++ dp_branch input);
                 GetCommit (dp_owner input) (dp_repo input) tip]
             ++ map (blob_request (dp_owner input) (dp_repo input))
                    (firstn i files))
          (dp_owner input) (dp_repo input) (f_content file)
          (blob_encoding file) = (t, inr sha)) ->
  exists items rest,
    fst (deployToGithubPages octokit args h)
    = h ++ [GetRef (dp_owner input) (dp_repo input)
              ("heads/" +++ dp_branch input);
            GetCommit (dp_owner input) (dp_repo input) tip]
        ++ map (blob_request (dp_owner input) (dp_repo input)) files
        ++ CreateTree (dp_owner input) (dp_repo input) items base :: rest
    /\ existsb is_create_tree rest = false
    /\ length items = length files
    /\ forall i file,
        nth_error files i = Some file ->
        exists t sha,
          createBlob octokit
            (h ++ [GetRef (dp_owner input) (dp_repo input)
                     ("heads/" +++ dp_branch input);
                   GetCommit (dp_owner input) (dp_repo input) tip]
               ++ map (blob_request (dp_owner input) (dp_repo input))
                      (firstn i files))
            (dp_owner input) (dp_repo input) (f_content file)
            (blob_encoding file) = (t, inr sha)
          /\ nth_error items i
             = Some (mkTreeItem (f_path file) "100644" "blob" sha).
Proof.
  intros Hparse Hfiles Hne Href Hcommit Hblobs.
  set (owner := dp_owner input) in *. set (repo := dp_repo input) in *.
  set (ref := "heads/" +++ dp_branch input) in *.
  set (h2 := h ++ [GetRef owner repo ref; GetCommit owner repo tip]) in *.
  destruct (map_async_blobs octokit owner repo files h2)
    as (Htrace & Hlen & Hnth).
  assert (Hnone : first_rejection
                    (snd (map_async (blob_entry octokit owner repo) files h2))
                  = None).
  { apply first_rejection_all_fulfilled. intros i p Hp.
    assert (Hi : i < length files)
      by (rewrite <- Hlen; apply nth_error_Some; congruence).
    destruct (nth_error files i) as [file |] eqn:Hfile;
      [| apply nth_error_None in Hfile; lia].
    rewrite (Hnth i file Hfile) in Hp. injection Hp as <-.
    destruct (Hblobs i file Hfile) as (t & sha & Hblob).
    rewrite app_assoc in Hblob. rewrite blob_entry_eq. fold h2 in Hblob.
    rewrite Hblob. simpl. eauto. }
  pose proof (tree_entries octokit owner repo files h2
                (fulfilled (snd (map_async (blob_entry octokit owner repo)
                                   files h2)))) as Hentries.
  unfold Promise_all in Hentries. rewrite Hnone in Hentries.
  destruct (Hentries eq_refl) as [Hilen Hinth]. clear Hentries.
  unfold deployToGithubPages, validated. rewrite Hparse, Hfiles.
  destruct files as [| file rest]; [contradiction |].
  unfold try_catch, bind, await, await_all. fold owner repo ref.
  rewrite Href, Hcommit.
  replace ((h ++ [GetRef owner repo ref]) ++ [GetCommit owner repo tip])
    with h2 by (unfold h2; now rewrite <- app_assoc).
  destruct (map_async (blob_entry octokit owner repo) (file :: rest) h2)
    as [h' ps].
  simpl fst in Htrace. simpl snd in Hnone, Hilen, Hinth.
  unfold Promise_all. rewrite Hnone. exists (fulfilled ps).
  assert (Hprefix : forall tail,
             h' ++ tail
             = h ++ [GetRef owner repo ref; GetCommit owner repo tip]
                 ++ map (blob_request owner repo) (file :: rest) ++ tail).
  { intros tail. rewrite Htrace. unfold h2. now rewrite <- !app_assoc. }
  destruct (createTree octokit h' owner repo (fulfilled ps) base)
    as [e | tree];
    [| destruct (createCommit octokit _ owner repo _ tree [tip])
         as [e | commit];
       [| destruct (updateRef octokit _ owner repo ref commit) as [e | []]]];
    cbn [fst snd ret]; rewrite <- ?app_assoc; rewrite Hprefix;
    eexists;
    (split; [reflexivity | split; [reflexivity | split; [assumption |]]]);
    intros i file0 Hfile0;
    destruct (Hinth i file0 Hfile0) as (t & blob & Hblob & Hitem);
    exists t, blob; (split; [| exact Hitem]);
    rewrite <- Hblob; unfold h2; now rewrite <- app_assoc.
Qed.


Lemma deploy_prefix_has_no_tree input tip files :
  filter is_create_tree (deploy_prefix input tip files) = [].
Proof.
  unfold deploy_prefix. rewrite filter_app. simpl.
  induction files as [| file rest IH]; [reflexivity | exact IH].
Qed.

Lemma stage_requests_one_tree input files s :
  length (filter is_create_tree (stage_requests input files s)) <= 1.
Proof.
  destruct s; unfold stage_requests; rewrite ?filter_app;
    rewrite ?deploy_prefix_has_no_tree; simpl; lia.
Qed.

(** A "create tree" request among those of a stage is the one the stage
    names. *)
Lemma stage_tree_request input files s owner repo tree base_tree :
  In (CreateTree owner repo tree base_tree) (stage_requests input files s) ->
  owner = dp_owner input /\ repo = dp_repo input
  /\ exists tip,
      (exists e, s = TreeFailed tip base_tree tree e)
      \/ (exists t e, s = CommitCreateFailed tip base_tree tree t e)
      \/ (exists t c e, s = RefUpdateFailed tip base_tree tree t c e)
      \/ (exists t c, s = Deployed tip base_tree tree t c).
Proof.
  assert (Hprefix : forall tip,
             ~ In (CreateTree owner repo tree base_tree)
                  (deploy_prefix input tip files)).
  { intros tip Hin.
    assert (Hf : In (CreateTree owner repo tree base_tree)
                    (filter is_create_tree (deploy_prefix input tip files)))
      by (apply filter_In; now split).
    now rewrite deploy_prefix_has_no_tree in Hf. }
  destruct s; unfold stage_requests; intros Hin.
  - simpl in Hin. intuition discriminate.
  - simpl in Hin. intuition discriminate.
  - now destruct (Hprefix tip).
  - apply in_app_or in Hin. destruct Hin as [Hin | Hin];
      [now destruct (Hprefix tip) |].
    simpl in Hin. destruct Hin as [Hin | []].
    injection Hin as <- <- <- <-. repeat split. exists tip. left. eauto.
  - apply in_app_or in Hin. destruct Hin as [Hin | Hin];
      [now destruct (Hprefix tip) |].
    simpl in Hin. destruct Hin as [Hin | [Hin | []]]; [| discriminate Hin].
    injection Hin as <- <- <- <-. repeat split. exists tip.
    right; left. eauto.
  - apply in_app_or in Hin. destruct Hin as [Hin | Hin];
      [now destruct (Hprefix tip) |].
    simpl in Hin.
    destruct Hin as [Hin | [Hin | [Hin | []]]]; try discriminate Hin.
    injection Hin as <- <- <- <-. repeat split. exists tip.
    do 2 right; left. eauto.
  - apply in_app_or in Hin. destruct Hin as [Hin | Hin];
      [now destruct (Hprefix tip) |].
    simpl in Hin.
    destruct Hin as [Hin | [Hin | [Hin | []]]]; try discriminate Hin.
    injection Hin as <- <- <- <-. repeat split. exists tip.
    do 3 right. eauto.
Qed.

(** C5.  For a non-empty [files] list, every "create tree" request that the
    deploy handler issues is addressed to the caller's repository, is issued
    only after the branch tip was read, its commit's tree was read and every
    blob was created, and carries the resolved base tree and one entry per
    file, in the order of the files, entry [i] being [{path, mode: "100644",
    type: "blob", sha}] with the path of file [i] and the SHA the upstream
    returned for the blob of file [i].  The handler issues at most one such
    request, and it does issue it, right after the blob requests, whenever
    the tip, the base tree and all the blobs were obtained. *)
Theorem deploy_tree_preserves_file_order octokit args input files h :
  parse DeployToGithubPagesSchema args = inr input ->
  dp_files input = Some files ->
  files <> [] ->
  exists new,
    fst (deployToGithubPages octokit args h) = h ++ new
    /\ length (filter is_create_tree new) <= 1
    /\ (forall owner repo tree base_tree,
           In (CreateTree owner repo tree base_tree) new ->
           owner = dp_owner input /\ repo = dp_repo input
           /\ exists tip,
               getRef octokit h (dp_owner input) (dp_repo input)
                 ("heads/" +++ dp_branch input) = inr tip
               /\ getCommit octokit
                    (h ++ [GetRef (dp_owner input) (dp_repo input)
                             ("heads/" +++ dp_branch input)])
                    (dp_owner input) (dp_repo input) tip = inr base_tree
               /\ length tree = length files
               /\ forall i file,
                   nth_error files i = Some file ->
                   exists t sha,
                     createBlob octokit
                       (h ++ deploy_prefix input tip (firstn i files))
                       (dp_owner input) (dp_repo input) (f_content file)
                       (blob_encoding file) = (t, inr sha)
                     /\ nth_error tree i
                        = Some (mkTreeItem (f_path file) "100644" "blob"
                                  sha))
    /\ (forall tip base,
           getRef octokit h (dp_owner input) (dp_repo input)
             ("heads/" +++ dp_branch input) = inr tip ->
           getCommit octokit
             (h ++ [GetRef (dp_owner input) (dp_repo input)
                      ("heads/" +++ dp_branch input)])
             (dp_owner input) (dp_repo input) tip = inr base ->
           (forall i file,
               nth_error files i = Some file ->
               exists t sha,
                 createBlob octokit
                   (h ++ deploy_prefix input tip (firstn i files))
                   (dp_owner input) (dp_repo input) (f_content file)
                   (blob_encoding file) = (t, inr sha)) ->
           exists items rest,
             new = deploy_prefix input tip files
                     ++ CreateTree (dp_owner input) (dp_repo input) items
                          base :: rest).
Proof.
  intros Hparse Hfiles Hne.
  destruct (deploy_stages octokit args input files h Hparse Hfiles Hne)
    as (s & Hrun & Hanswers).
  exists (stage_requests input files s).
  split; [now rewrite Hrun |].
  split; [apply stage_requests_one_tree |]. split.
  - intros owner repo tree base_tree Hin.
    apply stage_tree_request in Hin.
    destruct Hin as (-> & -> & tip & Hstage).
    split; [reflexivity |]. split; [reflexivity |]. exists tip.
    assert (Hgot : getRef octokit h (dp_owner input) (dp_repo input)
                     ("heads/" +++ dp_branch input) = inr tip
                   /\ getCommit octokit
                        (h ++ [GetRef (dp_owner input) (dp_repo input)
                                 ("heads/" +++ dp_branch input)])
                        (dp_owner input) (dp_repo input) tip = inr base_tree
                   /\ Promise_all
                        (snd (map_async
                                (blob_entry octokit (dp_owner input)
                                   (dp_repo input))
                                files
                                (h ++ [GetRef (dp_owner input) (dp_repo input)
                                         ("heads/" +++ dp_branch input);
                                       GetCommit (dp_owner input)
                                         (dp_repo input) tip])))
                      = inr tree).
    { destruct Hstage as [(e & ->) | [(t & e & ->) | [(t & c & e & ->)
                         | (t & c & ->)]]];
        unfold stage_answers in Hanswers; tauto. }
    destruct Hgot as (Href & Hcommit & Hblobs).
    split; [exact Href |]. split; [exact Hcommit |].
    destruct (tree_entries octokit _ _ files _ tree Hblobs) as [Hlen Hnth].
    split; [exact Hlen |].
    intros i file Hfile.
    destruct (Hnth i file Hfile) as (t & sha & Hblob & Hitem).
    exists t, sha. split; [| exact Hitem].
    unfold deploy_prefix. now rewrite app_assoc.
  - intros tip base Href Hcommit Hblobs.
    destruct (tree_follows_created_blobs octokit args input files h tip base
                Hparse Hfiles Hne Href Hcommit)
      as (items & rest & Htrace & _).
    { intros i file Hfile.
      destruct (Hblobs i file Hfile) as (t & sha & Hblob).
      exists t, sha. rewrite <- Hblob. reflexivity. }
    exists items, rest. rewrite Hrun in Htrace. simpl fst in Htrace.
    apply app_inv_head in Htrace. rewrite Htrace.
    unfold deploy_prefix. rewrite <- ?app_assoc. reflexivity.
Qed.

Lemma deploy_tree_preserves_file_order_witness :
  exists new items rest,
    fst (deployToGithubPages Samples.stub
           (Samples.deploy_args
              [("files", JArr [Samples.file_a; Samples.file_b])]) [])
    = [] ++ new
    /\ new = [GetRef "o" "r" "heads/gh-pages"; GetCommit "o" "r" "c0";
              CreateBlob "o" "r" "x" "utf-8";
              CreateBlob "o" "r" "eA==" "base64"]
               ++ CreateTree "o" "r" items "t0" :: rest
    /\ nth_error items 0 = Some (mkTreeItem "a.txt" "100644" "blob" "blob:x")
    /\ nth_error items 1
       = Some (mkTreeItem "b.txt" "100644" "blob" "blob:eA==").
Proof.
  destruct (deploy_tree_preserves_file_order Samples.stub
              (Samples.deploy_args
                 [("files", JArr [Samples.file_a; Samples.file_b])])
              (mkDeploy "o" "r" "gh-pages" None
                 (Some [mkFile "a.txt" "x" None;
                        mkFile "b.txt" "eA==" (Some "base64")]))
              [mkFile "a.txt" "x" None; mkFile "b.txt" "eA==" (Some "base64")]
              [] eq_refl eq_refl)
    as (new & Htrace & _ & Hevery & Hissued).
  - discriminate.
  - destruct (Hissued "c0" "t0" eq_refl eq_refl) as (items & rest & Hnew).
    + intros i file _. eexists _, _. reflexivity.
    + exists new, items, rest. split; [exact Htrace |].
      split; [exact Hnew |].
      assert (Hin : In (CreateTree "o" "r" items "t0") new)
        by (rewrite Hnew; apply in_or_app; right; now left).
      destruct (Hevery "o" "r" items "t0" Hin)
        as (_ & _ & tip & Href & _ & _ & Hnth).
      injection Href as <-. split.
      * destruct (Hnth 0 _ eq_refl) as (t & sha & Hblob & Hitem).
        injection Hblob as _ <-. exact Hitem.
      * destruct (Hnth 1 _ eq_refl) as (t & sha & Hblob & Hitem).
        injection Hblob as _ <-. exact Hitem.
Defined.

(** ** C6 *)

(** C6, as amended.  A [deploy_to_github_pages] call with non-empty [files]
    that comes back without the error flag has issued, after the blob and
    tree requests, one commit whose parent list is exactly the tip read from
    [heads/<branch>] and whose message is the supplied message when that is
    a non-empty string and ["Deploy to GitHub Pages"] when it is omitted or
    empty; it has then asked to move [heads/<branch>] to the new commit and
    the upstream has accepted that update, as it accepted every request
    before it; and it reports that commit's SHA as [commit_sha] and the
    number of files as [files_deployed]. *)
Theorem deploy_success_commits_on_tip
        octokit args input files h h' result :
  parse DeployToGithubPagesSchema args = inr input ->
  dp_files input = Some files ->
  files <> [] ->
  deployToGithubPages octokit args h = (h', inr result) ->
  isError result = false ->
  exists tip base items tree commit msg,
    getRef octokit h (dp_owner input) (dp_repo input)
      ("heads/" +++ dp_branch input) = inr tip
    /\ h' = h ++ [GetRef (dp_owner input) (dp_repo input)
                    ("heads/" +++ dp_branch input);
                  GetCommit (dp_owner input) (dp_repo input) tip]
              ++ map (blob_request (dp_owner input) (dp_repo input)) files
              ++ [CreateTree (dp_owner input) (dp_repo input) items base;
                  CreateCommit (dp_owner input) (dp_repo input) msg tree
                    [tip];
                  UpdateRef (dp_owner input) (dp_repo input)
                    ("heads/" +++ dp_branch input) commit]
    /\ createCommit octokit
         (h ++ [GetRef (dp_owner input) (dp_repo input)
                  ("heads/" +++ dp_branch input);
                GetCommit (dp_owner input) (dp_repo input) tip]
            ++ map (blob_request (dp_owner input) (dp_repo input)) files
            ++ [CreateTree (dp_owner input) (dp_repo input) items base])
         (dp_owner input) (dp_repo input) msg tree [tip] = inr commit
    /\ updateRef octokit
         (h ++ [GetRef (dp_owner input) (dp_repo input)
                  ("heads/" +++ dp_branch input);
                GetCommit (dp_owner input) (dp_repo input) tip]
            ++ map (blob_request (dp_owner input) (dp_repo input)) files
            ++ [CreateTree (dp_owner input) (dp_repo input) items base;
                CreateCommit (dp_owner input) (dp_repo input) msg tree
                  [tip]])
         (dp_owner input) (dp_repo input) ("heads/" +++ dp_branch input)
         commit = inr tt
    /\ getCommit octokit
         (h ++ [GetRef (dp_owner input) (dp_repo input)
                  ("heads/" +++ dp_branch input)])
         (dp_owner input) (dp_repo input) tip = inr base
    /\ createTree octokit
         (h ++ [GetRef (dp_owner input) (dp_repo input)
                  ("heads/" +++ dp_branch input);
                GetCommit (dp_owner input) (dp_repo input) tip]
            ++ map (blob_request (dp_owner input) (dp_repo input)) files)
         (dp_owner input) (dp_repo input) items base = inr tree
    /\ (forall i file,
           nth_error files i = Some file ->
           exists t sha,
             createBlob octokit
               (h ++ [GetRef (dp_owner input) (dp_repo input)
                        ("heads/" +++ dp_branch input);
                      GetCommit (dp_owner input) (dp_repo input) tip]
                  ++ map (blob_request (dp_owner input) (dp_repo input))
                         (firstn i files))
               (dp_owner input) (dp_repo input) (f_content file)
               (blob_encoding file) = (t, inr sha)
             /\ nth_error items i
                = Some (mkTreeItem (f_path file) "100644" "blob" sha))
    /\ (dp_message input = None \/ dp_message input = Some "" ->
        msg = "Deploy to GitHub Pages")
    /\ (forall m, dp_message input = Some m -> m <> "" -> msg = m)
    /\ result
       = mkResult
           (JObj [("success", JBool true);
                  ("message", JStr "Files deployed successfully");
                  ("commit_sha", JStr commit);
                  ("files_deployed", JNum (Z.of_nat (length files)))])
           false.
Proof.
  intros Hparse Hfiles Hne Hrun Hflag.
  set (owner := dp_owner input) in *. set (repo := dp_repo input) in *.
  set (ref := "heads/" +++ dp_branch input) in *.
  unfold deployToGithubPages, validated in Hrun.
  rewrite Hparse, Hfiles in Hrun.
  destruct files as [| file rest]; [contradiction |].
  unfold try_catch, bind, await, await_all in Hrun.
  fold owner repo ref in Hrun.
  destruct (getRef octokit h owner repo ref) as [e | tip];
    [injection Hrun as <- <-; discriminate |].
  destruct (getCommit octokit _ owner repo tip) as [e | base] eqn:Hbase;
    [injection Hrun as <- <-; discriminate |].
  rewrite <- app_assoc in Hrun. simpl app in Hrun.
  pose proof (map_async_blobs octokit owner repo (file :: rest)
                (h ++ [GetRef owner repo ref; GetCommit owner repo tip]))
    as (Htrace & _ & _).
  pose proof (tree_entries octokit owner repo (file :: rest)
                (h ++ [GetRef owner repo ref; GetCommit owner repo tip]))
    as Hentries.
  destruct (map_async (blob_entry octokit owner repo) (file :: rest) _)
    as [h1 ps].
  simpl fst in Htrace. simpl snd in Hentries. subst h1.
  destruct (Promise_all ps) as [e | items];
    [injection Hrun as <- <-; discriminate |].
  destruct (Hentries items eq_refl) as [_ Hnth]. clear Hentries.
  destruct (createTree octokit _ owner repo items base)
    as [e | tree] eqn:Htree;
    [injection Hrun as <- <-; discriminate |].
  destruct (createCommit octokit _ owner repo _ tree [tip])
    as [e | commit] eqn:Hcommit;
    [injection Hrun as <- <-; discriminate |].
  destruct (updateRef octokit _ owner repo ref commit)
    as [e | []] eqn:Hupdate;
    [injection Hrun as <- <-; discriminate |].
  unfold ret in Hrun. injection Hrun as <- <-.
  rewrite <- !app_assoc in Hcommit. rewrite <- !app_assoc in Hupdate.
  rewrite <- !app_assoc in Htree. rewrite <- !app_assoc.
  exists tip, base, items, tree, commit,
    (or_default (dp_message input) "Deploy to GitHub Pages").
  split; [reflexivity |]. split; [reflexivity |]. split; [exact Hcommit |].
  split; [exact Hupdate |]. split; [exact Hbase |]. split; [exact Htree |].
  split.
  { intros i f Hf. destruct (Hnth i f Hf) as (t & sha & Hblob & Hitem).
    exists t, sha. split; [| exact Hitem].
    now rewrite <- app_assoc in Hblob. }
  split; [| split; [| reflexivity]].
  - intros [-> | ->]; reflexivity.
  - intros m -> Hm. simpl. now destruct (String.eqb_spec m "").
Qed.

Lemma deploy_success_commits_on_tip_witness :
  exists h' result,
    deployToGithubPages Samples.stub
      (Samples.deploy_args
         [("message", JStr "publish"); ("files", JArr [Samples.file_a])]) []
    = (h', inr result)
    /\ In (CreateCommit "o" "r" "publish" "t1" ["c0"]) h'
    /\ In (UpdateRef "o" "r" "heads/gh-pages" "c1") h'
    /\ lookup "commit_sha" (defined_props_of (content result))
       = Some (JStr "c1").
Proof.
  destruct (deploy_success_commits_on_tip Samples.stub
              (Samples.deploy_args
                 [("message", JStr "publish");
                  ("files", JArr [Samples.file_a])])
              (mkDeploy "o" "r" "gh-pages" (Some "publish")
                 (Some [mkFile "a.txt" "x" None]))
              [mkFile "a.txt" "x" None] []
              [GetRef "o" "r" "heads/gh-pages"; GetCommit "o" "r" "c0";
               CreateBlob "o" "r" "x" "utf-8";
               CreateTree "o" "r"
                 [mkTreeItem "a.txt" "100644" "blob" "blob:x"] "t0";
               CreateCommit "o" "r" "publish" "t1" ["c0"];
               UpdateRef "o" "r" "heads/gh-pages" "c1"]
              (mkResult
                 (JObj [("success", JBool true);
                        ("message", JStr "Files deployed successfully");
                        ("commit_sha", JStr "c1");
                        ("files_deployed", JNum 1)])
                 false)
              eq_refl eq_refl)
    as (tip & base & items & tree & commit & msg
        & Href & Htrace & Hcommit & _ & _ & _ & _ & _ & Hmsg & Hresult).
  - discriminate.
  - reflexivity.
  - reflexivity.
  - injection Href as <-. injection Hcommit as <-.
    rewrite (Hmsg "publish" eq_refl) in Htrace by discriminate.
    eexists _, _. split; [reflexivity |]. simpl. auto 10.
Defined.

(** C6 as stated fails: a supplied message that is the empty string is not
    the message of the commit; the default takes its place. *)
Lemma deploy_empty_message_replaced :
  parse DeployToGithubPagesSchema
    (Samples.deploy_args
       [("message", JStr ""); ("files", JArr [Samples.file_a])])
  = inr (mkDeploy "o" "r" "gh-pages" (Some "")
           (Some [mkFile "a.txt" "x" None]))
  /\ fst (deployToGithubPages Samples.stub
            (Samples.deploy_args
               [("message", JStr ""); ("files", JArr [Samples.file_a])]) [])
     = [GetRef "o" "r" "heads/gh-pages"; GetCommit "o" "r" "c0";
        CreateBlob "o" "r" "x" "utf-8";
        CreateTree "o" "r" [mkTreeItem "a.txt" "100644" "blob" "blob:x"] "t0";
        CreateCommit "o" "r" "Deploy to GitHub Pages" "t1" ["c0"];
        UpdateRef "o" "r" "heads/gh-pages" "c1"]
  /\ ~ (exists tree parents,
           In (CreateCommit "o" "r" "" tree parents)
              (fst (deployToGithubPages Samples.stub
                      (Samples.deploy_args
                         [("message", JStr "");
                          ("files", JArr [Samples.file_a])]) []))).
Proof.
  split; [reflexivity |]. split; [reflexivity |].
  intros (tree & parents & Hin). vm_compute in Hin.
  decompose [or] Hin; try discriminate; assumption.
Qed.

(** ** C9 *)






Lemma missing_string_field p k o :
  lookup k o = None ->
  has_issue (field k z_string p o) (mkIssue (p ++ [Key k]) "Required").
Proof. unfold field. intros ->. now left. Qed.

Lemma missing_source p o :
  lookup "source" o = None ->
  has_issue (field "source" SourceSchema p o)
            (mkIssue (p ++ [Key "source"]) "Required").
Proof. unfold field. intros ->. now left. Qed.

Lemma missing_source_branch p s :
  lookup "branch" s = None ->
  has_issue (SourceSchema p (Some (JObj s)))
            (mkIssue (p ++ [Key "branch"]) "Required").
Proof.
  intros Hl. unfold SourceSchema, z_object, shape_ap.
  apply has_issue_vap_l, has_issue_vap_r. now apply missing_string_field.
Qed.

(** An item of [files] that lacks [path] or [content] is reported at its
    index. *)
Lemma missing_file_field p k items :
  k = "path" \/ k = "content" ->
  forall n i item,
    nth_error items i = Some (JObj item) ->
    lookup k item = None ->
    has_issue (parse_items FileSchema p n items)
              (mkIssue (p ++ [Index (n + i)] ++ [Key k]) "Required").
Proof.
  intros Hk. induction items as [| x rest IH]; intros n [| i] item Hnth Hl;
    try discriminate; simpl in Hnth; simpl parse_items.
  - injection Hnth as ->. apply has_issue_vap_l, has_issue_vmap.
    rewrite Nat.add_0_r, app_assoc.
    unfold FileSchema, z_object, shape_ap.
    destruct Hk as [-> | ->].
    + do 2 apply has_issue_vap_l. apply has_issue_vap_r.
      now apply missing_string_field.
    + apply has_issue_vap_l, has_issue_vap_r.
      now apply missing_string_field.
  - apply has_issue_vap_r. rewrite <- Nat.add_succ_comm.
    now apply (IH (S n) i item).
Qed.

Lemma missing_branch_in_field p o s :
  lookup "source" o = Some (JObj s) -> lookup "branch" s = None ->
  has_issue (field "source" SourceSchema p o)
            (mkIssue ((p ++ [Key "source"]) ++ [Key "branch"]) "Required").
Proof.
  intros Hs Hb. unfold field. rewrite Hs. now apply missing_source_branch.
Qed.

Lemma missing_branch_in_optional_field p o s :
  lookup "source" o = Some (JObj s) -> lookup "branch" s = None ->
  has_issue (field "source" (z_optional SourceSchema) p o)
            (mkIssue ((p ++ [Key "source"]) ++ [Key "branch"]) "Required").
Proof.
  intros Hs Hb. unfold field. rewrite Hs. unfold z_optional.
  now apply has_issue_vmap, missing_source_branch.
Qed.

Lemma missing_in_files_field p k o items i item :
  k = "path" \/ k = "content" ->
  lookup "files" o = Some (JArr items) ->
  nth_error items i = Some (JObj item) ->
  lookup k item = None ->
  has_issue (field "files" (z_optional (z_array FileSchema)) p o)
            (mkIssue ((p ++ [Key "files"]) ++ [Index i] ++ [Key k])
                     "Required").
Proof.
  intros Hk Hf Hi Hl. unfold field. rewrite Hf. unfold z_optional, z_array.
  apply has_issue_vmap.
  exact (missing_file_field (p ++ [Key "files"]) k items Hk 0 i item Hi Hl).
Qed.

Lemma reported {A} (v : Validation A) issue :
  has_issue v issue ->
  exists errors, rejected v = Some errors /\ In issue errors.
Proof.
  intros H. exists (issues_of v). split; [| exact H].
  exact (has_issue_rejected _ _ H).
Qed.

(** Walk the fields of a shape until the one that reports the issue. *)
Ltac find_issue :=
  unfold parse, z_object, shape_ap;
  repeat first
    [ apply has_issue_vap_r;
      solve [ apply missing_string_field; assumption
            | apply missing_source; assumption
            | eapply missing_branch_in_field; eassumption
            | eapply missing_branch_in_optional_field; eassumption ]
    | apply has_issue_vap_l ].

(** Read off [absent] which object lacks which key. *)
Ltac read_absent H :=
  simpl in H;
  repeat match type of H with
         | match ?x with _ => _ end = true =>
             let E := fresh "Hl" in destruct x eqn:E; try discriminate H
         end.

Lemma required_field_reported name p args :
  required_at name p -> absent p args = true ->
  exists errors,
    schema_check name args = Some errors
    /\ In (mkIssue p "Required") errors.
Proof.
  intros [Hin | (-> & i & Hp)] Habs.
  - unfold required_fields in Hin. unfold schema_check.
    by_tool name; simpl in Hin; try contradiction;
      repeat (destruct Hin as [<- | Hin]; [| try contradiction]);
      read_absent Habs; apply reported;
      unfold EnableGithubPagesSchema, GetGithubPagesInfoSchema,
        DeployToGithubPagesSchema, DisableGithubPagesSchema,
        UpdateGithubPagesConfigSchema; find_issue.
  - unfold schema_check. simpl.
    destruct Hp as [-> | ->]; read_absent Habs; subst; apply reported;
      unfold DeployToGithubPagesSchema, parse, z_object, shape_ap;
      apply has_issue_vap_r;
      eapply (missing_in_files_field []); eauto.
Qed.



(** * Further properties of the handlers *)

(** ** What each handler does on validated arguments *)

Lemma disable_run octokit args input h :
  parse DisableGithubPagesSchema args = inr input ->
  disableGithubPages octokit args h
  = (h ++ [DeletePagesSite (rp_owner input) (rp_repo input)],
     inr (match deletePagesSite octokit h (rp_owner input) (rp_repo input)
          with
          | inr _ =>
              mkResult
                (JObj [("success", JBool true);
                       ("message",
                        JStr "GitHub Pages disabled successfully")])
                false
          | inl e => upstream_failure e
          end)).
Proof.
  intros Hparse. unfold disableGithubPages, validated. rewrite Hparse.
  unfold try_catch, bind, await.
  now destruct (deletePagesSite octokit h _ _).
Qed.

Lemma get_run octokit args input h :
  parse GetGithubPagesInfoSchema args = inr input ->
  getGithubPagesInfo octokit args h
  = (h ++ [GetPages (rp_owner input) (rp_repo input)],
     inr (match getPages octokit h (rp_owner input) (rp_repo input) with
          | inr data =>
              mkResult
                (object_literal
                   [("success", Some (JBool true));
                    ("url", html_url data);
                    ("status", pg_status data);
                    ("cname", pg_cname data);
                    ("custom_404", custom_404 data);
                    ("source", pg_source data);
                    ("build_type", pg_build_type data);
                    ("public", pg_public data)])
                false
          | inl e =>
              if status_is e 404
              then mkResult
                     (JObj [("success", JBool false);
                            ("error",
                             JStr "GitHub Pages is not enabled for this repository")])
                     false
              else upstream_failure e
          end)).
Proof.
  intros Hparse. unfold getGithubPagesInfo, validated. rewrite Hparse.
  unfold try_catch, bind, await.
  now destruct (getPages octokit h _ _).
Qed.

Lemma enable_run octokit args input h :
  parse EnableGithubPagesSchema args = inr input ->
  exists request,
    request = CreatePagesSite (en_owner input) (en_repo input)
                (src_branch (en_source input))
                (match src_path (en_source input) with
                 | Some p => p
                 | None => "/"
                 end)
                (match en_build_type input with
                 | Some b => b
                 | None => "legacy"
                 end)
    /\ enableGithubPages octokit args h
       = (h ++ [request],
          inr (match createPagesSite octokit h (en_owner input)
                       (en_repo input) (src_branch (en_source input))
                       (match src_path (en_source input) with
                        | Some p => p
                        | None => "/"
                        end)
                       (match en_build_type input with
                        | Some b => b
                        | None => "legacy"
                        end)
               with
               | inr data =>
                   mkResult
                     (object_literal
                        [("success", Some (JBool true));
                         ("message",
                          Some (JStr "GitHub Pages enabled successfully"));
                         ("url", html_url data);
                         ("source", pg_source data);
                         ("build_type", pg_build_type data)])
                     false
               | inl e => upstream_failure e
               end)).
Proof.
  intros Hparse. eexists. split; [reflexivity |].
  unfold enableGithubPages, validated. rewrite Hparse.
  apply EnableGithubPagesSchema_inr in Hparse.
  destruct Hparse as (o & _ & _ & _ & Hsource & Hbt).
  apply validated_path in Hsource. destruct Hsource as [-> _].
  apply validated_build_type in Hbt. destruct Hbt as [-> _].
  unfold try_catch, bind, await.
  now destruct (createPagesSite octokit h _ _ _ _ _).
Qed.

Lemma update_run octokit args input h :
  parse UpdateGithubPagesConfigSchema args = inr input ->
  exists params,
    params = mkUpdateParams (up_owner input) (up_repo input)
               (match up_source input with
                | Some s => Some (src_branch s,
                                  match src_path s with
                                  | Some p => p
                                  | None => "/"
                                  end)
                | None => None
                end)
               (up_build_type input)
               (match up_cname input with
                | Some c => Some (Some c)
                | None => None
                end)
    /\ updateGithubPagesConfig octokit args h
       = (h ++ [UpdateInformationAboutPagesSite params],
          inr (match updateInformationAboutPagesSite octokit h params with
               | inr data =>
                   mkResult
                     (object_literal
                        [("success", Some (JBool true));
                         ("message",
                          Some (JStr
                                  "GitHub Pages configuration updated successfully"));
                         ("url", html_url data);
                         ("source", pg_source data);
                         ("build_type", pg_build_type data);
                         ("cname", pg_cname data)])
                     false
               | inl e => upstream_failure e
               end)).
Proof.
  intros Hparse. eexists. split; [reflexivity |].
  unfold updateGithubPagesConfig, validated. rewrite Hparse.
  apply UpdateGithubPagesConfigSchema_inr in Hparse.
  destruct Hparse as (o & _ & _ & _ & Hsource & Hbt & _).
  apply validated_build_type in Hbt. destruct Hbt as [_ Hbt].
  unfold try_catch, bind, await. rewrite Hbt.
  destruct (up_source input) as [s |].
  - apply z_optional_inr in Hsource.
    destruct Hsource as [[_ Hs] | (s' & Hs & Heq)]; [discriminate |].
    injection Heq as <-. apply validated_path in Hs. destruct Hs as [-> Hin].
    assert (Hpass : negb (String.eqb (match src_path s with
                                      | Some x => x
                                      | None => "/"
                                      end) "/")
                    && negb (String.eqb (match src_path s with
                                         | Some x => x
                                         | None => "/"
                                         end) "/docs") = false).
    { simpl in Hin. destruct Hin as [<- | [<- | []]]; reflexivity. }
    rewrite Hpass. unfold ret. simpl.
    destruct (up_build_type input), (up_cname input);
      now destruct (updateInformationAboutPagesSite octokit h _).
  - unfold ret. simpl.
    destruct (up_build_type input), (up_cname input);
      now destruct (updateInformationAboutPagesSite octokit h _).
Qed.

(** ** From the dispatcher to the handlers *)

Lemma validated_returns {A} (schema : ZodType A) body handler args h h' r :
  validated schema body handler args h = (h', inr r) ->
  exists input, parse schema args = inr input.
Proof.
  unfold validated. destruct (parse schema args) as [e | input];
    [discriminate | now exists input].
Qed.

Lemma validated_throws {A} (schema : ZodType A) body handler args h h' e :
  validated schema body handler args h = (h', inl e) -> h' = h.
Proof.
  unfold validated. destruct (parse schema args) as [errs | input].
  - now intros [= <- _].
  - destruct (try_catch (body input) handler h). discriminate.
Qed.

Lemma route_throws octokit name args h h' e :
  route octokit name args h = (h', inl e) -> h' = h.
Proof.
  unfold route, enableGithubPages, getGithubPagesInfo, deployToGithubPages,
    disableGithubPages, updateGithubPagesConfig.
  by_tool name; try apply validated_throws. now intros [= <- _].
Qed.

Lemma dispatch_throws octokit name args h h' e :
  dispatch octokit name args h = (h', inl e) -> h' = h.
Proof.
  unfold dispatch.
  destruct (route octokit name args h) as [h1 [[errs | msg] | r]] eqn:Hroute;
    intros H; try discriminate H; injection H as <- _;
    exact (route_throws _ _ _ _ _ _ Hroute).
Qed.

(** A returned result is the result of the handler the name selects, and
    the arguments passed that handler's schema. *)
Lemma dispatch_returns octokit name args h h' result :
  dispatch octokit name args h = (h', inr result) ->
  (name = "enable_github_pages"
   /\ enableGithubPages octokit args h = (h', inr result)
   /\ exists input, parse EnableGithubPagesSchema args = inr input)
  \/ (name = "get_github_pages_info"
      /\ getGithubPagesInfo octokit args h = (h', inr result)
      /\ exists input, parse GetGithubPagesInfoSchema args = inr input)
  \/ (name = "deploy_to_github_pages"
      /\ deployToGithubPages octokit args h = (h', inr result)
      /\ exists input, parse DeployToGithubPagesSchema args = inr input)
  \/ (name = "disable_github_pages"
      /\ disableGithubPages octokit args h = (h', inr result)
      /\ exists input, parse DisableGithubPagesSchema args = inr input)
  \/ (name = "update_github_pages_config"
      /\ updateGithubPagesConfig octokit args h = (h', inr result)
      /\ exists input, parse UpdateGithubPagesConfigSchema args = inr input).
Proof.
  unfold dispatch.
  destruct (route octokit name args h) as [h1 [[errs | msg] | r]] eqn:Hroute;
    intros H; try discriminate. injection H as <- <-.
  unfold route in Hroute.
  destruct (String.eqb_spec name "enable_github_pages") as [-> | _];
    [left; split; [reflexivity | split; [exact Hroute |]];
     exact (validated_returns _ _ _ _ _ _ _ Hroute) |].
  destruct (String.eqb_spec name "get_github_pages_info") as [-> | _];
    [right; left; split; [reflexivity | split; [exact Hroute |]];
     exact (validated_returns _ _ _ _ _ _ _ Hroute) |].
  destruct (String.eqb_spec name "deploy_to_github_pages") as [-> | _];
    [do 2 right; left; split; [reflexivity | split; [exact Hroute |]];
     exact (validated_returns _ _ _ _ _ _ _ Hroute) |].
  destruct (String.eqb_spec name "disable_github_pages") as [-> | _];
    [do 3 right; left; split; [reflexivity | split; [exact Hroute |]];
     exact (validated_returns _ _ _ _ _ _ _ Hroute) |].
  destruct (String.eqb_spec name "update_github_pages_config") as [-> | _];
    [do 4 right; split; [reflexivity | split; [exact Hroute |]];
     exact (validated_returns _ _ _ _ _ _ _ Hroute) |].
  discriminate.
Qed.

Lemma deploy_no_files octokit args input h :
  parse DeployToGithubPagesSchema args = inr input ->
  dp_files input = None \/ dp_files input = Some [] ->
  deployToGithubPages octokit args h = (h, inr no_files_result).
Proof.
  intros Hparse Hfiles. unfold deployToGithubPages, validated.
  rewrite Hparse. now destruct Hfiles as [-> | ->].
Qed.

Lemma parse_items_length {A} (item : ZodType A) p items :
  forall n l, parse_items item p n items = inr l -> length l = length items.
Proof.
  induction items as [| x rest IH]; intros n l; simpl.
  - now intros [= <-].
  - intros H. apply vap_inr in H. destruct H as (g & l' & Hg & Hrest & ->).
    apply vmap_inr in Hg. destruct Hg as (a & _ & ->).
    simpl. now rewrite (IH (S n) l' Hrest).
Qed.

(** The validated file list is as long as the [files] array of the raw
    arguments; it is undefined exactly when the key is missing. *)
Lemma deploy_files_count args input :
  parse DeployToGithubPagesSchema args = inr input ->
  files_count args
  = match dp_files input with
    | Some files => length files
    | None => 0
    end.
Proof.
  intros Hparse. apply DeployToGithubPagesSchema_inr in Hparse.
  destruct Hparse as (o & -> & _ & _ & _ & _ & Hfiles).
  simpl. apply z_optional_inr in Hfiles.
  destruct Hfiles as [[-> ->] | (files & Harr & ->)]; [reflexivity |].
  unfold z_array in Harr.
  destruct (lookup "files" o) as [[ | | | | items | ] | ]; try discriminate.
  symmetry. exact (parse_items_length _ _ _ _ _ Harr).
Qed.

Lemma js_or_truthy v d :
  truthy (Some d) = true -> truthy (Some (js_or v d)) = true.
Proof.
  intros Hd. unfold js_or. destruct v as [x |]; [| exact Hd].
  now destruct (truthy (Some x)) eqn:Hx.
Qed.

Lemma lookup_defined_absent key fields :
  existsb (fun kv => String.eqb (fst kv) key) fields = false ->
  lookup key (defined_props fields) = None.
Proof.
  induction fields as [| [k [v |]] rest IH]; simpl; [reflexivity | |];
    intros H; apply orb_false_iff in H; destruct H as [Hk Hrest];
    [rewrite Hk |]; auto.
Qed.

(** ** The four shapes of a returned envelope *)

(** The failure envelope, with its [details] spelled out. *)
Lemma upstream_failure_details e :
  exists details,
    upstream_failure e
    = mkResult
        (JObj [("success", JBool false); ("error", JStr (err_message e));
               ("details", details)])
        true
    /\ ((truthy (response_data e) = true /\ response_data e = Some details)
        \/ (truthy (response_data e) = false
            /\ details = JStr "Unknown error"))
    /\ truthy (Some details) = true.
Proof.
  unfold upstream_failure, object_literal, js_or. simpl defined_props.
  destruct (response_data e) as [body |].
  - destruct (truthy (Some body)) eqn:Hbody; eexists;
      (split; [reflexivity |]); auto.
  - eexists. split; [reflexivity |]. auto.
Qed.

Lemma firstn_length_app {A} (l1 l2 : list A) :
  firstn (length l1) (l1 ++ l2) = l1.
Proof. induction l1 as [| x l1 IH]; simpl; [reflexivity | now rewrite IH]. Qed.

(** A failed stage ends with the error of a request of that stage, answered
    from the requests before it. *)
Lemma stage_failure_origin octokit input files h s :
  stage_answers octokit input files h s ->
  isError (stage_result files s) = true ->
  exists before request after e,
    h ++ stage_requests input files s = before ++ request :: after
    /\ (exists earlier, before = h ++ earlier)
    /\ thrown_at octokit before request = Some e
    /\ stage_result files s = upstream_failure e.
Proof.
  intros Hanswers Hflag. unfold stage_answers in Hanswers.
  destruct s; try discriminate Hflag; unfold stage_requests, stage_result.
  - exists h, (GetRef (dp_owner input) (dp_repo input)
                 ("heads/" +++ dp_branch input)), [], e.
    split; [reflexivity |]. split; [exists []; now rewrite app_nil_r |].
    split; [cbv beta iota zeta delta [thrown_at]; now rewrite Hanswers
           | reflexivity].
  - destruct Hanswers as (Href & Hbase).
    exists (h ++ [GetRef (dp_owner input) (dp_repo input)
                    ("heads/" +++ dp_branch input)]),
      (GetCommit (dp_owner input) (dp_repo input) tip), [], e.
    split; [now rewrite <- app_assoc |]. split; [now eexists |].
    split; [cbv beta iota zeta delta [thrown_at]; now rewrite Hbase
           | reflexivity].
  - destruct Hanswers as (Href & Hbase & Hblobs).
    unfold Promise_all in Hblobs.
    destruct (first_rejection _) as [[t e'] |] eqn:Hfirst; [| discriminate].
    injection Hblobs as ->.
    destruct (first_rejection_member _ _ _ Hfirst) as [j Hj].
    destruct (blob_promise_answer octokit _ _ files _ _ j t e eq_refl Hj)
      as (file & Hfile & Hblob).
    destruct (nth_error_split files j Hfile) as (l1 & l2 & Hsplit & Hlen).
    assert (Hfirstn : firstn j files = l1)
      by (rewrite Hsplit, <- Hlen; apply firstn_length_app).
    rewrite Hfirstn in Hblob.
    exists (h ++ deploy_prefix input tip l1),
      (blob_request (dp_owner input) (dp_repo input) file),
      (map (blob_request (dp_owner input) (dp_repo input)) l2), e.
    split.
    { unfold deploy_prefix. rewrite Hsplit, map_app. simpl map.
      now rewrite <- !app_assoc. }
    split; [now eexists |].
    split; [| reflexivity].
    unfold blob_request. cbv beta iota zeta delta [thrown_at].
    unfold deploy_prefix. rewrite app_assoc. now rewrite Hblob.
  - destruct Hanswers as (_ & _ & _ & Htree).
    exists (h ++ deploy_prefix input tip files),
      (CreateTree (dp_owner input) (dp_repo input) items base), [], e.
    split; [now rewrite <- app_assoc |]. split; [now eexists |].
    split; [cbv beta iota zeta delta [thrown_at]; now rewrite Htree
           | reflexivity].
  - destruct Hanswers as (_ & _ & _ & _ & Hnew).
    exists (h ++ deploy_prefix input tip files
              ++ [CreateTree (dp_owner input) (dp_repo input) items base]),
      (CreateCommit (dp_owner input) (dp_repo input) (deploy_message input)
         tree [tip]), [], e.
    split; [now rewrite <- !app_assoc |]. split; [now eexists |].
    split; [cbv beta iota zeta delta [thrown_at]; now rewrite Hnew
           | reflexivity].
  - destruct Hanswers as (_ & _ & _ & _ & _ & Hupdate).
    exists (h ++ deploy_prefix input tip files
              ++ [CreateTree (dp_owner input) (dp_repo input) items base;
                  CreateCommit (dp_owner input) (dp_repo input)
                    (deploy_message input) tree [tip]]),
      (UpdateRef (dp_owner input) (dp_repo input)
         ("heads/" +++ dp_branch input) commit), [], e.
    split; [now rewrite <- !app_assoc |]. split; [now eexists |].
    split; [cbv beta iota zeta delta [thrown_at]; now rewrite Hupdate
           | reflexivity].
Qed.

(** The failure of the only request of a handler. *)
Ltac failure_shape e :=
  do 3 right; split; [reflexivity |];
  let details := fresh "details" in
  let Henv := fresh "Henv" in
  let Hcases := fresh "Hcases" in
  let Htruthy := fresh "Htruthy" in
  destruct (upstream_failure_details e)
    as (details & Henv & Hcases & Htruthy);
  eexists _, _, [], e, details;
  split; [reflexivity |];
  split; [exists []; now rewrite app_nil_r |];
  split; [cbv beta iota zeta delta [thrown_at];
          match goal with H : _ = inl e |- _ => now rewrite H end |];
  split; [now rewrite Henv |];
  split; assumption.

Ltac success_shape :=
  left; split; [reflexivity |];
  eexists; split; [reflexivity |];
  split; [reflexivity
         | first [reflexivity | now apply lookup_defined_absent]].

(** X1.  Whatever the tool, the arguments and the upstream, a result that
    the dispatcher returns has one of four shapes: a success payload
    ([success: true], no [error] key, no error flag); the not-enabled answer
    of [get_github_pages_info] (no error flag); the no-files answer of
    [deploy_to_github_pages] (error flag, trace untouched); or an upstream
    failure with the error flag.  An upstream failure is
    [{success: false, error, details}] for an error [e] with which the
    upstream rejected one of the requests of this call: [error] is the
    message of [e], and [details] is the response body of [e] when that is
    truthy and ["Unknown error"] otherwise, so it is never falsy. *)
Theorem envelope_shapes octokit name args h h' result :
  dispatch octokit name args h = (h', inr result) ->
  (isError result = false
   /\ exists props,
       content result = JObj props
       /\ lookup "success" props = Some (JBool true)
       /\ lookup "error" props = None)
  \/ (isError result = false
      /\ name = "get_github_pages_info"
      /\ content result
         = JObj [("success", JBool false);
                 ("error",
                  JStr "GitHub Pages is not enabled for this repository")])
  \/ (isError result = true
      /\ name = "deploy_to_github_pages"
      /\ h' = h
      /\ content result
         = JObj [("success", JBool false);
                 ("error", JStr "No files provided for deployment")])
  \/ (isError result = true
      /\ exists before request after e details,
          h' = before ++ request :: after
          /\ (exists earlier, before = h ++ earlier)
          /\ thrown_at octokit before request = Some e
          /\ content result
             = JObj [("success", JBool false);
                     ("error", JStr (err_message e));
                     ("details", details)]
          /\ ((truthy (response_data e) = true
               /\ response_data e = Some details)
              \/ (truthy (response_data e) = false
                  /\ details = JStr "Unknown error"))
          /\ truthy (Some details) = true).
Proof.
  intros H. apply dispatch_returns in H.
  destruct H as [(-> & Hrun & input & Hp)
                | [(-> & Hrun & input & Hp)
                  | [(-> & Hrun & input & Hp)
                    | [(-> & Hrun & input & Hp)
                      | (-> & Hrun & input & Hp)]]]].
  - destruct (enable_run octokit args input h Hp) as (req & -> & Heq).
    rewrite Heq in Hrun. injection Hrun as <- <-.
    destruct (createPagesSite octokit h _ _ _ _ _) as [e | data] eqn:Hcall;
      [failure_shape e | success_shape].
  - rewrite (get_run octokit args input h Hp) in Hrun.
    injection Hrun as <- <-.
    destruct (getPages octokit h _ _) as [e | data] eqn:Hcall;
      [| success_shape].
    destruct (status_is e 404); [| failure_shape e].
    right; left. now repeat split.
  - destruct (dp_files input) as [[| file rest] |] eqn:Hfiles.
    + rewrite (deploy_no_files octokit args input h Hp) in Hrun by auto.
      injection Hrun as <- <-. do 2 right; left. now repeat split.
    + destruct (deploy_stages octokit args input (file :: rest) h Hp Hfiles)
        as (s & Heq & Hanswers); [discriminate |].
      rewrite Heq in Hrun. injection Hrun as <- <-.
      destruct (isError (stage_result (file :: rest) s)) eqn:Hflag.
      * do 3 right. split; [reflexivity |].
        destruct (stage_failure_origin octokit input _ h s Hanswers Hflag)
          as (before & request & after & e & Htrace & Hnew & Hthrown & Hres).
        destruct (upstream_failure_details e)
          as (details & Henv & Hcases & Htruthy).
        exists before, request, after, e, details.
        split; [exact Htrace |]. split; [exact Hnew |].
        split; [exact Hthrown |].
        split; [now rewrite Hres, Henv |]. now split.
      * destruct s; try discriminate Hflag. success_shape.
    + rewrite (deploy_no_files octokit args input h Hp) in Hrun by auto.
      injection Hrun as <- <-. do 2 right; left. now repeat split.
  - rewrite (disable_run octokit args input h Hp) in Hrun.
    injection Hrun as <- <-.
    destruct (deletePagesSite octokit h _ _) as [e | []] eqn:Hcall;
      [failure_shape e | success_shape].
  - destruct (update_run octokit args input h Hp) as (params & -> & Heq).
    rewrite Heq in Hrun. injection Hrun as <- <-.
    destruct (updateInformationAboutPagesSite octokit h _)
      as [e | data] eqn:Hcall;
      [failure_shape e | success_shape].
Qed.

Lemma envelope_shapes_witness :
  exists before request after details,
    [DeletePagesSite "o" "r"] = before ++ request :: after
    /\ thrown_at (Samples.failing Samples.bad_credentials) before request
       = Some Samples.bad_credentials
    /\ content (upstream_failure Samples.bad_credentials)
       = JObj [("success", JBool false); ("error", JStr "Bad credentials");
               ("details", details)]
    /\ details = JStr "Unknown error".
Proof.
  destruct (envelope_shapes (Samples.failing Samples.bad_credentials)
              "disable_github_pages" (Some (JObj Samples.repo)) []
              [DeletePagesSite "o" "r"]
              (upstream_failure Samples.bad_credentials) eq_refl)
    as [[H _] | [[H _] | [[_ [H _]] | [_ H]]]]; try discriminate.
  destruct H as (before & request & after & e & details & Htrace & _
                 & Hthrown & Hcontent & Hcases & _).
  assert (He : e = Samples.bad_credentials).
  { destruct before as [| r0 [| r1 before]]; simpl in Htrace.
    - injection Htrace as <- _. simpl in Hthrown. now injection Hthrown.
    - injection Htrace as _ Htrace. discriminate Htrace.
    - injection Htrace as _ Htrace. discriminate Htrace. }
  subst e. exists before, request, after, details.
  split; [exact Htrace |]. split; [exact Hthrown |].
  split; [exact Hcontent |].
  destruct Hcases as [[Ht _] | [_ Hd]]; [discriminate Ht | exact Hd].
Defined.

(** ** Where the requests go and how many there are *)

Lemma stage_requests_repo input files s :
  Forall (fun r => request_repo r = (dp_owner input, dp_repo input))
         (stage_requests input files s).
Proof.
  assert (Hprefix : forall tip,
             Forall (fun r => request_repo r
                              = (dp_owner input, dp_repo input))
                    (deploy_prefix input tip files)).
  { intros tip. unfold deploy_prefix. apply Forall_app. split.
    - repeat constructor.
    - apply Forall_forall. intros r Hin. apply in_map_iff in Hin.
      now destruct Hin as (file & <- & _). }
  destruct s; unfold stage_requests;
    try (apply Forall_app; split; [apply Hprefix |]);
    try apply Hprefix; repeat constructor.
Qed.

Lemma stage_requests_length input files s :
  length (stage_requests input files s)
  = match s with
    | RefFailed _ => 1
    | CommitFailed _ _ => 2
    | BlobsFailed _ _ _ => length files + 2
    | TreeFailed _ _ _ _ => length files + 3
    | CommitCreateFailed _ _ _ _ _ => length files + 4
    | RefUpdateFailed _ _ _ _ _ _ | Deployed _ _ _ _ _ => length files + 5
    end.
Proof.
  destruct s; unfold stage_requests, deploy_prefix;
    rewrite ?length_app, ?length_map; simpl; lia.
Qed.

(** X2.  Every request a tool call issues is addressed to the repository
    named by the [owner] and [repo] of its arguments; the trace it was given
    is kept and only extended. *)
Theorem requests_stay_in_repository octokit name o h h' out :
  dispatch octokit name (Some (JObj o)) h = (h', out) ->
  exists new,
    h' = h ++ new
    /\ Forall (fun r =>
                 lookup "owner" o = Some (JStr (fst (request_repo r)))
                 /\ lookup "repo" o = Some (JStr (snd (request_repo r))))
              new.
Proof.
  intros H. destruct out as [e | result].
  { apply dispatch_throws in H. subst. exists [].
    split; [now rewrite app_nil_r | constructor]. }
  apply dispatch_returns in H.
  destruct H as [(-> & Hrun & input & Hp)
                | [(-> & Hrun & input & Hp)
                  | [(-> & Hrun & input & Hp)
                    | [(-> & Hrun & input & Hp)
                      | (-> & Hrun & input & Hp)]]]].
  - destruct (enable_run octokit _ input h Hp) as (req & -> & Heq).
    rewrite Heq in Hrun. injection Hrun as <- _.
    apply EnableGithubPagesSchema_inr in Hp.
    destruct Hp as (o' & [= <-] & Howner & Hrepo & _).
    eexists. split; [reflexivity |]. now repeat constructor.
  - rewrite (get_run octokit _ input h Hp) in Hrun. injection Hrun as <- _.
    apply RepoSchema_inr in Hp. destruct Hp as (o' & [= <-] & Howner & Hrepo).
    eexists. split; [reflexivity |]. now repeat constructor.
  - pose proof Hp as Hraw. apply DeployToGithubPagesSchema_inr in Hraw.
    destruct Hraw as (o' & [= <-] & Howner & Hrepo & _).
    destruct (dp_files input) as [[| file rest] |] eqn:Hfiles.
    + rewrite (deploy_no_files octokit _ input h Hp) in Hrun by auto.
      injection Hrun as <- _. exists [].
      split; [now rewrite app_nil_r | constructor].
    + destruct (deploy_stages octokit _ input (file :: rest) h Hp Hfiles)
        as (s & Heq & _); [discriminate |].
      rewrite Heq in Hrun. injection Hrun as <- _.
      eexists. split; [reflexivity |].
      eapply Forall_impl; [| apply stage_requests_repo].
      intros r ->. now split.
    + rewrite (deploy_no_files octokit _ input h Hp) in Hrun by auto.
      injection Hrun as <- _. exists [].
      split; [now rewrite app_nil_r | constructor].
  - rewrite (disable_run octokit _ input h Hp) in Hrun. injection Hrun as <- _.
    apply RepoSchema_inr in Hp. destruct Hp as (o' & [= <-] & Howner & Hrepo).
    eexists. split; [reflexivity |]. now repeat constructor.
  - destruct (update_run octokit _ input h Hp) as (params & -> & Heq).
    rewrite Heq in Hrun. injection Hrun as <- _.
    apply UpdateGithubPagesConfigSchema_inr in Hp.
    destruct Hp as (o' & [= <-] & Howner & Hrepo & _).
    eexists. split; [reflexivity |]. now repeat constructor.
Qed.

Lemma requests_stay_in_repository_witness :
  Forall (fun r => request_repo r = ("o", "r"))
         (fst (dispatch Samples.stub "deploy_to_github_pages"
                 (Samples.deploy_args
                    [("files", JArr [Samples.file_a; Samples.file_b])]) [])).
Proof.
  destruct (requests_stay_in_repository Samples.stub "deploy_to_github_pages"
              (Samples.repo
                 ++ [("branch", JStr "gh-pages");
                     ("files", JArr [Samples.file_a; Samples.file_b])])
              [] _ _ eq_refl) as (new & Heq & Hall).
  simpl in Heq. subst new.
  eapply Forall_impl; [| exact Hall].
  intros r [Howner Hrepo]. simpl in Howner, Hrepo.
  injection Howner as Howner. injection Hrepo as Hrepo.
  destruct (request_repo r). simpl in *. congruence.
Defined.

(** X3.  A tool call that throws has issued no request.  A call of the
    enable, info, disable or update tool that returns has issued exactly one.
    A deploy call issues at most five requests more than it has files, none
    when it has no files, and exactly that many when it succeeds. *)
Theorem upstream_call_budget octokit name args h h' out :
  dispatch octokit name args h = (h', out) ->
  exists new,
    h' = h ++ new
    /\ (forall e, out = inl e -> new = [])
    /\ (forall result,
           out = inr result -> name <> "deploy_to_github_pages" ->
           length new = 1)
    /\ (name = "deploy_to_github_pages" ->
        length new <= files_count args + 5
        /\ (files_count args = 0 -> new = [])
        /\ (forall result,
               out = inr result -> isError result = false ->
               length new = files_count args + 5)).
Proof.
  intros H. destruct out as [e | result].
  { pose proof (dispatch_throws _ _ _ _ _ _ H) as ->. exists [].
    split; [now rewrite app_nil_r |]. split; [reflexivity |].
    split; [discriminate |]. intros _. simpl.
    split; [lia |]. split; [reflexivity | discriminate]. }
  apply dispatch_returns in H.
  destruct H as [(-> & Hrun & input & Hp)
                | [(-> & Hrun & input & Hp)
                  | [(-> & Hrun & input & Hp)
                    | [(-> & Hrun & input & Hp)
                      | (-> & Hrun & input & Hp)]]]].
  - destruct (enable_run octokit _ input h Hp) as (req & _ & Heq).
    rewrite Heq in Hrun. injection Hrun as <- _. eexists.
    split; [reflexivity |]. split; [discriminate |].
    split; [reflexivity | discriminate].
  - rewrite (get_run octokit _ input h Hp) in Hrun. injection Hrun as <- _.
    eexists. split; [reflexivity |]. split; [discriminate |].
    split; [reflexivity | discriminate].
  - rewrite (deploy_files_count _ _ Hp).
    destruct (dp_files input) as [[| file rest] |] eqn:Hfiles.
    + rewrite (deploy_no_files octokit _ input h Hp) in Hrun by auto.
      injection Hrun as <- <-. exists [].
      split; [now rewrite app_nil_r |]. split; [discriminate |].
      split; [congruence |]. intros _. simpl.
      split; [lia |]. split; [reflexivity |].
      intros result [= <-] Hflag. discriminate Hflag.
    + destruct (deploy_stages octokit _ input (file :: rest) h Hp Hfiles)
        as (s & Heq & _); [discriminate |].
      rewrite Heq in Hrun. injection Hrun as <- <-.
      eexists. split; [reflexivity |]. split; [discriminate |].
      split; [congruence |]. intros _.
      rewrite stage_requests_length.
      split; [destruct s; lia |]. split; [simpl; discriminate |].
      intros result [= <-] Hflag. destruct s; try discriminate Hflag.
      reflexivity.
    + rewrite (deploy_no_files octokit _ input h Hp) in Hrun by auto.
      injection Hrun as <- <-. exists [].
      split; [now rewrite app_nil_r |]. split; [discriminate |].
      split; [congruence |]. intros _. simpl.
      split; [lia |]. split; [reflexivity |].
      intros result [= <-] Hflag. discriminate Hflag.
  - rewrite (disable_run octokit _ input h Hp) in Hrun. injection Hrun as <- _.
    eexists. split; [reflexivity |]. split; [discriminate |].
    split; [reflexivity | discriminate].
  - destruct (update_run octokit _ input h Hp) as (params & _ & Heq).
    rewrite Heq in Hrun. injection Hrun as <- _. eexists.
    split; [reflexivity |]. split; [discriminate |].
    split; [reflexivity | discriminate].
Qed.

Lemma upstream_call_budget_witness :
  exists new,
    fst (dispatch Samples.stub "deploy_to_github_pages"
           (Samples.deploy_args
              [("files", JArr [Samples.file_a; Samples.file_b])]) [])
    = [] ++ new
    /\ length new = 2 + 5.
Proof.
  destruct (upstream_call_budget Samples.stub "deploy_to_github_pages"
              (Samples.deploy_args
                 [("files", JArr [Samples.file_a; Samples.file_b])])
              [] _ _ eq_refl) as (new & Heq & _ & _ & Hdeploy).
  destruct (Hdeploy eq_refl) as (_ & _ & Hexact).
  exists new. split; [exact Heq |]. exact (Hexact _ eq_refl eq_refl).
Defined.

(** ** The deploy sequence *)

Lemma deploy_prefix_keeps_branch input tip files :
  existsb is_update_ref (deploy_prefix input tip files) = false.
Proof.
  unfold deploy_prefix. rewrite existsb_app. simpl.
  induction files as [| file rest IH]; [reflexivity | exact IH].
Qed.

(** X4.  The deploy handler moves the branch only as its very last request
    and only after everything else succeeded: when an "update reference"
    request is issued at all, the branch tip was read, its commit's tree was
    read, every blob was created, the tree and the commit were created, and
    the request comes last, right after the "create commit" request,
    pointing [heads/<branch>] at the SHA that call returned for a commit
    whose only parent is the tip.  A deployment in which any of these steps
    fails leaves the reference alone. *)
Theorem deploy_moves_branch_last octokit args input h :
  parse DeployToGithubPagesSchema args = inr input ->
  exists new,
    fst (deployToGithubPages octokit args h) = h ++ new
    /\ (existsb is_update_ref new = true ->
        exists files tip base items tree commit,
          dp_files input = Some files
          /\ new = (deploy_prefix input tip files
                      ++ [CreateTree (dp_owner input) (dp_repo input) items
                            base;
                          CreateCommit (dp_owner input) (dp_repo input)
                            (deploy_message input) tree [tip]])
                     ++ [UpdateRef (dp_owner input) (dp_repo input)
                           ("heads/" +++ dp_branch input) commit]
          /\ existsb is_update_ref
               (deploy_prefix input tip files
                  ++ [CreateTree (dp_owner input) (dp_repo input) items base;
                      CreateCommit (dp_owner input) (dp_repo input)
                        (deploy_message input) tree [tip]]) = false
          /\ getRef octokit h (dp_owner input) (dp_repo input)
               ("heads/" +++ dp_branch input) = inr tip
          /\ getCommit octokit
               (h ++ [GetRef (dp_owner input) (dp_repo input)
                        ("heads/" +++ dp_branch input)])
               (dp_owner input) (dp_repo input) tip = inr base
          /\ (forall i file,
                 nth_error files i = Some file ->
                 exists t sha,
                   createBlob octokit
                     (h ++ deploy_prefix input tip (firstn i files))
                     (dp_owner input) (dp_repo input) (f_content file)
                     (blob_encoding file) = (t, inr sha)
                   /\ nth_error items i
                      = Some (mkTreeItem (f_path file) "100644" "blob" sha))
          /\ createTree octokit (h ++ deploy_prefix input tip files)
               (dp_owner input) (dp_repo input) items base = inr tree
          /\ createCommit octokit
               (h ++ deploy_prefix input tip files
                  ++ [CreateTree (dp_owner input) (dp_repo input) items
                        base])
               (dp_owner input) (dp_repo input) (deploy_message input) tree
               [tip] = inr commit).
Proof.
  intros Hp.
  destruct (dp_files input) as [[| file rest] |] eqn:Hfiles;
    try (rewrite (deploy_no_files octokit args input h Hp) by auto;
         exists []; split; [now rewrite app_nil_r | discriminate]).
  destruct (deploy_stages octokit args input (file :: rest) h Hp Hfiles)
    as (s & -> & Hanswers); [discriminate |].
  eexists. split; [reflexivity |].
  assert (Hsteps : forall tip base items tree commit,
             getRef octokit h (dp_owner input) (dp_repo input)
               ("heads/" +++ dp_branch input) = inr tip
             /\ getCommit octokit
                  (h ++ [GetRef (dp_owner input) (dp_repo input)
                           ("heads/" +++ dp_branch input)])
                  (dp_owner input) (dp_repo input) tip = inr base
             /\ Promise_all
                  (snd (map_async
                          (blob_entry octokit (dp_owner input)
                             (dp_repo input))
                          (file :: rest)
                          (h ++ [GetRef (dp_owner input) (dp_repo input)
                                   ("heads/" +++ dp_branch input);
                                 GetCommit (dp_owner input) (dp_repo input)
                                   tip])))
                = inr items
             /\ createTree octokit
                  (h ++ deploy_prefix input tip (file :: rest))
                  (dp_owner input) (dp_repo input) items base = inr tree
             /\ createCommit octokit
                  (h ++ deploy_prefix input tip (file :: rest)
                     ++ [CreateTree (dp_owner input) (dp_repo input) items
                           base])
                  (dp_owner input) (dp_repo input) (deploy_message input)
                  tree [tip] = inr commit ->
             exists files tip0 base0 items0 tree0 commit0,
               Some (file :: rest) = Some files
               /\ (deploy_prefix input tip (file :: rest)
                     ++ [CreateTree (dp_owner input) (dp_repo input) items
                           base;
                         CreateCommit (dp_owner input) (dp_repo input)
                           (deploy_message input) tree [tip];
                         UpdateRef (dp_owner input) (dp_repo input)
                           ("heads/" +++ dp_branch input) commit])
                  = (deploy_prefix input tip0 files
                       ++ [CreateTree (dp_owner input) (dp_repo input)
                             items0 base0;
                           CreateCommit (dp_owner input) (dp_repo input)
                             (deploy_message input) tree0 [tip0]])
                      ++ [UpdateRef (dp_owner input) (dp_repo input)
                            ("heads/" +++ dp_branch input) commit0]
               /\ existsb is_update_ref
                    (deploy_prefix input tip0 files
                       ++ [CreateTree (dp_owner input) (dp_repo input)
                             items0 base0;
                           CreateCommit (dp_owner input) (dp_repo input)
                             (deploy_message input) tree0 [tip0]]) = false
               /\ getRef octokit h (dp_owner input) (dp_repo input)
                    ("heads/" +++ dp_branch input) = inr tip0
               /\ getCommit octokit
                    (h ++ [GetRef (dp_owner input) (dp_repo input)
                             ("heads/" +++ dp_branch input)])
                    (dp_owner input) (dp_repo input) tip0 = inr base0
               /\ (forall i f,
                      nth_error files i = Some f ->
                      exists t sha,
                        createBlob octokit
                          (h ++ deploy_prefix input tip0 (firstn i files))
                          (dp_owner input) (dp_repo input) (f_content f)
                          (blob_encoding f) = (t, inr sha)
                        /\ nth_error items0 i
                           = Some (mkTreeItem (f_path f) "100644" "blob"
                                     sha))
               /\ createTree octokit (h ++ deploy_prefix input tip0 files)
                    (dp_owner input) (dp_repo input) items0 base0
                  = inr tree0
               /\ createCommit octokit
                    (h ++ deploy_prefix input tip0 files
                       ++ [CreateTree (dp_owner input) (dp_repo input)
                             items0 base0])
                    (dp_owner input) (dp_repo input) (deploy_message input)
                    tree0 [tip0] = inr commit0).
  { intros tip base items tree commit (Href & Hbase & Hblobs & Htree & Hnew).
    exists (file :: rest), tip, base, items, tree, commit.
    split; [reflexivity |]. split; [now rewrite <- app_assoc |].
    split; [now rewrite existsb_app, deploy_prefix_keeps_branch |].
    split; [exact Href |]. split; [exact Hbase |].
    split; [| split; [exact Htree | exact Hnew]].
    destruct (tree_entries octokit _ _ (file :: rest) _ items Hblobs)
      as [_ Hnth].
    intros i f Hf. destruct (Hnth i f Hf) as (t & sha & Hblob & Hitem).
    exists t, sha. split; [| exact Hitem].
    unfold deploy_prefix. now rewrite app_assoc. }
  destruct s; unfold stage_requests; rewrite ?existsb_app;
    rewrite ?deploy_prefix_keeps_branch; try discriminate; intros _;
    unfold stage_answers in Hanswers;
    apply (Hsteps tip base items tree commit); tauto.
Qed.

Lemma deploy_moves_branch_last_witness :
  exists new tip base items tree,
    fst (deployToGithubPages Samples.stub
           (Samples.deploy_args [("files", JArr [Samples.file_a])]) [])
    = [] ++ new
    /\ new = ([GetRef "o" "r" "heads/gh-pages"; GetCommit "o" "r" tip;
               CreateBlob "o" "r" "x" "utf-8"]
                ++ [CreateTree "o" "r" items base;
                    CreateCommit "o" "r" "Deploy to GitHub Pages" tree
                      [tip]])
               ++ [UpdateRef "o" "r" "heads/gh-pages" "c1"].
Proof.
  destruct (deploy_moves_branch_last Samples.stub
              (Samples.deploy_args [("files", JArr [Samples.file_a])])
              (mkDeploy "o" "r" "gh-pages" None
                 (Some [mkFile "a.txt" "x" None])) [] eq_refl)
    as (new & Heq & Hlast).
  assert (Hhas : existsb is_update_ref new = true).
  { simpl in Heq. now rewrite <- Heq. }
  destruct (Hlast Hhas)
    as (files & tip & base & items & tree & commit & Hfiles & Hnew & _ & _
        & _ & _ & _ & Hcommit).
  injection Hfiles as <-. injection Hcommit as <-.
  exists new, tip, base, items, tree. split; [exact Heq | exact Hnew].
Defined.

(** X5.  When the tip and its tree were read and the creation of some blob
    is rejected, every blob request has nevertheless been issued, none of
    the tree, commit and reference requests follows, and the handler returns
    the failure envelope of a rejected blob creation: the one that settled
    first. *)
Theorem deploy_blob_failure_stops_after_blobs
        octokit args input files h tip base i file t e :
  parse DeployToGithubPagesSchema args = inr input ->
  dp_files input = Some files ->
  getRef octokit h (dp_owner input) (dp_repo input)
    ("heads/" +++ dp_branch input) = inr tip ->
  getCommit octokit
    (h ++ [GetRef (dp_owner input) (dp_repo input)
             ("heads/" +++ dp_branch input)])
    (dp_owner input) (dp_repo input) tip = inr base ->
  nth_error files i = Some file ->
  createBlob octokit
    (h ++ deploy_prefix input tip (firstn i files))
    (dp_owner input) (dp_repo input) (f_content file) (blob_encoding file)
  = (t, inl e) ->
  exists j file' t' e',
    deployToGithubPages octokit args h
    = (h ++ deploy_prefix input tip files, inr (upstream_failure e'))
    /\ nth_error files j = Some file'
    /\ createBlob octokit
         (h ++ deploy_prefix input tip (firstn j files))
         (dp_owner input) (dp_repo input) (f_content file')
         (blob_encoding file') = (t', inl e')
    /\ t' <= t.
Proof.
  intros Hp Hfiles Href Hcommit Hfile Hblob.
  set (owner := dp_owner input) in *. set (repo := dp_repo input) in *.
  set (h2 := h ++ [GetRef owner repo ("heads/" +++ dp_branch input);
                   GetCommit owner repo tip]).
  assert (Hh2 : forall l,
             h ++ deploy_prefix input tip l
             = h2 ++ map (blob_request owner repo) l).
  { intros l. unfold deploy_prefix, h2. now rewrite app_assoc. }
  rewrite Hh2 in Hblob.
  destruct (map_async_blobs octokit owner repo files h2)
    as (_ & _ & Hnth).
  set (ps := snd (map_async (blob_entry octokit owner repo) files h2)) in *.
  assert (Hi : nth_error ps i = Some (t, inl e)).
  { rewrite (Hnth i file Hfile), blob_entry_eq. simpl. now rewrite Hblob. }
  destruct (first_rejection_exists ps i t e Hi) as (t' & e' & Hfirst).
  destruct (first_rejection_member ps t' e' Hfirst) as [j Hj].
  destruct (blob_promise_answer octokit owner repo files h2 ps j t' e'
              eq_refl Hj) as (file' & Hfile' & Hblob').
  exists j, file', t', e'.
  split; [| split; [exact Hfile' | split;
                    [now rewrite Hh2
                    | exact (first_rejection_minimal ps _ _ _ _ _ Hfirst Hi)]]].
  assert (Hall : Promise_all ps = inl e')
    by (unfold Promise_all; now rewrite Hfirst).
  destruct (deploy_stages octokit args input files h Hp Hfiles)
    as (s & -> & Hanswers).
  { intros ->. now destruct i. }
  unfold stage_answers in Hanswers. fold owner repo in Hanswers.
  destruct s.
  - congruence.
  - destruct Hanswers as (Hr & Hc). rewrite Href in Hr. injection Hr as <-.
    congruence.
  - destruct Hanswers as (Hr & Hc & Hb). rewrite Href in Hr.
    injection Hr as <-. fold h2 ps in Hb. rewrite Hall in Hb.
    now injection Hb as <-.
  - destruct Hanswers as (Hr & Hc & Hb & _). rewrite Href in Hr.
    injection Hr as <-. fold h2 ps in Hb. congruence.
  - destruct Hanswers as (Hr & Hc & Hb & _). rewrite Href in Hr.
    injection Hr as <-. fold h2 ps in Hb. congruence.
  - destruct Hanswers as (Hr & Hc & Hb & _). rewrite Href in Hr.
    injection Hr as <-. fold h2 ps in Hb. congruence.
  - destruct Hanswers as (Hr & Hc & Hb & _). rewrite Href in Hr.
    injection Hr as <-. fold h2 ps in Hb. congruence.
Qed.

Lemma deploy_blob_failure_stops_after_blobs_witness :
  exists e',
    deployToGithubPages Scenarios.picky_blobs
      (Samples.deploy_args
         [("files", JArr [Samples.file_a; Scenarios.file_bad])]) []
    = ([GetRef "o" "r" "heads/gh-pages"; GetCommit "o" "r" "c0";
        CreateBlob "o" "r" "x" "utf-8"; CreateBlob "o" "r" "bad" "utf-8"],
       inr (upstream_failure e')).
Proof.
  destruct (deploy_blob_failure_stops_after_blobs Scenarios.picky_blobs
              (Samples.deploy_args
                 [("files", JArr [Samples.file_a; Scenarios.file_bad])])
              (mkDeploy "o" "r" "gh-pages" None
                 (Some [mkFile "a.txt" "x" None; mkFile "c.txt" "bad" None]))
              [mkFile "a.txt" "x" None; mkFile "c.txt" "bad" None]
              [] "c0" "t0" 1 (mkFile "c.txt" "bad" None) 3
              Scenarios.rejected_blob
              eq_refl eq_refl eq_refl eq_refl eq_refl eq_refl)
    as (j & file' & t' & e' & Hrun & _).
  exists e'. exact Hrun.
Defined.

(** X6.  A deploy call whose arguments pass validation but carry no [files]
    key is answered like one with an empty list: the no-files envelope with
    the error flag, and no upstream request. *)
Theorem deploy_without_files_key octokit o h h' result :
  lookup "files" o = None ->
  dispatch octokit "deploy_to_github_pages" (Some (JObj o)) h
  = (h', inr result) ->
  h' = h /\ result = no_files_result.
Proof.
  intros Hfiles H. apply dispatch_returns in H.
  destruct H as [(Hname & _) | [(Hname & _) | [(_ & Hrun & input & Hp)
                | [(Hname & _) | (Hname & _)]]]]; try discriminate Hname.
  pose proof (deploy_files_count _ _ Hp) as Hcount.
  simpl in Hcount. rewrite Hfiles in Hcount.
  rewrite (deploy_no_files octokit _ input h Hp) in Hrun.
  - now injection Hrun as <- <-.
  - destruct (dp_files input) as [[| file rest] |]; auto. discriminate.
Qed.

Lemma deploy_without_files_key_witness :
  dispatch Samples.stub "deploy_to_github_pages" (Samples.deploy_args []) []
  = ([], inr no_files_result).
Proof.
  destruct (deploy_without_files_key Samples.stub
              (Samples.repo ++ [("branch", JStr "gh-pages")]) []
              [] no_files_result eq_refl eq_refl) as [_ _].
  reflexivity.
Defined.

(** ** The single-request handlers *)

Lemma repo_arguments_parse o owner repo :
  lookup "owner" o = Some (JStr owner) ->
  lookup "repo" o = Some (JStr repo) ->
  parse GetGithubPagesInfoSchema (Some (JObj o)) = inr (mkRepo owner repo)
  /\ parse DisableGithubPagesSchema (Some (JObj o)) = inr (mkRepo owner repo).
Proof.
  intros Ho Hr.
  unfold parse, GetGithubPagesInfoSchema, DisableGithubPagesSchema, z_object,
    shape_ap, shape_pure, field.
  rewrite Ho, Hr. now split.
Qed.

(** X7.  Given an [owner] and a [repo] that are strings (whatever else the
    arguments hold), [disable_github_pages] issues exactly one "delete pages
    site" request for that repository.  If the upstream accepts it the result
    is the fixed success message, with nothing taken from the response; if
    the upstream throws, the result is the failure envelope of that error. *)
Theorem disable_deletes_once octokit o owner repo h :
  lookup "owner" o = Some (JStr owner) ->
  lookup "repo" o = Some (JStr repo) ->
  dispatch octokit "disable_github_pages" (Some (JObj o)) h
  = (h ++ [DeletePagesSite owner repo],
     inr (match deletePagesSite octokit h owner repo with
          | inr _ =>
              mkResult
                (JObj [("success", JBool true);
                       ("message",
                        JStr "GitHub Pages disabled successfully")])
                false
          | inl e =>
              mkResult
                (JObj [("success", JBool false);
                       ("error", JStr (err_message e));
                       ("details",
                        js_or (response_data e) (JStr "Unknown error"))])
                true
          end)).
Proof.
  intros Ho Hr. destruct (repo_arguments_parse o owner repo Ho Hr) as [_ Hp].
  unfold dispatch.
  change (route octokit "disable_github_pages")
    with (disableGithubPages octokit).
  rewrite (disable_run octokit _ _ h Hp). simpl.
  now destruct (deletePagesSite octokit h owner repo).
Qed.

Lemma disable_deletes_once_witness :
  dispatch Samples.stub "disable_github_pages" (Some (JObj Samples.repo)) []
  = ([DeletePagesSite "o" "r"],
     inr (mkResult
            (JObj [("success", JBool true);
                   ("message", JStr "GitHub Pages disabled successfully")])
            false)).
Proof.
  exact (disable_deletes_once Samples.stub Samples.repo "o" "r" []
           eq_refl eq_refl).
Defined.

(** X8.  When the upstream answers "get pages settings",
    [get_github_pages_info] returns a success payload without the error flag
    in which [url] is the upstream's [html_url] and [status], [cname],
    [custom_404], [source], [build_type] and [public] are the upstream's
    fields of the same name: a field the upstream left out is left out, a
    field that is [null] stays [null]. *)
Theorem get_info_reports_upstream_settings octokit o owner repo h data :
  lookup "owner" o = Some (JStr owner) ->
  lookup "repo" o = Some (JStr repo) ->
  getPages octokit h owner repo = inr data ->
  exists props,
    dispatch octokit "get_github_pages_info" (Some (JObj o)) h
    = (h ++ [GetPages owner repo], inr (mkResult (JObj props) false))
    /\ lookup "success" props = Some (JBool true)
    /\ lookup "url" props = html_url data
    /\ lookup "status" props = pg_status data
    /\ lookup "cname" props = pg_cname data
    /\ lookup "custom_404" props = custom_404 data
    /\ lookup "source" props = pg_source data
    /\ lookup "build_type" props = pg_build_type data
    /\ lookup "public" props = pg_public data.
Proof.
  intros Ho Hr Hget. destruct (repo_arguments_parse o owner repo Ho Hr)
    as [Hp _].
  unfold dispatch.
  change (route octokit "get_github_pages_info")
    with (getGithubPagesInfo octokit).
  rewrite (get_run octokit _ _ h Hp). simpl rp_owner. simpl rp_repo.
  rewrite Hget. eexists. split; [reflexivity |].
  destruct data as [[u |] [s |] [c |] [n |] [src |] [b |] [pub |]];
    repeat split; reflexivity.
Qed.

Lemma get_info_reports_upstream_settings_witness :
  exists props,
    dispatch Samples.stub "get_github_pages_info" (Some (JObj Samples.repo))
      []
    = ([GetPages "o" "r"], inr (mkResult (JObj props) false))
    /\ lookup "cname" props = Some JNull
    /\ lookup "url" props = Some (JStr "https://o.github.io/r/").
Proof.
  destruct (get_info_reports_upstream_settings Samples.stub Samples.repo
              "o" "r" [] Samples.pages eq_refl eq_refl eq_refl)
    as (props & Hrun & _ & Hurl & _ & Hcname & _).
  exists props. split; [exact Hrun |]. split; [exact Hcname | exact Hurl].
Defined.

(** X9.  The update request is built from what the caller supplied and from
    nothing else: [owner] and [repo] are the caller's; [source] is present
    exactly when the caller gave one, with the caller's branch and a path
    that is ["/"] or ["/docs"]; [build_type] is present exactly when the
    caller gave one, with the caller's value.  The request is issued even
    when the caller supplied none of the optional fields. *)
Theorem update_sends_only_supplied_fields octokit o input h :
  parse UpdateGithubPagesConfigSchema (Some (JObj o)) = inr input ->
  exists params,
    fst (updateGithubPagesConfig octokit (Some (JObj o)) h)
    = h ++ [UpdateInformationAboutPagesSite params]
    /\ lookup "owner" o = Some (JStr (p_owner params))
    /\ lookup "repo" o = Some (JStr (p_repo params))
    /\ ((lookup "source" o = None /\ p_source params = None)
        \/ (exists s branch path,
               lookup "source" o = Some (JObj s)
               /\ lookup "branch" s = Some (JStr branch)
               /\ p_source params = Some (branch, path)
               /\ (path = "/" \/ path = "/docs")))
    /\ ((lookup "build_type" o = None /\ p_build_type params = None)
        \/ (exists b,
               lookup "build_type" o = Some (JStr b)
               /\ p_build_type params = Some b)).
Proof.
  intros Hp. destruct (update_run octokit _ input h Hp) as (params & -> & Heq).
  eexists. split; [now rewrite Heq |]. simpl.
  apply UpdateGithubPagesConfigSchema_inr in Hp.
  destruct Hp as (o' & [= <-] & Howner & Hrepo & Hsource & Hbt & _).
  split; [exact Howner |]. split; [exact Hrepo |]. split.
  - apply z_optional_inr in Hsource.
    destruct Hsource as [[Hl ->] | (si & Hs & ->)]; [now left |].
    right. pose proof (validated_path _ _ _ Hs) as [Hpath Hin].
    apply SourceSchema_inr in Hs. destruct Hs as (s & Hl & Hbranch & _).
    exists s, (src_branch si),
      (match src_path si with Some p => p | None => "/" end).
    split; [exact Hl |]. split; [exact Hbranch |]. split; [reflexivity |].
    rewrite <- Hpath. simpl in Hin. intuition.
  - apply optional_enum_inr in Hbt.
    destruct Hbt as [[Hl ->] | (b & Hl & -> & _)]; [now left |].
    right. now exists b.
Qed.

Lemma update_sends_only_supplied_fields_witness :
  fst (updateGithubPagesConfig Samples.stub (Some (JObj Samples.repo)) [])
  = [UpdateInformationAboutPagesSite (mkUpdateParams "o" "r" None None None)].
Proof.
  destruct (update_sends_only_supplied_fields Samples.stub Samples.repo
              (mkUpdate "o" "r" None None None) [] eq_refl)
    as (params & Hreq & Howner & Hrepo & Hsource & Hbt).
  rewrite Hreq. destruct params as [po pr ps pb pc]. simpl in *.
  injection Howner as <-. injection Hrepo as <-.
  destruct Hsource as [[_ ->] | (s & b & p & Hl & _)]; [| discriminate Hl].
  destruct Hbt as [[_ ->] | (b & Hl & _)]; [| discriminate Hl].
  symmetry. exact Hreq.
Defined.

(** ** The advertised tools and the validator *)

Lemma invalid_arguments_not_unknown errors name :
  invalid_arguments errors <> "Unknown tool: " +++ name.
Proof. unfold invalid_arguments. simpl. discriminate. Qed.

(** X10.  The tools a client is told about are exactly the tools the
    dispatcher routes: a name is listed by the list-tools handler if and only
    if a call under that name is not answered with "Unknown tool"; and no
    name is listed twice. *)
Theorem listed_tools_are_the_routed_ones octokit name args h :
  NoDup (map tool_name (tools listTools))
  /\ (In name (map tool_name (tools listTools))
      <-> dispatch octokit name args h
          <> (h, inl (Error ("Unknown tool: " +++ name)))).
Proof.
  split.
  { simpl. repeat constructor; simpl; intuition discriminate. }
  change (map tool_name (tools listTools)) with tool_names.
  rewrite tool_names_spec. split.
  - intros Hname Hrun.
    destruct (schema_check name args) as [errors |] eqn:Hcheck.
    + rewrite (dispatch_rejects octokit name args h errors Hcheck) in Hrun.
      apply (invalid_arguments_not_unknown errors name). congruence.
    + revert Hrun Hcheck Hname.
      unfold schema_check, dispatch, route, enableGithubPages,
        getGithubPagesInfo, deployToGithubPages, disableGithubPages,
        updateGithubPagesConfig.
      by_tool name; intros Hrun Hcheck Hname;
        try (eapply validated_accepts in Hcheck;
             destruct Hcheck as (h1 & result & Heq);
             rewrite Heq in Hrun; discriminate Hrun).
      discriminate Hname.
  - intros Hrun.
    destruct (String.eqb name "enable_github_pages"
              || String.eqb name "get_github_pages_info"
              || String.eqb name "deploy_to_github_pages"
              || String.eqb name "disable_github_pages"
              || String.eqb name "update_github_pages_config") eqn:Hname;
      [reflexivity |].
    exfalso. apply Hrun. repeat (apply orb_false_iff in Hname;
                                 destruct Hname as [Hname ?]).
    unfold dispatch, route.
    repeat match goal with
           | H : String.eqb name _ = false |- _ => rewrite H; clear H
           end.
    reflexivity.
Qed.

(** X11.  A key that the advertised schema of a tool lists under [required]
    is required by the validator: arguments without it make the dispatcher
    throw, before any request, an error that reports the key as
    ["Required"]. *)
Theorem advertised_required_is_enforced octokit t k o h :
  In t getTools ->
  In k (advertised_required t) ->
  lookup k o = None ->
  exists errors,
    dispatch octokit (tool_name t) (Some (JObj o)) h
    = (h, inl (Error (invalid_arguments errors)))
    /\ In (mkIssue [Key k] "Required") errors.
Proof.
  intros Ht Hk Hl.
  assert (Hreq : required_at (tool_name t) [Key k]).
  { left. simpl in Ht.
    repeat (destruct Ht as [<- | Ht]; [| try contradiction]);
      simpl in Hk |- *; intuition (subst; auto). }
  assert (Habs : absent [Key k] (Some (JObj o)) = true)
    by (simpl; now rewrite Hl).
  destruct (required_field_reported _ _ _ Hreq Habs)
    as (errors & Hcheck & Hin).
  exists errors. split; [now apply dispatch_rejects | exact Hin].
Qed.

Lemma advertised_required_is_enforced_witness :
  exists errors,
    dispatch Samples.stub "deploy_to_github_pages" (Some (JObj Samples.repo))
      []
    = ([], inl (Error (invalid_arguments errors)))
    /\ In (mkIssue [Key "branch"] "Required") errors.
Proof.
  apply (advertised_required_is_enforced Samples.stub
           (nth 2 getTools (mkTool "" "" JNull)) "branch" Samples.repo []).
  - simpl. auto.
  - simpl. auto.
  - reflexivity.
Defined.

Lemma lookup_remove_key key k o :
  lookup key (remove_key k o)
  = if String.eqb key k then None else lookup key o.
Proof.
  induction o as [| [k' v] rest IH]; simpl.
  - now destruct (String.eqb key k).
  - destruct (String.eqb_spec k' k) as [-> | Hk'].
    + rewrite IH. destruct (String.eqb_spec key k) as [-> | Hkey];
        [reflexivity |].
      destruct (String.eqb_spec k key); [congruence | reflexivity].
    + simpl. destruct (String.eqb_spec k' key) as [-> | Hkey].
      * destruct (String.eqb_spec key k); [congruence | reflexivity].
      * exact IH.
Qed.

Lemma rejected_vap_none {A B} (f : Validation (A -> B)) (x : Validation A) :
  rejected (vap f x) = None <-> rejected f = None /\ rejected x = None.
Proof.
  destruct f as [ef | g], x as [ex | a]; simpl; intuition discriminate.
Qed.

(** Settle one field of a shape after a key was removed: the field reads
    another key, or it is optional, or the removed key was required. *)
Ltac field_without k Hk :=
  unfold field in *; rewrite lookup_remove_key;
  match goal with
  | |- context [String.eqb ?key k] =>
      destruct (String.eqb_spec key k) as [<- | _]
  end;
  [first [reflexivity | exfalso; apply Hk; simpl; tauto] | assumption].

(** X12.  A key that the advertised schema of a tool does not list under
    [required] is optional for the validator: arguments that pass validation
    still pass after the key is removed. *)
Theorem unrequired_keys_can_be_dropped t k o :
  In t getTools ->
  ~ In k (advertised_required t) ->
  schema_check (tool_name t) (Some (JObj o)) = None ->
  schema_check (tool_name t) (Some (JObj (remove_key k o))) = None.
Proof.
  intros Ht Hk. simpl in Ht.
  repeat (destruct Ht as [<- | Ht]; [| try contradiction]);
    simpl in Hk; cbn [tool_name];
    unfold schema_check; simpl String.eqb; cbv iota;
    unfold parse, EnableGithubPagesSchema, GetGithubPagesInfoSchema,
      DeployToGithubPagesSchema, DisableGithubPagesSchema,
      UpdateGithubPagesConfigSchema, z_object, shape_ap, shape_pure;
    rewrite !rejected_vap_none; intros H; decompose [and] H; clear H;
    repeat split; try reflexivity; field_without k Hk.
Qed.

Lemma unrequired_keys_can_be_dropped_witness :
  schema_check "update_github_pages_config"
    (Some (JObj (remove_key "cname"
                   (Samples.repo ++ [("cname", JStr "example.com")]))))
  = None.
Proof.
  apply (unrequired_keys_can_be_dropped
           (nth 4 getTools (mkTool "" "" JNull)) "cname"
           (Samples.repo ++ [("cname", JStr "example.com")])).
  - simpl. auto 6.
  - simpl. intros [H | [H | []]]; discriminate.
  - reflexivity.
Defined.

(** X13.  Keys that the advertised schema of a tool does not describe are
    ignored, not rejected: adding such a key to the arguments changes neither
    the requests issued nor what the dispatcher returns or throws. *)
Theorem unadvertised_keys_are_ignored octokit t k v o h :
  In t getTools ->
  ~ In k (advertised_properties t) ->
  dispatch octokit (tool_name t) (Some (JObj ((k, v) :: o))) h
  = dispatch octokit (tool_name t) (Some (JObj o)) h.
Proof.
  intros Ht Hk. simpl in Ht.
  repeat (destruct Ht as [<- | Ht]; [| try contradiction]);
    simpl in Hk; cbn [tool_name];
    (assert (Hneq : forall key, k <> key -> String.eqb k key = false)
      by (intros key; apply String.eqb_neq));
    unfold dispatch;
    [ change (route octokit "enable_github_pages")
        with (enableGithubPages octokit); unfold enableGithubPages
    | change (route octokit "get_github_pages_info")
        with (getGithubPagesInfo octokit); unfold getGithubPagesInfo
    | change (route octokit "deploy_to_github_pages")
        with (deployToGithubPages octokit); unfold deployToGithubPages
    | change (route octokit "disable_github_pages")
        with (disableGithubPages octokit); unfold disableGithubPages
    | change (route octokit "update_github_pages_config")
        with (updateGithubPagesConfig octokit);
      unfold updateGithubPagesConfig ];
    unfold validated, parse, EnableGithubPagesSchema,
      GetGithubPagesInfoSchema, DeployToGithubPagesSchema,
      DisableGithubPagesSchema, UpdateGithubPagesConfigSchema, z_object,
      shape_ap, shape_pure, field;
    cbn [lookup];
    rewrite !Hneq by (intros ->; apply Hk; tauto);
    reflexivity.
Qed.

Lemma unadvertised_keys_are_ignored_witness :
  dispatch Samples.stub "disable_github_pages"
    (Some (JObj (("dry_run", JBool true) :: Samples.repo))) []
  = dispatch Samples.stub "disable_github_pages" (Some (JObj Samples.repo))
      [].
Proof.
  apply (unadvertised_keys_are_ignored Samples.stub
           (nth 3 getTools (mkTool "" "" JNull)) "dry_run" (JBool true)
           Samples.repo []).
  - simpl. auto 6.
  - simpl. intros [H | [H | []]]; discriminate.
Defined.

(** ** A rejection always names a violation *)

Lemma vap_strict {A B} (f : Validation (A -> B)) (x : Validation A) errors :
  (forall e, f = inl e -> e <> []) ->
  (forall e, x = inl e -> e <> []) ->
  vap f x = inl errors -> errors <> [].
Proof.
  intros Hf Hx. destruct f as [ef | g], x as [ex | a]; simpl;
    intros [= <-]; auto.
  intros Happ. apply app_eq_nil in Happ. destruct Happ as [-> _].
  now apply (Hf []).
Qed.

Lemma strict_z_string : strict z_string.
Proof.
  intros p v errors. unfold z_string.
  destruct v as [[ | | | s | | ] | ]; intros [= <-]; discriminate.
Qed.

Lemma strict_z_enum values : strict (z_enum values).
Proof.
  intros p v errors. unfold z_enum.
  destruct v as [[ | | | s | | ] | ];
    try destruct (existsb (String.eqb s) values);
    intros [= <-]; discriminate.
Qed.

Lemma strict_z_optional {A} (inner : ZodType A) :
  strict inner -> strict (z_optional inner).
Proof.
  intros Hin p v errors. unfold z_optional.
  destruct v as [j |]; [| discriminate].
  destruct (inner p (Some j)) as [e | a] eqn:E; simpl; intros [= <-].
  exact (Hin _ _ _ E).
Qed.

Lemma strict_z_array {A} (item : ZodType A) :
  strict item -> strict (z_array item).
Proof.
  intros Hitem p v errors. unfold z_array.
  destruct v as [[ | | | | items | ] | ]; try (intros [= <-]; discriminate).
  generalize 0. revert errors.
  induction items as [| x rest IH]; intros errors n; simpl; [discriminate |].
  apply vap_strict.
  - intros e He.
    destruct (item (p ++ [Index n]) (Some x)) as [e' | a] eqn:E;
      simpl in He; [| discriminate].
    injection He as <-. exact (Hitem _ _ _ E).
  - intros e He. exact (IH e (S n) He).
Qed.

Lemma strict_shape_pure {A} (a : A) : strict_shape (shape_pure a).
Proof. intros p o errors. discriminate. Qed.

Lemma strict_shape_ap {A B} (f : Shape (A -> B)) (x : Shape A) :
  strict_shape f -> strict_shape x -> strict_shape (shape_ap f x).
Proof.
  intros Hf Hx p o errors. unfold shape_ap. apply vap_strict.
  - intros e. apply Hf.
  - intros e. apply Hx.
Qed.

Lemma strict_field {A} key (s : ZodType A) :
  strict s -> strict_shape (field key s).
Proof. intros Hs p o errors. unfold field. apply Hs. Qed.

Lemma strict_z_object {A} (shape : Shape A) :
  strict_shape shape -> strict (z_object shape).
Proof.
  intros Hsh p v errors. unfold z_object.
  destruct v as [[ | | | | | o] | ]; try (intros [= <-]; discriminate).
  apply Hsh.
Qed.

Create HintDb strict.

#[local] Hint Resolve strict_z_string strict_z_enum strict_z_optional
  strict_z_array strict_shape_pure strict_shape_ap strict_field
  strict_z_object : strict.

Lemma strict_SourceSchema : strict SourceSchema.
Proof. unfold SourceSchema. auto 10 with strict. Qed.

Lemma strict_FileSchema : strict FileSchema.
Proof. unfold FileSchema. auto 10 with strict. Qed.

#[local] Hint Resolve strict_SourceSchema strict_FileSchema : strict.

Lemma schema_check_strict name args errors :
  schema_check name args = Some errors -> errors <> [].
Proof.
  unfold schema_check, parse.
  by_tool name; try discriminate;
    match goal with
    | |- rejected (?s [] args) = Some errors -> _ =>
        assert (Hs : strict s)
          by (unfold EnableGithubPagesSchema, GetGithubPagesInfoSchema,
                DeployToGithubPagesSchema, DisableGithubPagesSchema,
                UpdateGithubPagesConfigSchema; auto 20 with strict);
        destruct (s [] args) as [e | a] eqn:E; simpl; intros [= <-];
        exact (Hs _ _ _ E)
    end.
Qed.

(** X14.  Whatever the dispatcher throws either names the unknown tool or
    lists at least one violation: a rejection with an empty list of issues
    does not occur, and nothing else is ever thrown. *)
Theorem thrown_errors_are_specific octokit name args h h' e :
  dispatch octokit name args h = (h', inl e) ->
  (~ In name tool_names /\ e = Error ("Unknown tool: " +++ name))
  \/ (In name tool_names
      /\ exists issue rest,
          schema_check name args = Some (issue :: rest)
          /\ e = Error (invalid_arguments (issue :: rest))).
Proof.
  intros Hrun.
  destruct (schema_check name args) as [errors |] eqn:Hcheck.
  - right. rewrite (dispatch_rejects octokit name args h errors Hcheck) in Hrun.
    injection Hrun as _ <-. split.
    + apply tool_names_spec. revert Hcheck. unfold schema_check.
      by_tool name; try reflexivity. discriminate.
    + destruct errors as [| issue rest].
      * now destruct (schema_check_strict _ _ _ Hcheck).
      * now exists issue, rest.
  - left. revert Hrun Hcheck.
    unfold schema_check, dispatch, route, enableGithubPages,
      getGithubPagesInfo, deployToGithubPages, disableGithubPages,
      updateGithubPagesConfig.
    rewrite tool_names_spec.
    by_tool name; intros Hrun Hcheck;
      try (eapply validated_accepts in Hcheck;
           destruct Hcheck as (h1 & result & Heq);
           rewrite Heq in Hrun; discriminate Hrun).
    injection Hrun as _ <-. split; [discriminate | reflexivity].
Qed.

Lemma thrown_errors_are_specific_witness :
  exists issue rest,
    schema_check "get_github_pages_info" None = Some (issue :: rest).
Proof.
  destruct (thrown_errors_are_specific Samples.stub "get_github_pages_info"
              None [] [] (Error "Invalid arguments: : Required") eq_refl)
    as [[Hname _] | (_ & issue & rest & Hcheck & _)].
  - exfalso. apply Hname. simpl. auto.
  - now exists issue, rest.
Defined.

(** ** What the settings handlers report back *)

(** X15.  [enable_github_pages] answers from the response to the request it
    issued: on success the payload carries the fixed message and the
    upstream's [html_url] (as [url]), [source] and [build_type], not the
    values of the request; when the call throws, the result is the failure
    envelope of that error. *)
Theorem enable_reports_upstream octokit args input h :
  parse EnableGithubPagesSchema args = inr input ->
  exists owner repo branch path build_type,
    fst (enableGithubPages octokit args h)
    = h ++ [CreatePagesSite owner repo branch path build_type]
    /\ match createPagesSite octokit h owner repo branch path build_type with
       | inr data =>
           exists props,
             snd (enableGithubPages octokit args h)
             = inr (mkResult (JObj props) false)
             /\ lookup "success" props = Some (JBool true)
             /\ lookup "message" props
                = Some (JStr "GitHub Pages enabled successfully")
             /\ lookup "url" props = html_url data
             /\ lookup "source" props = pg_source data
             /\ lookup "build_type" props = pg_build_type data
       | inl e =>
           snd (enableGithubPages octokit args h) = inr (upstream_failure e)
       end.
Proof.
  intros Hp. destruct (enable_run octokit args input h Hp) as (req & -> & ->).
  do 5 eexists. split; [reflexivity |]. simpl snd.
  destruct (createPagesSite octokit h _ _ _ _ _) as [e | data];
    [reflexivity |].
  eexists. split; [reflexivity |].
  destruct data as [[u |] st c n [src |] [b |] pub]; repeat split; reflexivity.
Qed.

Lemma enable_reports_upstream_witness :
  exists props,
    snd (enableGithubPages Samples.stub
           (Some (JObj (Samples.repo
                          ++ [("source", JObj [("branch", JStr "main")])])))
           [])
    = inr (mkResult (JObj props) false)
    /\ lookup "source" props
       = Some (JObj [("branch", JStr "main"); ("path", JStr "/docs")]).
Proof.
  destruct (enable_reports_upstream Samples.stub
              (Some (JObj (Samples.repo
                             ++ [("source", JObj [("branch", JStr "main")])])))
              (mkEnable "o" "r" (mkSource "main" None) None) [] eq_refl)
    as (owner & repo & branch & path & bt & _ & Hresult).
  simpl in Hresult.
  destruct Hresult as (props & Hrun & _ & _ & _ & Hsource & _).
  exists props. split; [exact Hrun | exact Hsource].
Defined.

(** X16.  [update_github_pages_config] likewise answers from the response
    to its request: on success the payload carries the upstream's [html_url]
    (as [url]), [source], [build_type] and [cname]; when the call throws, the
    result is the failure envelope of that error.  The handler's own
    "Invalid path" error is never the answer to validated arguments unless
    the upstream itself produced it. *)
Theorem update_reports_upstream octokit args input h :
  parse UpdateGithubPagesConfigSchema args = inr input ->
  exists params,
    fst (updateGithubPagesConfig octokit args h)
    = h ++ [UpdateInformationAboutPagesSite params]
    /\ match updateInformationAboutPagesSite octokit h params with
       | inr data =>
           exists props,
             snd (updateGithubPagesConfig octokit args h)
             = inr (mkResult (JObj props) false)
             /\ lookup "success" props = Some (JBool true)
             /\ lookup "url" props = html_url data
             /\ lookup "source" props = pg_source data
             /\ lookup "build_type" props = pg_build_type data
             /\ lookup "cname" props = pg_cname data
       | inl e =>
           snd (updateGithubPagesConfig octokit args h)
           = inr (upstream_failure e)
       end.
Proof.
  intros Hp. destruct (update_run octokit args input h Hp) as (req & -> & ->).
  eexists. split; [reflexivity |]. simpl snd.
  destruct (updateInformationAboutPagesSite octokit h _) as [e | data];
    [reflexivity |].
  eexists. split; [reflexivity |].
  destruct data as [[u |] st [c |] n [src |] [b |] pub];
    repeat split; reflexivity.
Qed.

Lemma update_reports_upstream_witness :
  exists props,
    snd (updateGithubPagesConfig Samples.stub
           (Some (JObj (Samples.repo ++ [("cname", JStr "example.com")])))
           [])
    = inr (mkResult (JObj props) false)
    /\ lookup "cname" props = Some JNull.
Proof.
  destruct (update_reports_upstream Samples.stub
              (Some (JObj (Samples.repo ++ [("cname", JStr "example.com")])))
              (mkUpdate "o" "r" None None (Some "example.com")) [] eq_refl)
    as (params & _ & Hresult).
  simpl in Hresult.
  destruct Hresult as (props & Hrun & _ & _ & _ & _ & Hcname).
  exists props. split; [exact Hrun | exact Hcname].
Defined.

(** ** The encoding of the blobs *)

Lemma FileSchema_inr p v file :
  FileSchema p v = inr file ->
  f_encoding file = None
  \/ f_encoding file = Some "utf-8"
  \/ f_encoding file = Some "base64".
Proof.
  unfold FileSchema, z_object.
  destruct v as [[ | | | | | o] | ]; try discriminate.
  intros H. invert_shape H. simpl.
  apply optional_enum_inr in Hfield.
  destruct Hfield as [[_ ->] | (x & _ & -> & Hin)]; [now left |].
  simpl in Hin. intuition (subst; auto).
Qed.

Lemma parse_items_files p items :
  forall n files,
    parse_items FileSchema p n items = inr files ->
    forall file, In file files ->
      exists p' v, FileSchema p' v = inr file.
Proof.
  induction items as [| x rest IH]; intros n files; cbn [parse_items].
  - intros [= <-] file [].
  - intros H. apply vap_inr in H. destruct H as (g & l & Hg & Hrest & ->).
    apply vmap_inr in Hg. destruct Hg as (a & Ha & ->).
    intros file [<- | Hin]; [eexists _, _; exact Ha |].
    exact (IH _ _ Hrest file Hin).
Qed.

Lemma validated_files_encoding args input files file :
  parse DeployToGithubPagesSchema args = inr input ->
  dp_files input = Some files ->
  In file files ->
  blob_encoding file
  = match f_encoding file with
    | Some encoding => encoding
    | None => "utf-8"
    end
  /\ (blob_encoding file = "utf-8" \/ blob_encoding file = "base64").
Proof.
  intros Hp Hfiles Hin. apply DeployToGithubPagesSchema_inr in Hp.
  destruct Hp as (o & _ & _ & _ & _ & _ & Harr). rewrite Hfiles in Harr.
  apply z_optional_inr in Harr.
  destruct Harr as [[_ Hnone] | (l & Harr & [= <-])]; [discriminate |].
  unfold z_array in Harr.
  destruct (lookup "files" o) as [[ | | | | items | ] | ]; try discriminate.
  destruct (parse_items_files _ _ _ _ Harr file Hin) as (p' & v & Hfile).
  apply FileSchema_inr in Hfile. unfold blob_encoding.
  destruct Hfile as [-> | [-> | ->]]; simpl; auto.
Qed.

Lemma stage_blob_requests input files s owner repo content encoding :
  In (CreateBlob owner repo content encoding) (stage_requests input files s) ->
  exists file,
    In file files
    /\ CreateBlob owner repo content encoding
       = blob_request (dp_owner input) (dp_repo input) file.
Proof.
  assert (Hprefix : forall tip,
             In (CreateBlob owner repo content encoding)
                (deploy_prefix input tip files) ->
             exists file,
               In file files
               /\ CreateBlob owner repo content encoding
                  = blob_request (dp_owner input) (dp_repo input) file).
  { intros tip. unfold deploy_prefix. intros Hin.
    apply in_app_or in Hin. destruct Hin as [Hin | Hin].
    - simpl in Hin. intuition discriminate.
    - apply in_map_iff in Hin. destruct Hin as (file & Heq & Hin).
      now exists file. }
  destruct s; unfold stage_requests; intros Hin;
    try (apply in_app_or in Hin; destruct Hin as [Hin | Hin];
         [now apply (Hprefix tip) | simpl in Hin; intuition discriminate]);
    try now apply (Hprefix tip).
  simpl in Hin. intuition discriminate.
  simpl in Hin. intuition discriminate.
Qed.

(** X17.  Every blob request of a deploy call belongs to one of the
    validated files: it carries that file's content, and its encoding is the
    encoding the caller gave for the file, or ["utf-8"] when the caller gave
    none; no other encoding than ["utf-8"] and ["base64"] is ever
    requested. *)
Theorem blob_encoding_is_the_callers octokit args input files h :
  parse DeployToGithubPagesSchema args = inr input ->
  dp_files input = Some files ->
  exists new,
    fst (deployToGithubPages octokit args h) = h ++ new
    /\ forall owner repo content encoding,
        In (CreateBlob owner repo content encoding) new ->
        exists file,
          In file files
          /\ content = f_content file
          /\ encoding = match f_encoding file with
                        | Some e => e
                        | None => "utf-8"
                        end
          /\ (encoding = "utf-8" \/ encoding = "base64").
Proof.
  intros Hp Hfiles.
  destruct files as [| file0 rest].
  { rewrite (deploy_no_files octokit args input h Hp) by auto.
    exists []. split; [now rewrite app_nil_r | intros ? ? ? ? []]. }
  destruct (deploy_stages octokit args input (file0 :: rest) h Hp Hfiles)
    as (s & -> & _); [discriminate |].
  eexists. split; [reflexivity |].
  intros owner repo content encoding Hin.
  apply stage_blob_requests in Hin. destruct Hin as (file & Hin & Heq).
  unfold blob_request in Heq. injection Heq as -> -> -> ->.
  destruct (validated_files_encoding args input _ file Hp Hfiles Hin)
    as [Henc Hvalues].
  exists file. now rewrite <- Henc.
Qed.

Lemma blob_encoding_is_the_callers_witness :
  exists file,
    In file [mkFile "a.txt" "x" None; mkFile "b.txt" "eA==" (Some "base64")]
    /\ "eA==" = f_content file
    /\ "base64" = match f_encoding file with
                  | Some e => e
                  | None => "utf-8"
                  end.
Proof.
  destruct (blob_encoding_is_the_callers Samples.stub
              (Samples.deploy_args
                 [("files", JArr [Samples.file_a; Samples.file_b])])
              (mkDeploy "o" "r" "gh-pages" None
                 (Some [mkFile "a.txt" "x" None;
                        mkFile "b.txt" "eA==" (Some "base64")]))
              [mkFile "a.txt" "x" None; mkFile "b.txt" "eA==" (Some "base64")]
              [] eq_refl eq_refl) as (new & Heq & Hall).
  simpl app in Heq.
  assert (Hin : In (CreateBlob "o" "r" "eA==" "base64") new).
  { rewrite <- Heq. simpl. auto. }
  destruct (Hall "o" "r" "eA==" "base64" Hin)
    as (file & Hfile & Hcontent & Hencoding & _).
  now exists file.
Defined.
